(** * ETL_Project_Banks: a model of the bank market-capitalisation pipeline

    The development embeds [src/ETL_Banks/ETL_Project_Banks.py]: the
    functions [log_progress], [extract], [transform], [load_to_csv],
    [load_to_db], [run_query] and the module's top-level script, here [run].

    Python values are modelled as the program has them:
    - [str] as [string], one [ascii] per code point below 256;
    - [float] as the primitive binary64 [float], with the arithmetic of the
      hardware (round to nearest, ties to even), specified by the
      soft-float operations of [SpecFloat];
    - a pandas [DataFrame] as an ordered list of labelled columns under a
      [RangeIndex];
    - the parsed HTML document as a tree of tags and strings;
    - exceptions as the [Raise] outcome of a computation, and everything the
      script touches outside its own variables (the log file, written CSV
      files, the SQLite databases, connections, the terminal, the objects
      on the heap) as the fields of a [World] threaded through. *)

From Stdlib Require Import ZArith List Ascii Bool Lia.
From Stdlib Require Import Floats.PrimFloat Floats.SpecFloat Floats.FloatOps.
From Stdlib Require Import Floats.FloatAxioms.
From stdpp Require Import base option list gmap strings.

Set Warnings "-inexact-float,-register-all".

(* ===================================================================== *)
(** * Python strings *)
(* ===================================================================== *)

Module PyStr.

(** [str.isspace] on one character, for the code points below 256:
    TAB..CR, FS..US, SPACE, NEL and NBSP. *)
Definition isspace (c : ascii) : bool :=
  let n := nat_of_ascii c in
  ((9 <=? n) && (n <=? 13)) || ((28 <=? n) && (n <=? 32))
  || (n =? 133) || (n =? 160).

(** Stripping the characters that satisfy [sp] from the left and from the
    right of a string. *)
Fixpoint lstrip_by (sp : ascii -> bool) (s : string) : string :=
  match s with
  | EmptyString => EmptyString
  | String c s' => if sp c then lstrip_by sp s' else s
  end.

Fixpoint rstrip_by (sp : ascii -> bool) (s : string) : string :=
  match s with
  | EmptyString => EmptyString
  | String c s' =>
      match rstrip_by sp s' with
      | EmptyString => if sp c then EmptyString else String c EmptyString
      | r => String c r
      end
  end.

Definition strip_by (sp : ascii -> bool) (s : string) : string :=
  rstrip_by sp (lstrip_by sp s).

(** [s.strip()] *)
Definition strip (s : string) : string := strip_by isspace s.

(** First and last character of a string, when it has one. *)
Definition first (s : string) : option ascii :=
  match s with
  | EmptyString => None
  | String c _ => Some c
  end.

Fixpoint last (s : string) : option ascii :=
  match s with
  | EmptyString => None
  | String c EmptyString => Some c
  | String _ s' => last s'
  end.

Definition is_digit (c : ascii) : bool :=
  let n := nat_of_ascii c in (48 <=? n) && (n <=? 57).

Definition digit_val (c : ascii) : Z := Z.of_nat (nat_of_ascii c) - 48.

(** ASCII lower-casing, as used to read [inf] and [nan] in any case. *)
Definition lower (c : ascii) : ascii :=
  let n := nat_of_ascii c in
  if (65 <=? n) && (n <=? 90) then ascii_of_nat (n + 32) else c.

Definition lower_all (l : list ascii) : list ascii := map lower l.

End PyStr.

(* ===================================================================== *)
(** * Python floats *)
(* ===================================================================== *)

Module PyFloat.

(** The binary64 value nearest to [num / den] (ties to even), for
    [0 <= num] and [0 < den]: the division of the soft-float
    specification, run on the exact integers. *)
Definition of_ratio (num den : Z) : float :=
  match num, den with
  | Zpos n, Zpos d =>
      SF2Prim (SFdiv prec emax (S754_finite false n 0) (S754_finite false d 0))
  | _, _ => zero
  end.

(** The value of the decimal [m * 10^e], correctly rounded. *)
Definition of_decimal (m e : Z) : float :=
  if (0 <=? e)%Z then of_ratio (m * 10 ^ e) 1
  else of_ratio m (10 ^ (- e)).

(** ** [float(s)] on a string

    The text is stripped of surrounding white space; an underscore is
    accepted only between two digits; then comes an optional sign and
    either [inf], [infinity] or [nan] in any case, or a decimal number
    [digits [. digits] [(e|E) [sign] digits]] with a digit before or after
    the point. Anything else is a [ValueError], here [None]. *)

(** The white space [float()] skips around the number: TAB..CR and SPACE,
    and of the code points from 128 on those that are spaces, NEL and
    NBSP. The separators FS..US, which [str.strip] removes, are not among
    them. *)
Definition is_space (c : ascii) : bool :=
  let n := nat_of_ascii c in
  ((9 <=? n) && (n <=? 13)) || (n =? 32) || (n =? 133) || (n =? 160).

(** Every underscore stands between two digits. *)
Fixpoint underscores_ok (prev : option ascii) (l : list ascii) : bool :=
  match l with
  | [] => match prev with
          | Some p => negb (Ascii.eqb p "_")
          | None => true
          end
  | c :: l' =>
      let prev_digit :=
        match prev with Some p => PyStr.is_digit p | None => false end in
      let prev_us :=
        match prev with Some p => Ascii.eqb p "_" | None => false end in
      (if Ascii.eqb c "_" then prev_digit
       else negb prev_us || PyStr.is_digit c)
      && underscores_ok (Some c) l'
  end.

Definition drop_underscores (l : list ascii) : list ascii :=
  filter (fun c => Ascii.eqb c "_" = false) l.

(** Splits off a leading sign: [true] for minus. *)
Definition take_sign (l : list ascii) : bool * list ascii :=
  match l with
  | c :: l' =>
      if Ascii.eqb c "-" then (true, l')
      else if Ascii.eqb c "+" then (false, l')
      else (false, l)
  | [] => (false, l)
  end.

(** Splits off the longest prefix of digits. *)
Fixpoint take_digits (l : list ascii) : list ascii * list ascii :=
  match l with
  | c :: l' =>
      if PyStr.is_digit c
      then let '(ds, rest) := take_digits l' in (c :: ds, rest)
      else ([], l)
  | [] => ([], [])
  end.

Definition digits_val (ds : list ascii) : Z :=
  fold_left (fun acc c => (10 * acc + PyStr.digit_val c)%Z) ds 0%Z.

(** The exponent part, when the rest of the text is one. *)
Definition parse_exponent (l : list ascii) : option Z :=
  match l with
  | [] => Some 0%Z
  | c :: l' =>
      if Ascii.eqb (PyStr.lower c) "e" then
        let '(neg, l'') := take_sign l' in
        match take_digits l'' with
        | ((_ :: _) as ds, []) =>
            Some (if neg then (- digits_val ds)%Z else digits_val ds)
        | _ => None
        end
      else None
  end.

(** An unsigned decimal number. *)
Definition parse_number (l : list ascii) : option float :=
  let '(ip, rest) := take_digits l in
  let '(fp, rest') :=
    match rest with
    | c :: r => if Ascii.eqb c "." then take_digits r else ([], rest)
    | [] => ([], [])
    end in
  match ip ++ fp with
  | [] => None
  | ds =>
      match parse_exponent rest' with
      | Some e => Some (of_decimal (digits_val ds) (e - Z.of_nat (length fp)))
      | None => None
      end
  end.

Definition parse_inf_nan (l : list ascii) : option float :=
  let w := String.string_of_list_ascii (PyStr.lower_all l) in
  if String.eqb w "inf" then Some infinity
  else if String.eqb w "infinity" then Some infinity
  else if String.eqb w "nan" then Some nan
  else None.

Definition float_of_str (s : string) : option float :=
  let l := String.list_ascii_of_string (PyStr.strip_by is_space s) in
  if underscores_ok None l then
    let '(neg, body) := take_sign (drop_underscores l) in
    let magnitude :=
      match parse_inf_nan body with
      | Some f => Some f
      | None => parse_number body
      end in
    match magnitude with
    | Some f => Some (if neg then PrimFloat.opp f else f)
    | None => None
    end
  else None.

(** ** [numpy.round(x, 2)]

    numpy scales by [10 ** decimals], rounds to the nearest integer with
    [rint] and scales back. *)

Definition two52 : float := 0x1p+52%float.

(** C's [rint] in the default rounding mode: below [2^52] in magnitude,
    adding and subtracting [2^52] leaves the nearest integer (ties to
    even); from [2^52] on every float is an integer already. The sign of
    the argument is kept, so that [rint (-0.3)] is [-0.0]. *)
Definition rint (x : float) : float :=
  let a := PrimFloat.abs x in
  if PrimFloat.ltb a two52 then
    let r := PrimFloat.sub (PrimFloat.add a two52) two52 in
    if PrimFloat.get_sign x then PrimFloat.opp r else r
  else x.

(** [10 ** decimals] as a float. *)
Definition power_of_ten (decimals : nat) : float :=
  of_decimal 1 (Z.of_nat decimals).

Definition np_round (x : float) (decimals : nat) : float :=
  match decimals with
  | O => rint x
  | _ => PrimFloat.div
           (rint (PrimFloat.mul x (power_of_ten decimals)))
           (power_of_ten decimals)
  end.

End PyFloat.

(* ===================================================================== *)
(** * Outcomes of Python code *)
(* ===================================================================== *)

(** The exceptions the script's calls can raise. *)
Inductive exn : Type :=
| ConnectionError                 (* requests.get cannot retrieve the page *)
| IndexError                      (* list index out of range *)
| KeyError (key : string)         (* missing dict key or column label *)
| ValueError (what : string)      (* e.g. could not convert string to float *)
| TypeError
| FileNotFoundError (path : string)
| OSError (path : string)         (* the file cannot be written *)
| OperationalError                (* sqlite3: cannot open or write *)
| ProgrammingError                (* sqlite3: use of a closed connection *)
| DatabaseError (query : string). (* pandas: the statement cannot be executed *)

Inductive result (A : Type) : Type :=
| Ok (a : A)
| Raise (e : exn).
Arguments Ok {A} a.
Arguments Raise {A} e.

Definition result_bind {A B} (r : result A) (k : A -> result B) : result B :=
  match r with
  | Ok a => k a
  | Raise e => Raise e
  end.

(** [l[i]] for a non-negative index. *)
Definition list_getitem {A} (l : list A) (i : nat) : result A :=
  match l !! i with
  | Some a => Ok a
  | None => Raise IndexError
  end.

(** Runs [f] over a list from left to right, stopping at the first
    exception: a list comprehension, or an element-wise conversion. *)
Fixpoint result_map {A B} (f : A -> result B) (l : list A) : result (list B) :=
  match l with
  | [] => Ok []
  | a :: l' =>
      match f a with
      | Raise e => Raise e
      | Ok b =>
          match result_map f l' with
          | Raise e => Raise e
          | Ok bs => Ok (b :: bs)
          end
      end
  end.

(* ===================================================================== *)
(** * pandas data frames *)
(* ===================================================================== *)

(** A cell of a data frame: a [str], a [float] (NaN marks a missing
    value) or [None]. *)
Inductive value : Type :=
| VStr (s : string)
| VFloat (f : float)
| VNone.

(** A frame is its labelled columns, in order; its index is the
    [RangeIndex] of its rows. Column labels are taken to be distinct. *)
Definition DataFrame : Type := list (string * list value).

Module Frame.

Definition columns (df : DataFrame) : list string := map fst df.

Definition nrows (df : DataFrame) : nat :=
  match df with
  | [] => 0
  | (_, col) :: _ => length col
  end.

Fixpoint lookup_col (c : string) (df : DataFrame) : option (list value) :=
  match df with
  | [] => None
  | (k, col) :: df' => if String.eqb k c then Some col else lookup_col c df'
  end.

(** [df[c]] *)
Definition getitem (df : DataFrame) (c : string) : result (list value) :=
  match lookup_col c df with
  | Some col => Ok col
  | None => Raise (KeyError c)
  end.

(** The cell of column [c] in row [i]. *)
Definition cell (df : DataFrame) (c : string) (i : nat) : option value :=
  match lookup_col c df with
  | Some col => col !! i
  | None => None
  end.

(** Replaces column [c] where it stands, or adds it as the last column. *)
Fixpoint set_col (df : DataFrame) (c : string) (vals : list value) : DataFrame :=
  match df with
  | [] => [(c, vals)]
  | (k, col) :: df' =>
      if String.eqb k c then (k, vals) :: df'
      else (k, col) :: set_col df' c vals
  end.

Definition nan_column (n : nat) : list value := repeat (VFloat nan) n.

(** [df[c] = vals] for a list [vals]. A frame without rows takes its index
    from the list (its other columns are filled with NaN); otherwise the
    list must be as long as the index. *)
Definition setitem (df : DataFrame) (c : string) (vals : list value)
  : result DataFrame :=
  if Nat.eqb (nrows df) 0 then
    Ok (set_col (map (fun kc => (fst kc, nan_column (length vals))) df) c vals)
  else if Nat.eqb (length vals) (nrows df) then Ok (set_col df c vals)
  else Raise (ValueError "Length of values does not match length of index").

(** [pd.DataFrame(columns=cols)] *)
Definition of_columns (cols : list string) : DataFrame :=
  map (fun c => (c, [])) cols.

(** [pd.DataFrame(data_dict, index=[0])] for a dict of scalars. *)
Definition of_dict (d : list (string * value)) : DataFrame :=
  map (fun kv => (fst kv, [snd kv])) d.

Definition has_label (c : string) (labels : list string) : bool :=
  existsb (String.eqb c) labels.

Definition column_or_nan (df : DataFrame) (c : string) : list value :=
  match lookup_col c df with
  | Some col => col
  | None => nan_column (nrows df)
  end.

(** [pd.concat([df, df1], ignore_index=True)]: the rows of [df1] under the
    rows of [df], over the union of their columns, NaN where a frame lacks
    a column. *)
Definition concat (df df1 : DataFrame) : DataFrame :=
  let labels :=
    columns df
    ++ filter (fun c => negb (has_label c (columns df))) (columns df1) in
  map (fun c => (c, column_or_nan df c ++ column_or_nan df1 c)) labels.

(** One element of an object column converted by [astype(float)]: a string
    goes through [float()], [None] becomes NaN. *)
Definition to_float (v : value) : result value :=
  match v with
  | VStr s =>
      match PyFloat.float_of_str s with
      | Some f => Ok (VFloat f)
      | None => Raise (ValueError s)
      end
  | VFloat f => Ok (VFloat f)
  | VNone => Ok (VFloat nan)
  end.

(** [col.astype(float)] *)
Definition astype_float (col : list value) : result (list value) :=
  result_map to_float col.

(** Every column is as long as the index. *)
Definition wf (df : DataFrame) : Prop :=
  Forall (fun kc => length (snd kc) = nrows df) df.

(** Row [i] of the frame, across its columns. *)
Definition row (df : DataFrame) (i : nat) : list value :=
  map (fun kc => nth i (snd kc) (VFloat nan)) df.

Definition rows (df : DataFrame) : list (list value) :=
  map (row df) (seq 0 (nrows df)).

End Frame.

(** ** What the sinks hold *)

(** A CSV file as written by [to_csv]: the header line and one record per
    row, led by its index label. Cells are kept as values; their rendering
    as text is not modelled. *)
Record CsvFile : Type := {
  csv_header : list string;
  csv_records : list (nat * list value)
}.

(** [df.to_csv(path)] writes the index as an unnamed first column. *)
Definition to_csv (df : DataFrame) : CsvFile :=
  {| csv_header := "" :: Frame.columns df;
     csv_records := combine (seq 0 (Frame.nrows df)) (Frame.rows df) |}.

(** A table of an SQLite database. *)
Record SqlTable : Type := {
  tbl_columns : list string;
  tbl_rows : list (list value)
}.

(** The table [df.to_sql(..., index=False)] creates. *)
Definition sql_table (df : DataFrame) : SqlTable :=
  {| tbl_columns := Frame.columns df; tbl_rows := Frame.rows df |}.

(** The [if_exists] argument of [to_sql]. *)
Inductive if_exists : Type := IfFail | IfReplace | IfAppend.

(* ===================================================================== *)
(** * The parsed HTML document *)
(* ===================================================================== *)

Inductive node : Type :=
| NavigableString (s : string)
| Tag (name : string) (attrs : list (string * string)) (contents : list node).

Module Soup.

(** Every node below [n], in document order. *)
Fixpoint descendants (n : node) : list node :=
  match n with
  | NavigableString _ => []
  | Tag _ _ contents => flat_map (fun c => c :: descendants c) contents
  end.

Definition is_tag (name : string) (n : node) : bool :=
  match n with
  | NavigableString _ => false
  | Tag k _ _ => String.eqb k name
  end.

(** [n.find_all(name)] *)
Definition find_all (name : string) (n : node) : list node :=
  filter (fun d => is_tag name d = true) (descendants n).

(** [n.text]: the strings below [n], joined. *)
Fixpoint text (n : node) : string :=
  match n with
  | NavigableString s => s
  | Tag _ _ contents => fold_right (fun c acc => text c +:+ acc) "" contents
  end.

Fixpoint lookup_attr (key : string) (attrs : list (string * string))
  : option string :=
  match attrs with
  | [] => None
  | (k, v) :: attrs' => if String.eqb k key then Some v else lookup_attr key attrs'
  end.

(** [n.get(key)]: [None] when the attribute is absent. *)
Definition get (key : string) (n : node) : option string :=
  match n with
  | NavigableString _ => None
  | Tag _ attrs _ => lookup_attr key attrs
  end.

End Soup.

(* ===================================================================== *)
(** * The world of a run *)
(* ===================================================================== *)

(** Rows of the exchange-rate file under its columns [Currency] and
    [Rate], as [pd.read_csv] returns them; the rates are taken to be
    floats. The file is taken to have both columns: one that can be read
    but lacks a column, on which [set_index('Currency').to_dict()['Rate']]
    raises [KeyError], is not represented, and what is proved of a rate
    file that was read is proved of files with both columns. *)
Definition RateSheet : Type := list (string * float).

(** What [print] wrote to the terminal. *)
Inductive printed : Type :=
| PStr (s : string)
| PFrame (df : DataFrame).

(** What the run reads from outside and cannot change. *)
Record Env : Type := {
  (** [requests.get(url).text]; [None] when the request raises. *)
  requests_get : string -> option string;
  (** [BeautifulSoup(page, 'html.parser')] *)
  html_parser : string -> node;
  (** [pd.read_csv(path)]; [None] when the file cannot be read. *)
  read_csv : string -> option RateSheet;
  (** [datetime.now().strftime(...)] at the n-th reading of the clock. *)
  strftime_now : nat -> string;
  (** Whether the file at a path can be written. *)
  csv_writable : string -> bool;
  (** Whether [sqlite3.connect] can open the database file. *)
  sqlite_connectable : string -> bool;
  (** Whether the database file accepts a write. *)
  sqlite_writable : string -> bool;
  (** The SQL engine: the result of a query on a database file, given the
      tables stored; [None] when the query cannot be executed. *)
  sqlite_select : string -> string -> gmap (string * string) SqlTable
                  -> option DataFrame
}.

(** What the run can change. *)
Record World : Type := {
  (** DataFrame objects, by identity. *)
  heap : gmap nat DataFrame;
  (** The chunks appended to [code_log.txt]. *)
  code_log : list string;
  (** How often the clock has been read. *)
  clock : nat;
  (** CSV files written, by path. *)
  csv_files : gmap string CsvFile;
  (** Tables of the SQLite files, by file and table name. *)
  databases : gmap (string * string) SqlTable;
  (** Connection objects: the file each is bound to and whether it is
      still open. *)
  connections : gmap nat (string * bool);
  (** The terminal. *)
  stdout : list printed
}.

Definition set_heap (h : gmap nat DataFrame) (w : World) : World :=
  {| heap := h; code_log := code_log w; clock := clock w;
     csv_files := csv_files w; databases := databases w;
     connections := connections w; stdout := stdout w |}.

Definition set_log (l : list string) (n : nat) (w : World) : World :=
  {| heap := heap w; code_log := l; clock := n;
     csv_files := csv_files w; databases := databases w;
     connections := connections w; stdout := stdout w |}.

Definition set_csv_files (f : gmap string CsvFile) (w : World) : World :=
  {| heap := heap w; code_log := code_log w; clock := clock w;
     csv_files := f; databases := databases w;
     connections := connections w; stdout := stdout w |}.

Definition set_databases (d : gmap (string * string) SqlTable) (w : World)
  : World :=
  {| heap := heap w; code_log := code_log w; clock := clock w;
     csv_files := csv_files w; databases := d;
     connections := connections w; stdout := stdout w |}.

Definition set_connections (c : gmap nat (string * bool)) (w : World) : World :=
  {| heap := heap w; code_log := code_log w; clock := clock w;
     csv_files := csv_files w; databases := databases w;
     connections := c; stdout := stdout w |}.

Definition set_stdout (o : list printed) (w : World) : World :=
  {| heap := heap w; code_log := code_log w; clock := clock w;
     csv_files := csv_files w; databases := databases w;
     connections := connections w; stdout := o |}.

(** ** Computations: a state and exception monad over the world.
    An exception keeps the effects made before it was raised. *)

Definition M (A : Type) : Type := World -> result A * World.

Definition ret {A} (a : A) : M A := fun w => (Ok a, w).

Definition raise {A} (e : exn) : M A := fun w => (Raise e, w).

Definition bind {A B} (m : M A) (k : A -> M B) : M B :=
  fun w =>
    match m w with
    | (Ok a, w') => k a w'
    | (Raise e, w') => (Raise e, w')
    end.

Definition lift {A} (r : result A) : M A := fun w => (r, w).

Declare Scope py_scope.
Delimit Scope py_scope with py.
Notation "x <- m ;; k" := (bind m (fun x => k))
  (at level 100, m at level 99, right associativity) : py_scope.
Notation "m ;; k" := (bind m (fun _ => k))
  (at level 100, right associativity) : py_scope.
Local Open Scope py_scope.

(** ** Objects on the heap *)

(** A new DataFrame object. *)
Definition alloc (df : DataFrame) : M nat :=
  fun w =>
    let l := fresh (dom (heap w)) in
    (Ok l, set_heap (<[l := df]> (heap w)) w).

(** The frame a variable refers to. *)
Definition deref (l : nat) : M DataFrame :=
  fun w =>
    match heap w !! l with
    | Some df => (Ok df, w)
    | None => (Raise TypeError, w)
    end.

(** Overwrites the object in place. *)
Definition store (l : nat) (df : DataFrame) : M unit :=
  fun w => (Ok tt, set_heap (<[l := df]> (heap w)) w).

(** [df[c]] on the object at [l]. *)
Definition df_getitem (l : nat) (c : string) : M (list value) :=
  df <- deref l ;; lift (Frame.getitem df c).

(** [df[c] = vals] on the object at [l]: the object itself is changed. *)
Definition df_setitem (l : nat) (c : string) (vals : list value) : M unit :=
  df <- deref l ;;
  df' <- lift (Frame.setitem df c vals) ;;
  store l df'.

Definition print (p : printed) : M unit :=
  fun w => (Ok tt, set_stdout (stdout w ++ [p]) w).

(** ** sqlite3 and the pandas writers *)

(** [sqlite3.connect(file)] *)
Definition sqlite3_connect (env : Env) (file : string) : M nat :=
  fun w =>
    if sqlite_connectable env file then
      let h := fresh (dom (connections w)) in
      (Ok h, set_connections (<[h := (file, true)]> (connections w)) w)
    else (Raise OperationalError, w).

(** [conn.close()] *)
Definition connection_close (h : nat) : M unit :=
  fun w =>
    match connections w !! h with
    | Some (file, _) =>
        (Ok tt, set_connections (<[h := (file, false)]> (connections w)) w)
    | None => (Raise TypeError, w)
    end.

(** The database file behind an open connection. *)
Definition open_file (h : nat) : M string :=
  fun w =>
    match connections w !! h with
    | Some (file, true) => (Ok file, w)
    | Some (_, false) => (Raise ProgrammingError, w)
    | None => (Raise TypeError, w)
    end.

(** [df.to_csv(path)]: the file is replaced as a whole; a write that
    fails leaves it as it was. *)
Definition df_to_csv (env : Env) (l : nat) (path : string) : M unit :=
  df <- deref l ;;
  fun w =>
    if csv_writable env path
    then (Ok tt, set_csv_files (<[path := to_csv df]> (csv_files w)) w)
    else (Raise (OSError path), w).

(** [df.to_sql(name, conn, if_exists=mode, index=False)]. pandas first
    asks whether the table exists, which is a read. For an existing table,
    ['fail'] raises [ValueError], ['replace'] drops it and creates it anew,
    ['append'] inserts into it; a table that does not exist is created. On
    a database that rejects writes the first writing statement fails and
    nothing has been changed: the [DROP TABLE] of ['replace'] goes through
    pandas' [execute], which raises [DatabaseError]; the other statements
    raise sqlite3's [OperationalError]. *)
Definition df_to_sql (env : Env) (l : nat) (name : string) (h : nat)
  (mode : if_exists) : M unit :=
  df <- deref l ;;
  file <- open_file h ;;
  fun w =>
    match mode, databases w !! (file, name) with
    | IfFail, Some _ => (Raise (ValueError name), w)
    | IfReplace, Some _ =>
        if sqlite_writable env file then
          (Ok tt,
           set_databases (<[(file, name) := sql_table df]> (databases w)) w)
        else (Raise (DatabaseError ("DROP TABLE " +:+ name)), w)
    | IfAppend, Some old =>
        if sqlite_writable env file
           && bool_decide (tbl_columns old = Frame.columns df) then
          (Ok tt,
           set_databases
             (<[(file, name) :=
                  {| tbl_columns := tbl_columns old;
                     tbl_rows := tbl_rows old ++ Frame.rows df |}]>
                (databases w)) w)
        else (Raise OperationalError, w)
    | _, None =>
        if sqlite_writable env file then
          (Ok tt,
           set_databases (<[(file, name) := sql_table df]> (databases w)) w)
        else (Raise OperationalError, w)
    end.

(** [pd.read_sql(query, conn)] *)
Definition pd_read_sql (env : Env) (query : string) (h : nat) : M DataFrame :=
  file <- open_file h ;;
  fun w =>
    match sqlite_select env query file (databases w) with
    | Some out => (Ok out, w)
    | None => (Raise (DatabaseError query), w)
    end.

(* ===================================================================== *)
(** * The script *)
(* ===================================================================== *)

Definition url : string :=
  "https://web.archive.org/web/20230908091635/https://en.wikipedia.org/wiki/List_of_largest_banks".
Definition table_attribs : list string := ["Name"; "MC_USD_Billion"].
Definition csv_path : string := "Largest_banks_data.csv".
Definition db_name : string := "Banks.db".
Definition table_name : string := "Largest_banks".
Definition output_path : string := "./Largest_banks_data.csv".

(** One entry of the log file. *)
Definition log_entry (timestamp message : string) : string :=
  timestamp +:+ " : " +:+ message +:+ String "010" EmptyString.

(** [log_progress(message)]: appends one stamped line to [code_log.txt]. *)
Definition log_progress (env : Env) (message : string) : M unit :=
  fun w =>
    let timestamp := strftime_now env (clock w) in
    (Ok tt, set_log (code_log w ++ [log_entry timestamp message])
                    (S (clock w)) w).

Definition value_of_option (o : option string) : value :=
  match o with
  | Some s => VStr s
  | None => VNone
  end.

(** The body of the loop of [extract] for one row: the one-row frame to
    append, or nothing for a row with at most one cell. *)
Definition extract_row (row : node) : result (option DataFrame) :=
  let col := Soup.find_all "td" row in
  if 1 <? length col then
    result_bind (list_getitem col 1) (fun name_cell =>
    let link1 := Soup.find_all "a" name_cell in
    result_bind (list_getitem link1 1) (fun link2 =>
    result_bind (list_getitem col 2) (fun col2 =>
    let mc_usd_billion := PyStr.strip (Soup.text col2) in
    let Bank_Name := Soup.get "title" link2 in
    let data_dict := [("Name", value_of_option Bank_Name);
                      ("MC_USD_Billion", VStr mc_usd_billion)] in
    Ok (Some (Frame.of_dict data_dict)))))
  else Ok None.

(** The loop of [extract] over the rows, [df] being the frame built so
    far. *)
Fixpoint extract_rows (rows : list node) (df : DataFrame) : result DataFrame :=
  match rows with
  | [] => Ok df
  | row :: rows' =>
      match extract_row row with
      | Raise e => Raise e
      | Ok None => extract_rows rows' df
      | Ok (Some df1) => extract_rows rows' (Frame.concat df df1)
      end
  end.

(** [extract(url, table_attribs)]. Each [pd.concat] makes a new frame and
    drops the previous one; the object returned is the last of them. *)
Definition extract (env : Env) (url : string) (table_attribs : list string)
  : M nat :=
  page <- (fun w => match requests_get env url with
                    | Some text => (Ok text, w)
                    | None => (Raise ConnectionError, w)
                    end) ;;
  let data := html_parser env page in
  let df := Frame.of_columns table_attribs in
  let tables := Soup.find_all "tbody" data in
  table0 <- lift (list_getitem tables 0) ;;
  let rows := Soup.find_all "tr" table0 in
  df <- lift (extract_rows (drop 1 rows) df) ;;
  alloc df.

(** [exr_df.set_index('Currency').to_dict()['Rate']]: a later row of a
    currency overrides an earlier one. *)
Definition to_dict (exr_df : RateSheet) : gmap string float :=
  fold_left (fun d kv => <[fst kv := snd kv]> d) exr_df ∅.

(** One element of [[np.round(x*exchange_rate[code], 2) for x in column]]:
    the rate is looked up for each element. *)
Definition convert (exchange_rate : gmap string float) (code : string)
  (x : value) : result value :=
  match exchange_rate !! code with
  | None => Raise (KeyError code)
  | Some rate =>
      match x with
      | VFloat f => Ok (VFloat (PyFloat.np_round (PrimFloat.mul f rate) 2))
      | _ => Raise TypeError
      end
  end.

(** [transform(df, csv_path)]. The rates are read from the fixed file
    [exchange_rate.csv]; the argument [csv_path] is not used. A file that
    cannot be read is represented by [FileNotFoundError], whatever
    [pd.read_csv] raises on it. *)
Definition transform (env : Env) (df : nat) (csv_path : string) : M nat :=
  raw <- df_getitem df "MC_USD_Billion" ;;
  usd <- lift (Frame.astype_float raw) ;;
  df_setitem df "MC_USD_Billion" usd ;;
  exr_df <- (fun w => match read_csv env "exchange_rate.csv" with
                      | Some sheet => (Ok sheet, w)
                      | None => (Raise (FileNotFoundError "exchange_rate.csv"), w)
                      end) ;;
  let exchange_rate := to_dict exr_df in
  col <- df_getitem df "MC_USD_Billion" ;;
  gbp <- lift (result_map (convert exchange_rate "GBP") col) ;;
  df_setitem df "MC_GBP_Billion" gbp ;;
  col <- df_getitem df "MC_USD_Billion" ;;
  eur <- lift (result_map (convert exchange_rate "EUR") col) ;;
  df_setitem df "MC_EUR_Billion" eur ;;
  col <- df_getitem df "MC_USD_Billion" ;;
  inr <- lift (result_map (convert exchange_rate "INR") col) ;;
  df_setitem df "MC_INR_Billion" inr ;;
  ret df.

(** [load_to_csv(df, output_path)] *)
Definition load_to_csv (env : Env) (df : nat) (output_path : string) : M unit :=
  df_to_csv env df output_path.

(** [load_to_db(df, sql_connection, table_name)] *)
Definition load_to_db (env : Env) (df : nat) (sql_connection : nat)
  (table_name : string) : M unit :=
  df_to_sql env df table_name sql_connection IfReplace.

(** [run_query(query_statement, sql_connection)]: the function has no
    [return] statement, so its value is [None]. *)
Definition run_query (env : Env) (query_statement : string)
  (sql_connection : nat) : M (option DataFrame) :=
  print (PStr query_statement) ;;
  query_output <- pd_read_sql env query_statement sql_connection ;;
  print (PFrame query_output) ;;
  ret None.

(** The messages logged by a run, in order. *)
Definition milestones : list string :=
  [ "Preliminaries Complete. Initiating ETL process";
    "Data extraction complete. Initiating Transformation process";
    "Data transformation complete. Initiating Loading process";
    "Data saved to CSV file";
    "SQL Connection initiated.";
    "Data loaded to Database as a table, Executing queries";
    "Process Complete";
    "Server Connection Closed" ].

(** The top level of the module. *)
Definition run (env : Env) : M unit :=
  log_progress env "Preliminaries Complete. Initiating ETL process" ;;
  df <- extract env url table_attribs ;;
  log_progress env "Data extraction complete. Initiating Transformation process" ;;
  df <- transform env df csv_path ;;
  log_progress env "Data transformation complete. Initiating Loading process" ;;
  load_to_csv env df output_path ;;
  log_progress env "Data saved to CSV file" ;;
  sql_connection <- sqlite3_connect env "Banks.db" ;;
  log_progress env "SQL Connection initiated." ;;
  load_to_db env df sql_connection table_name ;;
  log_progress env "Data loaded to Database as a table, Executing queries" ;;
  run_query env "SELECT * FROM Largest_banks" sql_connection ;;
  run_query env "SELECT AVG(MC_GBP_Billion) FROM Largest_banks" sql_connection ;;
  run_query env "SELECT Name from Largest_banks LIMIT 5" sql_connection ;;
  log_progress env "Process Complete" ;;
  connection_close sql_connection ;;
  log_progress env "Server Connection Closed".

(* ===================================================================== *)
(** * Views used to state the properties *)
(* ===================================================================== *)

(** ** The transformation, frame by frame

    [transform] works on an object of the heap. [transform_frame] follows
    the same statements on the frame alone and returns the contents the
    object is left with, together with the outcome; [transform_eq] below
    shows that this is what [transform] does. *)

Definition add_currency (exchange_rate : gmap string float)
  (code label : string) (df : DataFrame) : result DataFrame :=
  result_bind (Frame.getitem df "MC_USD_Billion") (fun col =>
  result_bind (result_map (convert exchange_rate code) col) (fun vals =>
  Frame.setitem df label vals)).

Definition coerce_usd (df : DataFrame) : result DataFrame :=
  result_bind (Frame.getitem df "MC_USD_Billion") (fun raw =>
  result_bind (Frame.astype_float raw) (fun usd =>
  Frame.setitem df "MC_USD_Billion" usd)).

Definition transform_frame (sheet : option RateSheet) (df : DataFrame)
  : DataFrame * result unit :=
  match coerce_usd df with
  | Raise e => (df, Raise e)
  | Ok df1 =>
      match sheet with
      | None => (df1, Raise (FileNotFoundError "exchange_rate.csv"))
      | Some exr_df =>
          let exchange_rate := to_dict exr_df in
          match add_currency exchange_rate "GBP" "MC_GBP_Billion" df1 with
          | Raise e => (df1, Raise e)
          | Ok df2 =>
              match add_currency exchange_rate "EUR" "MC_EUR_Billion" df2 with
              | Raise e => (df2, Raise e)
              | Ok df3 =>
                  match add_currency exchange_rate "INR" "MC_INR_Billion" df3 with
                  | Raise e => (df3, Raise e)
                  | Ok df4 => (df4, Ok tt)
                  end
              end
          end
      end
  end.

(** What a call of [transform] leaves for its caller: the exception, or
    the contents of the object returned. *)
Definition returned_frame (out : result nat * World) : result (option DataFrame) :=
  match fst out with
  | Ok l => Ok (heap (snd out) !! l)
  | Raise e => Raise e
  end.

Definition is_float (v : value) : Prop :=
  match v with
  | VFloat _ => True
  | _ => False
  end.

(** The currencies the script converts to, in the order of its
    assignments. *)
Definition required_codes : list string := ["GBP"; "EUR"; "INR"].

(** The first of them that a mapping of rates lacks. *)
Definition first_missing (exchange_rate : gmap string float) : option string :=
  List.find
    (fun code =>
       match exchange_rate !! code with None => true | Some _ => false end)
    required_codes.

(** ** Rounding

    What [np.round(p, 2)] returns is stated on the exact values of the
    floats involved. *)

(** The magnitude of a finite float as a fraction [num / den], the
    denominator a power of two; [None] for an infinity or a NaN. *)
Definition magnitude (x : float) : option (Z * Z) :=
  match Prim2SF x with
  | S754_zero _ => Some (0, 1)%Z
  | S754_finite _ m e =>
      if (0 <=? e)%Z then Some (Zpos m * 2 ^ e, 1)%Z
      else Some (Zpos m, 2 ^ (- e))%Z
  | _ => None
  end.

(** [k] is an integer nearest to [num / den]: at most one half away. *)
Definition nearest (num den k : Z) : Prop :=
  (2 * Z.abs (k * den - num) <= den)%Z.

(** The same, with an even [k] when [num / den] lies halfway between two
    integers. *)
Definition nearest_even (num den k : Z) : Prop :=
  nearest num den k
  /\ ((2 * Z.abs (k * den - num))%Z = den -> Z.even k = true).

(** The integer [k] as a float: exact up to [2^53]. *)
Definition float_of_Z (k : Z) : float :=
  SF2Prim (binary_normalize prec emax k 0 false).

(** [r] under the sign of [x]. *)
Definition with_sign_of (x r : float) : float :=
  if PrimFloat.get_sign x then PrimFloat.opp r else r.

(** [r] is [y] rounded to an integer, ties to even: an infinity, a NaN, a
    zero and a float of magnitude [2^52] or more, which is an integer
    already, are left as they are; any other [y] gives the integer nearest
    to its magnitude, under its sign. *)
Definition rounds_to_integer (y r : float) : Prop :=
  match magnitude y with
  | None => r = y
  | Some (n, d) =>
      if (d =? 1)%Z then r = y
      else exists k, (0 <= k)%Z /\ nearest_even n d k
                     /\ r = with_sign_of y (float_of_Z k)
  end.

(** [c] is [p] as [np.round(p, 2)] rounds it: [p] is multiplied by 100 in
    binary64, that product is rounded to an integer, and the integer is
    divided by 100 in binary64. *)
Definition rounds_scaled (p c : float) : Prop :=
  exists r,
    rounds_to_integer (PrimFloat.mul p 100) r /\ c = PrimFloat.div r 100.

(** The words of the specification: [c] is the product of [x] and [rate]
    rounded to two decimal places, that is the float of [k / 100] for an
    integer [k] nearest to a hundred times the exact product, whichever way
    a tie goes. *)
Definition rounded_to_two_places (x rate c : float) : Prop :=
  exists nx dx nr dr k,
    magnitude x = Some (nx, dx) /\ magnitude rate = Some (nr, dr)
    /\ nearest (100 * (nx * nr)) (dx * dr) k
    /\ c = PrimFloat.div
             (with_sign_of (PrimFloat.mul x rate) (float_of_Z k)) 100.

(** [2^52] as a mantissa. *)
Definition c52 : positive := 4503599627370496.

(** The state of the soft-float right shift after [j] bits of [M] have
    been shifted out: the mantissa left, the last bit shifted out and
    whether any bit before it was set. *)
Definition shifted (M j : Z) (mrs : shr_record) : Prop :=
  (0 <= shr_m mrs)%Z
  /\ exists T, (0 <= T < 2 ^ j)%Z
       /\ (2 * M = shr_m mrs * 2 ^ (j + 1) + Z.b2z (shr_r mrs) * 2 ^ j + T)%Z
       /\ shr_s mrs = negb (T =? 0)%Z.

(** ** The rows of the source document *)

(** The rows [extract] loops over: those of the first table body, after
    the header row. *)
Definition data_rows (doc : node) : list node :=
  match Soup.find_all "tbody" doc with
  | [] => []
  | table0 :: _ => drop 1 (Soup.find_all "tr" table0)
  end.

(** A row qualifies when it has more than one cell. *)
Definition qualifying (row : node) : bool :=
  1 <? length (Soup.find_all "td" row).

(** A data row as the source contract describes it: the second cell holds
    a second link with a non-empty title, and the third cell a text that,
    stripped, reads as a positive number. *)
Definition valid_row (row : node) : Prop :=
  qualifying row = true ->
  exists name_cell link2 col2 name f,
    Soup.find_all "td" row !! 1 = Some name_cell
    /\ Soup.find_all "a" name_cell !! 1 = Some link2
    /\ Soup.get "title" link2 = Some name
    /\ name <> ""
    /\ Soup.find_all "td" row !! 2 = Some col2
    /\ PyFloat.float_of_str (PyStr.strip (Soup.text col2)) = Some f
    /\ PrimFloat.ltb 0 f = true.

(** The name and the market-cap text [extract] records for a row. *)
Definition row_name (row : node) : value :=
  match Soup.find_all "td" row !! 1 with
  | Some name_cell =>
      match Soup.find_all "a" name_cell !! 1 with
      | Some link2 => value_of_option (Soup.get "title" link2)
      | None => VNone
      end
  | None => VNone
  end.

Definition row_cap (row : node) : string :=
  match Soup.find_all "td" row !! 2 with
  | Some col2 => PyStr.strip (Soup.text col2)
  | None => ""
  end.

(** A raw record as the specification wants it: a non-empty name and a
    stripped market-cap text that reads as a positive number. *)
Definition good_record (name : value) (cap : string) : Prop :=
  (exists s, name = VStr s /\ s <> "")
  /\ (forall c, PyStr.first cap = Some c -> PyStr.isspace c = false)
  /\ (forall c, PyStr.last cap = Some c -> PyStr.isspace c = false)
  /\ exists f, PyFloat.float_of_str cap = Some f /\ PrimFloat.ltb 0 f = true.

(** A row [extract] can read: it has at most one cell, and is skipped, or
    it has at least three cells and two links in the second one. *)
Definition row_readable (row : node) : bool :=
  let col := Soup.find_all "td" row in
  (length col <=? 1)
  || ((3 <=? length col)
      && match col !! 1 with
         | Some name_cell => 2 <=? length (Soup.find_all "a" name_cell)
         | None => false
         end).

(** The table [extract] builds from a document: one record for each data
    row with more than one cell, in the order of the rows. *)
Definition extracted_table (doc : node) : DataFrame :=
  [ ("Name", map row_name (List.filter qualifying (data_rows doc)));
    ("MC_USD_Billion",
     map (fun r => VStr (row_cap r)) (List.filter qualifying (data_rows doc))) ].

(** The columns of the table a run writes. *)
Definition output_columns : list string :=
  ["Name"; "MC_USD_Billion"; "MC_GBP_Billion"; "MC_EUR_Billion";
   "MC_INR_Billion"].

(** The three queries of the script. *)
Definition queries : list string :=
  [ "SELECT * FROM Largest_banks";
    "SELECT AVG(MC_GBP_Billion) FROM Largest_banks";
    "SELECT Name from Largest_banks LIMIT 5" ].

(** ** The script, statement by statement

    The top level of the module is a sequence of statements without any
    branch, loop or handler. [script] lists them in the order of the
    source and [exec] runs such a list from the first statement on;
    [run_exec] below shows that this is [run]. *)

(** The names the script assigns: [df] and [sql_connection]. *)
Record bindings : Type := {
  bound_df : nat;
  bound_connection : nat
}.

(** Before the first assignment; the script reads neither name before it
    has assigned it. *)
Definition unbound : bindings := {| bound_df := 0; bound_connection := 0 |}.

Inductive statement : Type :=
| LogProgress (message : string)
| CallExtract
| CallTransform
| CallLoadCsv
| CallConnect
| CallLoadDb
| CallRunQuery (query_statement : string)
| CallClose.

Definition exec_statement (env : Env) (st : statement) (v : bindings)
  : M bindings :=
  match st with
  | LogProgress message => log_progress env message ;; ret v
  | CallExtract =>
      df <- extract env url table_attribs ;;
      ret {| bound_df := df; bound_connection := bound_connection v |}
  | CallTransform =>
      df <- transform env (bound_df v) csv_path ;;
      ret {| bound_df := df; bound_connection := bound_connection v |}
  | CallLoadCsv => load_to_csv env (bound_df v) output_path ;; ret v
  | CallConnect =>
      sql_connection <- sqlite3_connect env "Banks.db" ;;
      ret {| bound_df := bound_df v; bound_connection := sql_connection |}
  | CallLoadDb =>
      load_to_db env (bound_df v) (bound_connection v) table_name ;; ret v
  | CallRunQuery query_statement =>
      run_query env query_statement (bound_connection v) ;; ret v
  | CallClose => connection_close (bound_connection v) ;; ret v
  end.

Fixpoint exec (env : Env) (sts : list statement) (v : bindings) : M bindings :=
  match sts with
  | [] => ret v
  | st :: rest => v' <- exec_statement env st v ;; exec env rest v'
  end.

Definition script : list statement :=
  [ LogProgress "Preliminaries Complete. Initiating ETL process";
    CallExtract;
    LogProgress "Data extraction complete. Initiating Transformation process";
    CallTransform;
    LogProgress "Data transformation complete. Initiating Loading process";
    CallLoadCsv;
    LogProgress "Data saved to CSV file";
    CallConnect;
    LogProgress "SQL Connection initiated.";
    CallLoadDb;
    LogProgress "Data loaded to Database as a table, Executing queries";
    CallRunQuery "SELECT * FROM Largest_banks";
    CallRunQuery "SELECT AVG(MC_GBP_Billion) FROM Largest_banks";
    CallRunQuery "SELECT Name from Largest_banks LIMIT 5";
    LogProgress "Process Complete";
    CallClose;
    LogProgress "Server Connection Closed" ].

(** The messages a list of statements logs. *)
Fixpoint messages (sts : list statement) : list string :=
  match sts with
  | [] => []
  | LogProgress message :: rest => message :: messages rest
  | _ :: rest => messages rest
  end.

(** ** The course of a run *)

(** The log file after the first [k] milestones of a run started in [w]. *)
Definition journal (env : Env) (w : World) (k : nat) : list string :=
  code_log w
  ++ zip_with log_entry (map (strftime_now env) (seq (clock w) k))
                        (take k milestones).

(** The state of the sinks and of the connection at the end of a run that
    logged [k] milestones: [csv] and [db] are the frames written to the CSV
    file and to the table, if any, and [conn] the connection acquired, if
    any, with its state. *)
Definition run_summary (env : Env) (w : World) (k : nat)
  (csv : option DataFrame) (conn : option (nat * bool))
  (db : option DataFrame) (w' : World) : Prop :=
  code_log w' = journal env w k
  /\ csv_files w' =
       match csv with
       | Some df => <[output_path := to_csv df]> (csv_files w)
       | None => csv_files w
       end
  /\ databases w' =
       match db with
       | Some df => <[("Banks.db", table_name) := sql_table df]> (databases w)
       | None => databases w
       end
  /\ match conn with
     | Some (h, state) =>
         connections w !! h = None
         /\ connections w' = <[h := ("Banks.db", state)]> (connections w)
     | None => connections w' = connections w
     end.

(** The stages of a run that can raise. *)
Inductive stage : Type :=
| Extract | Transform | LoadCsv | Connect | LoadDb | Query.

(** The number of milestones logged before a stage starts. *)
Definition milestones_before (s : stage) : nat :=
  match s with
  | Extract => 1
  | Transform => 2
  | LoadCsv => 3
  | Connect => 4
  | LoadDb => 5
  | Query => 6
  end.

(** Stage [s], as the script calls it, raised [e] and left the world
    [w']. *)
Definition stage_raises (env : Env) (s : stage) (e : exn) (w' : World) : Prop :=
  match s with
  | Extract => exists w1, extract env url table_attribs w1 = (Raise e, w')
  | Transform => exists df w1, transform env df csv_path w1 = (Raise e, w')
  | LoadCsv => exists df w1, load_to_csv env df output_path w1 = (Raise e, w')
  | Connect => exists w1, sqlite3_connect env "Banks.db" w1 = (Raise e, w')
  | LoadDb =>
      exists df h w1, load_to_db env df h table_name w1 = (Raise e, w')
  | Query => exists q h w1, run_query env q h w1 = (Raise e, w')
  end.

(** What has been written and acquired when stage [s] starts, [df] being
    the transformed table and [h] the connection. *)
Definition csv_at (s : stage) (df : DataFrame) : option DataFrame :=
  match s with
  | Extract | Transform | LoadCsv => None
  | Connect | LoadDb | Query => Some df
  end.

Definition conn_at (s : stage) (h : nat) : option (nat * bool) :=
  match s with
  | LoadDb | Query => Some (h, true)
  | _ => None
  end.

Definition db_at (s : stage) (df : DataFrame) : option DataFrame :=
  match s with
  | Query => Some df
  | _ => None
  end.

(** The ways a run can end: by the exception of one of its stages, in the
    world that stage left, or normally. *)
Inductive run_outcome (env : Env) (w : World) : result unit -> World -> Prop :=
| Aborted s e df h w' :
    stage_raises env s e w' ->
    run_summary env w (milestones_before s)
      (csv_at s df) (conn_at s h) (db_at s df) w' ->
    run_outcome env w (Raise e) w'
| Completed df h w' :
    run_summary env w 8 (Some df) (Some (h, false)) (Some df) w' ->
    run_outcome env w (Ok tt) w'.

(* ===================================================================== *)
(** * Sample inputs *)
(* ===================================================================== *)

Module Sample.

(** A data row as the source page has them: a rank, a name cell with two
    links of which the second carries the title, and the market cap. *)
Definition bank_row (rank name cap : string) : node :=
  Tag "tr" []
    [ Tag "td" [] [NavigableString rank];
      Tag "td" []
        [ Tag "span" [] [Tag "a" [("href", "/wiki/Flag")] []];
          Tag "a" [("href", "/wiki/Bank"); ("title", name)]
            [NavigableString name] ];
      Tag "td" [] [NavigableString cap] ].

Definition header_row : node :=
  Tag "tr" []
    [ Tag "th" [] [NavigableString "Rank"];
      Tag "th" [] [NavigableString "Bank name"];
      Tag "th" [] [NavigableString "Market cap (US$ billion)"] ].

(** A page whose first table body holds the header and the given rows. *)
Definition page_of (rows : list node) : node :=
  Tag "html" []
    [ Tag "body" []
        [ Tag "table" [] [Tag "tbody" [] (header_row :: rows)] ] ].

Definition rates : RateSheet :=
  [("GBP", 0.8%float); ("EUR", 0.93%float); ("INR", 83%float)].

(** The stored table as a frame. *)
Definition table_frame (t : SqlTable) : DataFrame :=
  map (fun jc => (snd jc, map (fun r => nth (fst jc) r VNone) (tbl_rows t)))
      (combine (seq 0 (length (tbl_columns t))) (tbl_columns t)).

(** An environment in which nothing outside fails: the page parses to
    [doc], the rate file holds [sheet], and a stand-in SQL engine answers
    each query on an existing [Largest_banks] table with the whole table. *)
Definition env_of (doc : node) (sheet : RateSheet) : Env :=
  {| requests_get := fun _ => Some "<html>";
     html_parser := fun _ => doc;
     read_csv := fun path =>
       if String.eqb path "exchange_rate.csv" then Some sheet else None;
     strftime_now := fun _ => "2023-Sep-08-09:16:35";
     csv_writable := fun _ => true;
     sqlite_connectable := fun _ => true;
     sqlite_writable := fun _ => true;
     sqlite_select := fun _ file tables =>
       match tables !! (file, "Largest_banks") with
       | Some t => Some (table_frame t)
       | None => None
       end |}.

(** The world before the first run. *)
Definition empty_world : World :=
  {| heap := ∅; code_log := []; clock := 0; csv_files := ∅;
     databases := ∅; connections := ∅; stdout := [] |}.

(** A world holding one frame, at location 0. *)
Definition world_with (df : DataFrame) : World :=
  set_heap {[ 0 := df ]} empty_world.

(** The scenario of the specification, as source rows and as the table
    handed to [transform]. *)
Definition scenario_page : node :=
  page_of [bank_row "1" "Bank A" "$100.00 "; bank_row "2" "Bank B" "50"].

Definition scenario_table : DataFrame :=
  [ ("Name", [VStr "Bank A"; VStr "Bank B"]);
    ("MC_USD_Billion", [VStr "$100.00 "; VStr "50"]) ].

(** The same rows without the currency sign. *)
Definition plain_page : node :=
  page_of [bank_row "1" "Bank A" "100.00 "; bank_row "2" "Bank B" "50"].

Definition plain_table : DataFrame :=
  [ ("Name", [VStr "Bank A"; VStr "Bank B"]);
    ("MC_USD_Billion", [VStr "100.00 "; VStr "50"]) ].

Definition enriched_table : DataFrame :=
  [ ("Name", [VStr "Bank A"; VStr "Bank B"]);
    ("MC_USD_Billion", [VFloat 100; VFloat 50]);
    ("MC_GBP_Billion", [VFloat 80; VFloat 40]);
    ("MC_EUR_Billion", [VFloat 93; VFloat 46.5]);
    ("MC_INR_Billion", [VFloat 8300; VFloat 4150]) ].

(** A database left by an earlier run with three banks, an open
    connection to it, and the table of the present run on the heap. *)
Definition prior_table : SqlTable :=
  {| tbl_columns := ["Name"; "MC_USD_Billion"; "MC_GBP_Billion";
                     "MC_EUR_Billion"; "MC_INR_Billion"];
     tbl_rows :=
       [ [VStr "Bank X"; VFloat 10; VFloat 8; VFloat 9.3; VFloat 830];
         [VStr "Bank Y"; VFloat 20; VFloat 16; VFloat 18.6; VFloat 1660];
         [VStr "Bank Z"; VFloat 30; VFloat 24; VFloat 27.9; VFloat 2490] ] |}.

Definition reload_world : World :=
  {| heap := {[ 0 := enriched_table ]}; code_log := []; clock := 0;
     csv_files := ∅;
     databases := {[ ("Banks.db", "Largest_banks") := prior_table ]};
     connections := {[ 0 := ("Banks.db", true) ]}; stdout := [] |}.

(** The rate file without its INR row. *)
Definition rates_without_inr : RateSheet :=
  [("GBP", 0.8%float); ("EUR", 0.93%float)].

(** A page whose table has the header row only. *)
Definition empty_page : node := page_of [].


(** A page with one data row of exactly two cells. *)
Definition two_cell_page : node :=
  page_of
    [ Tag "tr" []
        [ Tag "td" [] [NavigableString "1"];
          Tag "td" []
            [ Tag "a" [("href", "/wiki/Flag")] [];
              Tag "a" [("title", "Bank A")] [] ] ] ].


End Sample.

(* ===================================================================== *)
(** * Properties *)
(* ===================================================================== *)

(** ** Stripping *)

Module PyStrFacts.
Import PyStr.

Section Strip.
Variable sp : ascii -> bool.

Lemma lstrip_by_first (s : string) (c : ascii) :
  first (lstrip_by sp s) = Some c -> sp c = false.
Proof.
  induction s as [|a s IH]; simpl; [discriminate|].
  destruct (sp a) eqn:Ha; [exact IH|].
  simpl. intros [= <-]. exact Ha.
Qed.

Lemma rstrip_by_last (s : string) (c : ascii) :
  last (rstrip_by sp s) = Some c -> sp c = false.
Proof.
  induction s as [|a s IH]; simpl; [discriminate|].
  destruct (rstrip_by sp s) as [|b r] eqn:Hr.
  - destruct (sp a) eqn:Ha; simpl; [discriminate|].
    intros [= <-]. exact Ha.
  - intros H. apply IH. exact H.
Qed.

Lemma rstrip_by_first_inv (s : string) (c : ascii) :
  first (rstrip_by sp s) = Some c -> first s = Some c.
Proof.
  destruct s as [|a s]; simpl; [discriminate|].
  destruct (rstrip_by sp s); [destruct (sp a)|]; simpl; congruence.
Qed.

Lemma strip_by_first (s : string) (c : ascii) :
  first (strip_by sp s) = Some c -> sp c = false.
Proof.
  unfold strip_by. intros H. apply rstrip_by_first_inv in H.
  eapply lstrip_by_first, H.
Qed.

Lemma strip_by_last (s : string) (c : ascii) :
  last (strip_by sp s) = Some c -> sp c = false.
Proof. unfold strip_by. apply rstrip_by_last. Qed.

End Strip.

(** What [strip] returns neither starts nor ends with white space. *)
Lemma strip_first (s : string) (c : ascii) :
  first (strip s) = Some c -> isspace c = false.
Proof. apply strip_by_first. Qed.

Lemma strip_last (s : string) (c : ascii) :
  last (strip s) = Some c -> isspace c = false.
Proof. apply strip_by_last. Qed.

End PyStrFacts.

(** ** Element-wise conversions *)

Lemma result_map_Forall2 {A B} (f : A -> result B) (l : list A) (l' : list B) :
  result_map f l = Ok l' -> Forall2 (fun a b => f a = Ok b) l l'.
Proof.
  revert l'. induction l as [|a l IH]; simpl; intros l' H.
  - injection H as <-. constructor.
  - destruct (f a) as [b|e] eqn:Hfa; [|discriminate].
    destruct (result_map f l) as [bs|e]; [|discriminate].
    injection H as <-. constructor; [exact Hfa|]. apply IH. reflexivity.
Qed.

Lemma result_map_length {A B} (f : A -> result B) (l : list A) (l' : list B) :
  result_map f l = Ok l' -> length l' = length l.
Proof.
  intros H. symmetry. eapply Forall2_length, result_map_Forall2, H.
Qed.

(** The first element on which [f] raises decides the outcome. *)
Lemma result_map_raise_head {A B} (f : A -> result B) (a : A) (l : list A)
  (e : exn) :
  f a = Raise e -> result_map f (a :: l) = Raise e.
Proof. intros H. simpl. rewrite H. reflexivity. Qed.

(** ** Columns of a frame *)

Module FrameFacts.
Import Frame.

Lemma lookup_set_col_eq (df : DataFrame) (c : string) (v : list value) :
  lookup_col c (set_col df c v) = Some v.
Proof.
  induction df as [|[k col] df IH]; simpl.
  - rewrite String.eqb_refl. reflexivity.
  - destruct (String.eqb k c) eqn:Hk; simpl; rewrite Hk; [reflexivity|exact IH].
Qed.

Lemma lookup_set_col_ne (df : DataFrame) (c c' : string) (v : list value) :
  c <> c' -> lookup_col c' (set_col df c v) = lookup_col c' df.
Proof.
  intros Hne. induction df as [|[k col] df IH]; simpl.
  - apply String.eqb_neq in Hne. rewrite Hne. reflexivity.
  - destruct (String.eqb k c) eqn:Hk; simpl.
    + apply String.eqb_eq in Hk. subst k.
      apply String.eqb_neq in Hne. rewrite Hne. reflexivity.
    + rewrite IH. reflexivity.
Qed.

Lemma nrows_set_col (df : DataFrame) (c : string) (v : list value) :
  length v = nrows df -> nrows (set_col df c v) = nrows df.
Proof.
  destruct df as [|[k col] df]; simpl; [trivial|].
  destruct (String.eqb k c); simpl; trivial.
Qed.

Lemma wf_lookup (df : DataFrame) (c : string) (col : list value) :
  wf df -> lookup_col c df = Some col -> length col = nrows df.
Proof.
  unfold wf. generalize (nrows df) as n. intros n Hwf.
  induction Hwf as [|[k v] df Hkv Hwf IH]; simpl; [discriminate|].
  destruct (String.eqb k c); [|exact IH].
  intros [= <-]. exact Hkv.
Qed.

Lemma wf_set_col (df : DataFrame) (c : string) (v : list value) :
  wf df -> length v = nrows df -> wf (set_col df c v).
Proof.
  unfold wf. intros Hwf Hv. rewrite (nrows_set_col df c v Hv).
  revert Hwf Hv. generalize (nrows df) as n. intros n Hwf Hv.
  induction Hwf as [|[k col] df Hk Hwf IH]; simpl.
  - constructor; [exact Hv|constructor].
  - destruct (String.eqb k c); constructor; auto.
Qed.

(** In a well-formed frame without rows every column is empty. *)
Lemma wf_no_rows (df : DataFrame) :
  wf df -> nrows df = 0 ->
  map (fun kc => (fst kc, nan_column 0)) df = df.
Proof.
  unfold wf. intros Hwf H0. rewrite H0 in Hwf. clear H0.
  induction Hwf as [|[k col] df Hk Hwf IH]; simpl; [reflexivity|].
  rewrite IH. simpl in Hk. destruct col; [reflexivity|discriminate].
Qed.

(** Assigning a list as long as the index sets the column and nothing
    else. *)
Lemma setitem_wf (df : DataFrame) (c : string) (v : list value) :
  wf df -> length v = nrows df -> setitem df c v = Ok (set_col df c v).
Proof.
  intros Hwf Hv. unfold setitem.
  destruct (Nat.eqb (nrows df) 0) eqn:H0.
  - apply Nat.eqb_eq in H0. rewrite Hv, H0, (wf_no_rows df Hwf H0). reflexivity.
  - rewrite Hv, Nat.eqb_refl. reflexivity.
Qed.

Lemma cell_set_col_eq (df : DataFrame) (c : string) (v : list value) (i : nat) :
  cell (set_col df c v) c i = v !! i.
Proof. unfold cell. rewrite lookup_set_col_eq. reflexivity. Qed.

Lemma cell_set_col_ne (df : DataFrame) (c c' : string) (v : list value)
  (i : nat) :
  c <> c' -> cell (set_col df c v) c' i = cell df c' i.
Proof. intros H. unfold cell. rewrite lookup_set_col_ne by exact H. reflexivity. Qed.

End FrameFacts.

(** ** Computations *)

Lemma bind_inv {A B} (m : M A) (k : A -> M B) (w : World) (r : result B)
  (w' : World) :
  bind m k w = (r, w') ->
  (exists e, m w = (Raise e, w') /\ r = Raise e)
  \/ (exists a w1, m w = (Ok a, w1) /\ k a w1 = (r, w')).
Proof.
  unfold bind. destruct (m w) as [[a|e] w1]; intros H.
  - right. exists a, w1. split; [reflexivity|exact H].
  - left. injection H as <- <-. exists e. split; reflexivity.
Qed.

Lemma bind_lift {A B} (r : result A) (k : A -> M B) (w : World) :
  bind (lift r) k w =
  match r with
  | Ok a => k a w
  | Raise e => (Raise e, w)
  end.
Proof. unfold bind, lift. destruct r; reflexivity. Qed.

Lemma set_heap_same (w : World) (l : nat) (df : DataFrame) :
  heap w !! l = Some df -> set_heap (<[l := df]> (heap w)) w = w.
Proof.
  intros H. rewrite (insert_id _ _ _ H). destruct w; reflexivity.
Qed.

Lemma bind_df_getitem {B} (l : nat) (c : string) (k : list value -> M B)
  (w : World) (df : DataFrame) :
  heap w !! l = Some df ->
  bind (df_getitem l c) k w =
  match Frame.getitem df c with
  | Ok col => k col w
  | Raise e => (Raise e, w)
  end.
Proof.
  intros H. unfold df_getitem, bind, deref, lift. rewrite H.
  destruct (Frame.getitem df c); reflexivity.
Qed.

Lemma bind_df_setitem {B} (l : nat) (c : string) (v : list value)
  (k : unit -> M B) (w : World) (df : DataFrame) :
  heap w !! l = Some df ->
  bind (df_setitem l c v) k w =
  match Frame.setitem df c v with
  | Ok df' => k tt (set_heap (<[l := df']> (heap w)) w)
  | Raise e => (Raise e, w)
  end.
Proof.
  intros H. unfold df_setitem, bind, deref, lift, store. rewrite H.
  destruct (Frame.setitem df c v); reflexivity.
Qed.

(** One conversion block of [transform]: read the dollar column, convert
    it, assign the new column. *)
Lemma bind_add_currency {B} (l : nat) (rate : gmap string float)
  (code label : string) (k : unit -> M B) (w : World) (df : DataFrame) :
  heap w !! l = Some df ->
  bind (df_getitem l "MC_USD_Billion") (fun col =>
    bind (lift (result_map (convert rate code) col)) (fun vals =>
      bind (df_setitem l label vals) k)) w =
  match add_currency rate code label df with
  | Ok df' => k tt (set_heap (<[l := df']> (heap w)) w)
  | Raise e => (Raise e, w)
  end.
Proof.
  intros H. unfold add_currency. rewrite (bind_df_getitem _ _ _ _ _ H).
  destruct (Frame.getitem df "MC_USD_Billion") as [col|e]; simpl; [|reflexivity].
  rewrite bind_lift.
  destruct (result_map (convert rate code) col) as [vals|e]; simpl;
    [|reflexivity].
  apply bind_df_setitem, H.
Qed.

(** [transform] does to the object what [transform_frame] does to its
    contents, returns the reference it was given and touches nothing else
    in the world. *)
Lemma transform_eq (env : Env) (l : nat) (path : string) (w : World)
  (df : DataFrame) :
  heap w !! l = Some df ->
  transform env l path w =
  (match snd (transform_frame (read_csv env "exchange_rate.csv") df) with
   | Ok _ => Ok l
   | Raise e => Raise e
   end,
   set_heap
     (<[l := fst (transform_frame (read_csv env "exchange_rate.csv") df)]>
        (heap w)) w).
Proof.
  intros H. unfold transform, transform_frame, coerce_usd.
  rewrite (bind_df_getitem _ _ _ _ _ H).
  destruct (Frame.getitem df "MC_USD_Billion") as [raw|e]; simpl;
    [|rewrite (set_heap_same _ _ _ H); reflexivity].
  rewrite bind_lift.
  destruct (Frame.astype_float raw) as [usd|e]; simpl;
    [|rewrite (set_heap_same _ _ _ H); reflexivity].
  rewrite (bind_df_setitem _ _ _ _ _ _ H).
  destruct (Frame.setitem df "MC_USD_Billion" usd) as [df1|e]; simpl;
    [|rewrite (set_heap_same _ _ _ H); reflexivity].
  unfold bind at 1.
  destruct (read_csv env "exchange_rate.csv") as [sheet|]; simpl;
    [|reflexivity].
  rewrite (bind_add_currency _ _ _ _ _ _ df1)
    by (simpl; apply lookup_insert_eq).
  destruct (add_currency (to_dict sheet) "GBP" "MC_GBP_Billion" df1)
    as [df2|e]; simpl; [|reflexivity].
  rewrite (bind_add_currency _ _ _ _ _ _ df2)
    by (simpl; apply lookup_insert_eq).
  destruct (add_currency (to_dict sheet) "EUR" "MC_EUR_Billion" df2)
    as [df3|e]; simpl;
    [|unfold set_heap; simpl; rewrite !insert_insert_eq; reflexivity].
  rewrite (bind_add_currency _ _ _ _ _ _ df3)
    by (simpl; apply lookup_insert_eq).
  destruct (add_currency (to_dict sheet) "INR" "MC_INR_Billion" df3)
    as [df4|e]; simpl;
    unfold ret, set_heap; simpl; rewrite !insert_insert_eq; reflexivity.
Qed.

(** ** Rounding to the nearest integer

    [PyFloat.rint] adds and subtracts [2^52]. That this leaves the integer
    nearest to its argument, ties to even, is read off the soft-float
    specification of the two operations. *)

Module RoundingFacts.

Local Open Scope Z_scope.

(** The number of binary digits of a mantissa. *)
Lemma digits2_pos_bounds (p : positive) :
  2 ^ (Zpos (digits2_pos p) - 1) <= Zpos p < 2 ^ Zpos (digits2_pos p).
Proof.
  induction p as [p IH|p IH|]; simpl digits2_pos.
  - rewrite Pos2Z.inj_succ, (Pos2Z.inj_xI p).
    replace (Z.succ (Zpos (digits2_pos p)) - 1) with (Z.succ (Zpos (digits2_pos p) - 1)) by lia.
    rewrite !Z.pow_succ_r by lia.
    set (a := 2 ^ (Zpos (digits2_pos p) - 1)) in *.
    set (b := 2 ^ Zpos (digits2_pos p)) in *. clearbody a b. lia.
  - rewrite Pos2Z.inj_succ, (Pos2Z.inj_xO p).
    replace (Z.succ (Zpos (digits2_pos p)) - 1) with (Z.succ (Zpos (digits2_pos p) - 1)) by lia.
    rewrite !Z.pow_succ_r by lia.
    set (a := 2 ^ (Zpos (digits2_pos p) - 1)) in *.
    set (b := 2 ^ Zpos (digits2_pos p)) in *. clearbody a b. lia.
  - simpl. lia.
Qed.

Lemma digits2_pos_unique (p : positive) (d : Z) :
  2 ^ (d - 1) <= Zpos p < 2 ^ d -> Zpos (digits2_pos p) = d.
Proof.
  intros [Hlo Hhi]. pose proof (digits2_pos_bounds p) as [Hlo' Hhi'].
  assert (0 < d).
  { destruct (Z_lt_le_dec 0 d) as [|Hd]; [assumption|].
    exfalso. destruct (Z.eq_dec d 0) as [->|].
    - simpl in Hhi. lia.
    - rewrite Z.pow_neg_r in Hhi by lia. lia. }
  set (d' := Zpos (digits2_pos p)) in *.
  assert (d' - 1 < d).
  { apply (Z.pow_lt_mono_r_iff 2); lia. }
  assert (d - 1 < d').
  { apply (Z.pow_lt_mono_r_iff 2); lia. }
  lia.
Qed.

Lemma iter_pos_nat {A} (f : A -> A) (n : positive) (x : A) :
  SpecFloat.iter_pos f n x = Nat.iter (Pos.to_nat n) f x.
Proof.
  revert x. induction n as [n IH|n IH|]; intros x; simpl SpecFloat.iter_pos.
  - rewrite !IH, Pos2Nat.inj_xI.
    replace (S (2 * Pos.to_nat n))%nat
      with (Pos.to_nat n + (Pos.to_nat n + 1))%nat by lia.
    rewrite !Nat.iter_add. reflexivity.
  - rewrite !IH, Pos2Nat.inj_xO.
    replace (2 * Pos.to_nat n)%nat with (Pos.to_nat n + Pos.to_nat n)%nat by lia.
    rewrite Nat.iter_add. reflexivity.
  - reflexivity.
Qed.

(** The right shift keeps [shifted], one bit at a time. *)
Lemma shifted_start (M : Z) :
  0 <= M -> shifted M 0 {| shr_m := M; shr_r := false; shr_s := false |}.
Proof.
  intros HM. split; [exact HM|]. exists 0.
  change (2 ^ (0 + 1)) with 2. change (2 ^ 0) with 1.
  cbn [shr_m shr_r shr_s Z.b2z]. repeat split; try lia.
Qed.

Lemma shifted_step (M j : Z) (mrs : shr_record) :
  0 <= j -> shifted M j mrs -> shifted M (j + 1) (shr_1 mrs).
Proof.
  intros Hj [Hm (T & HT & HM & Hs)].
  destruct mrs as [m r s]. cbn [shr_m shr_r shr_s] in *.
  unfold shifted.
  replace (j + 1 + 1) with (Z.succ (Z.succ j)) by lia.
  replace (j + 1) with (Z.succ j) in * by lia.
  rewrite !Z.pow_succ_r in * by lia.
  assert (HP : 0 < 2 ^ j) by (apply Z.pow_pos_nonneg; lia).
  set (P := 2 ^ j) in *. clearbody P.
  assert (Hs' : (r || s) = negb (Z.b2z r * P + T =? 0)).
  { subst s. destruct r; cbn [orb Z.b2z].
    - symmetry. apply negb_true_iff, Z.eqb_neq. lia.
    - rewrite Z.mul_0_l, Z.add_0_l. reflexivity. }
  assert (HT' : 0 <= Z.b2z r * P + T < 2 * P)
    by (destruct r; cbn [Z.b2z]; lia).
  destruct m as [|[p|p|]|p]; cbn [shr_1 shr_m shr_r shr_s]; try lia.
  - split; [lia|]. exists (Z.b2z r * P + T).
    split; [exact HT'|]. split; [|exact Hs']. cbn [Z.b2z]. lia.
  - split; [lia|]. exists (Z.b2z r * P + T).
    split; [exact HT'|]. split; [|exact Hs'].
    rewrite (Pos2Z.inj_xI p) in HM. cbn [Z.b2z]. lia.
  - split; [lia|]. exists (Z.b2z r * P + T).
    split; [exact HT'|]. split; [|exact Hs'].
    rewrite (Pos2Z.inj_xO p) in HM. cbn [Z.b2z]. lia.
  - split; [lia|]. exists (Z.b2z r * P + T).
    split; [exact HT'|]. split; [|exact Hs']. cbn [Z.b2z]. lia.
Qed.

Lemma shifted_iter (M : Z) (n : nat) :
  0 <= M ->
  shifted M (Z.of_nat n)
    (Nat.iter n shr_1 {| shr_m := M; shr_r := false; shr_s := false |}).
Proof.
  intros HM. induction n as [|n IH].
  - apply shifted_start, HM.
  - rewrite Nat2Z.inj_succ. simpl Nat.iter.
    replace (Z.succ (Z.of_nat n)) with (Z.of_nat n + 1) by lia.
    apply shifted_step; [lia|exact IH].
Qed.

(** Rounding the shifted mantissa gives the integer nearest to
    [M / 2^j], ties to even. *)
Lemma round_shifted (M j : Z) (mrs : shr_record) :
  0 <= j -> shifted M j mrs ->
  nearest_even M (2 ^ j)
    (round_nearest_even (shr_m mrs) (loc_of_shr_record mrs))
  /\ shr_m mrs <= round_nearest_even (shr_m mrs) (loc_of_shr_record mrs)
     <= shr_m mrs + 1
  /\ shr_m mrs * 2 ^ j <= M.
Proof.
  intros Hj [Hm (T & HT & HM & Hs)].
  destruct mrs as [m r s]. cbn [shr_m shr_r shr_s] in *.
  replace (j + 1) with (Z.succ j) in * by lia.
  rewrite Z.pow_succ_r in * by lia.
  assert (HP : 0 < 2 ^ j) by (apply Z.pow_pos_nonneg; lia).
  set (P := 2 ^ j) in *. clearbody P.
  unfold nearest_even, nearest.
  destruct r, s; cbn [loc_of_shr_record round_nearest_even Z.b2z] in *.
  - symmetry in Hs. apply negb_true_iff, Z.eqb_neq in Hs.
    repeat split; try lia.
  - symmetry in Hs. apply negb_false_iff, Z.eqb_eq in Hs. subst T.
    destruct (Z.even m) eqn:He.
    + repeat split; try lia. intros _. exact He.
    + repeat split; try lia. intros _.
      rewrite Z.even_add, He. reflexivity.
  - symmetry in Hs. apply negb_true_iff, Z.eqb_neq in Hs.
    repeat split; try lia.
  - symmetry in Hs. apply negb_false_iff, Z.eqb_eq in Hs. subst T.
    repeat split; try lia.
Qed.

Lemma iter_xO (p n : positive) : Zpos (Pos.iter xO p n) = Zpos p * 2 ^ Zpos n.
Proof.
  induction n as [|n IH] using Pos.peano_ind.
  - change (Pos.iter xO p 1) with (p~0)%positive. change (2 ^ 1) with 2.
    rewrite (Pos2Z.inj_xO p). lia.
  - rewrite Pos.iter_succ, (Pos2Z.inj_xO (Pos.iter xO p n)), IH.
    rewrite Pos2Z.inj_succ, Z.pow_succ_r by lia. ring.
Qed.

(** The shift that brings a mantissa to the precision of the format. *)
Lemma shr_fexp_shift (M : positive) (e : Z) (sh : positive) :
  fexp prec emax (Zpos (digits2_pos M) + e) - e = Zpos sh ->
  shr_fexp prec emax (Zpos M) e loc_Exact
  = (SpecFloat.iter_pos shr_1 sh {| shr_m := Zpos M; shr_r := false; shr_s := false |},
     e + Zpos sh).
Proof.
  intros H. unfold shr_fexp, shr. cbn [Zdigits2 shr_record_of_loc].
  rewrite H. reflexivity.
Qed.

Lemma shr_fexp_keep (M : positive) (e : Z) :
  fexp prec emax (Zpos (digits2_pos M) + e) - e = 0 ->
  shr_fexp prec emax (Zpos M) e loc_Exact
  = ({| shr_m := Zpos M; shr_r := false; shr_s := false |}, e).
Proof.
  intros H. unfold shr_fexp, shr. cbn [Zdigits2 shr_record_of_loc].
  rewrite H. reflexivity.
Qed.

(** Adding [2^52] to [m * 2^-n] rounds it to an integer [k], which
    subtracting [2^52] returns exactly. *)
Lemma add_sub_two52 (m n : positive) :
  Zpos m < 2 ^ 53 ->
  exists k,
    0 <= k <= 2 ^ 52
    /\ nearest_even (Zpos m) (2 ^ Zpos n) k
    /\ SFsub prec emax
         (SFadd prec emax (S754_finite false m (Zneg n))
            (S754_finite false c52 0))
         (S754_finite false c52 0)
       = binary_normalize prec emax k 0 false.
Proof.
  intros Hm.
  assert (HD : 2 <= 2 ^ Zpos n).
  { change 2 with (2 ^ 1) at 1. apply Z.pow_le_mono_r; lia. }
  set (M := (m + Pos.iter xO c52 n)%positive).
  assert (HM : Zpos M = Zpos m + Zpos c52 * 2 ^ Zpos n).
  { unfold M. rewrite Pos2Z.inj_add, iter_xO. reflexivity. }
  assert (Hadd : SFadd prec emax (S754_finite false m (Zneg n))
                   (S754_finite false c52 0)
                 = binary_round prec emax false M (Zneg n)).
  { unfold SFadd, shl_align.
    change (Z.min (Zneg n) 0) with (Zneg n).
    rewrite Z.sub_diag. reflexivity. }
  assert (Hdig : Zpos (digits2_pos M) = 53 + Zpos n).
  { apply digits2_pos_unique. rewrite HM.
    replace (53 + Zpos n - 1) with (52 + Zpos n) by lia.
    rewrite !Z.pow_add_r by lia.
    change (2 ^ 53) with 9007199254740992 in *.
    change (2 ^ 52) with 4503599627370496.
    change (Zpos c52) with 4503599627370496.
    set (D := 2 ^ Zpos n) in *. clearbody D. clear - Hm HD. lia. }
  assert (Hround : binary_round prec emax false M (Zneg n)
                   = binary_round_aux prec emax false (Zpos M) (Zneg n) loc_Exact).
  { unfold binary_round, shl_align. rewrite Hdig.
    replace (53 + Zpos n + Zneg n) with 53 by lia. reflexivity. }
  pose proof (shifted_iter (Zpos M) (Pos.to_nat n) (Pos2Z.is_nonneg M)) as Hsh.
  rewrite <- iter_pos_nat, positive_nat_Z in Hsh.
  destruct (round_shifted _ _ _ (Pos2Z.is_nonneg n) Hsh) as (Hne & HK & Hlo).
  set (mrs := SpecFloat.iter_pos shr_1 n
                {| shr_m := Zpos M; shr_r := false; shr_s := false |}) in *.
  set (K := round_nearest_even (shr_m mrs) (loc_of_shr_record mrs)) in *.
  destruct Hsh as [Hm0 (T & HT & H2M & _)].
  assert (Hbounds : Zpos c52 <= shr_m mrs < 2 * Zpos c52).
  { rewrite HM in H2M, Hlo.
    replace (Zpos n + 1) with (Z.succ (Zpos n)) in H2M by lia.
    rewrite Z.pow_succ_r in H2M by lia.
    change (2 ^ 53) with 9007199254740992 in *.
    change (Zpos c52) with 4503599627370496 in *.
    set (D := 2 ^ Zpos n) in *. clearbody D.
    clear - Hm HD H2M Hlo HT Hm0.
    destruct (shr_r mrs); cbn [Z.b2z] in H2M; nia. }
  exists (K - Zpos c52).
  change (2 ^ 52) with (Zpos c52).
  split; [lia|]. split.
  { destruct Hne as [Hn He]. unfold nearest_even, nearest in *.
    rewrite HM in Hn, He.
    replace ((K - Zpos c52) * 2 ^ Zpos n - Zpos m)
      with (K * 2 ^ Zpos n - (Zpos m + Zpos c52 * 2 ^ Zpos n)) by ring.
    split; [exact Hn|]. intros Ht. specialize (He Ht).
    rewrite Z.even_sub, He. reflexivity. }
  rewrite Hadd, Hround. unfold binary_round_aux.
  rewrite (shr_fexp_shift M (Zneg n) n)
    by (rewrite Hdig; replace (53 + Zpos n + Zneg n) with 53 by lia;
        reflexivity).
  fold mrs. cbv beta iota. fold K.
  replace (Zneg n + Zpos n) with 0 by lia.
  destruct (Z.eq_dec K (2 * Zpos c52)) as [HK2|HK2].
  - rewrite HK2. vm_compute. reflexivity.
  - destruct K as [|kp|kp] eqn:HKp; try lia.
    assert (Hdk : Zpos (digits2_pos kp) = 53).
    { apply digits2_pos_unique.
      change (2 ^ (53 - 1)) with (Zpos c52).
      change (2 ^ 53) with (2 * Zpos c52). lia. }
    rewrite (shr_fexp_keep kp 0) by (rewrite Hdk; reflexivity).
    cbn [shr_m]. change (0 <=? emax - prec) with true. cbv iota.
    reflexivity.
Qed.

Lemma Prim2SF_two52 : Prim2SF PyFloat.two52 = S754_finite false c52 0.
Proof. vm_compute. reflexivity. Qed.

(** A mantissa has at most 53 bits, and exactly 53 unless the float is
    subnormal. *)
Lemma finite_mantissa_bound (x : float) (s : bool) (m : positive) (e : Z) :
  Prim2SF x = S754_finite s m e ->
  Zpos m < 2 ^ 53 /\ (e = 0 -> 2 ^ 52 <= Zpos m).
Proof.
  intros Hx. pose proof (Prim2SF_valid x) as Hv. rewrite Hx in Hv.
  unfold SpecFloat.valid_binary, bounded, canonical_mantissa in Hv.
  apply andb_true_iff in Hv. destruct Hv as [Hc _].
  apply Z.eqb_eq in Hc. unfold fexp, emin in Hc.
  change prec with 53 in Hc. change emax with 1024 in Hc.
  pose proof (digits2_pos_bounds m) as [Hlo Hhi].
  set (d := Zpos (digits2_pos m)) in *.
  assert (Hd : 0 < d) by (unfold d; lia).
  clearbody d.
  split.
  - assert (Hd53 : d <= 53) by lia.
    eapply Z.lt_le_trans; [exact Hhi|].
    apply Z.pow_le_mono_r; lia.
  - intros ->. assert (d = 53) by lia. subst d. exact Hlo.
Qed.

(** The floats below [2^52] in magnitude are those with a negative
    exponent, the others are integers. *)
Lemma below_two52 (x : float) (s : bool) (m : positive) (e : Z) :
  Prim2SF x = S754_finite s m e ->
  PrimFloat.ltb (PrimFloat.abs x) PyFloat.two52 = (e <? 0).
Proof.
  intros Hx. destruct (finite_mantissa_bound _ _ _ _ Hx) as [_ He0].
  rewrite ltb_spec, abs_spec, Hx, Prim2SF_two52.
  unfold SFltb, SFcompare, SFabs. unfold Z.ltb.
  destruct (e ?= 0) eqn:He; try reflexivity.
  apply Z.compare_eq in He. specialize (He0 He).
  change (2 ^ 52) with (Zpos c52) in He0.
  rewrite Pos.compare_cont_spec. cbn [Pos.switch_Eq].
  destruct (Pos.compare_spec m c52) as [H|H|H]; try reflexivity.
  exfalso. apply Pos2Z.pos_lt_pos in H. lia.
Qed.

Lemma rint_finite_below (y : float) (s : bool) (m n : positive) :
  Prim2SF y = S754_finite s m (Zneg n) ->
  exists k,
    0 <= k <= 2 ^ 52
    /\ nearest_even (Zpos m) (2 ^ Zpos n) k
    /\ PyFloat.rint y = with_sign_of y (float_of_Z k).
Proof.
  intros Hy. destruct (finite_mantissa_bound _ _ _ _ Hy) as [Hm _].
  destruct (add_sub_two52 m n Hm) as (k & Hk & Hne & Heq).
  exists k. split; [exact Hk|]. split; [exact Hne|].
  unfold PyFloat.rint, with_sign_of. rewrite (below_two52 _ _ _ _ Hy).
  change (Zneg n <? 0) with true. cbv iota.
  assert (Hr : PrimFloat.sub (PrimFloat.add (PrimFloat.abs y) PyFloat.two52) PyFloat.two52
               = float_of_Z k).
  { rewrite <- (SF2Prim_Prim2SF (PrimFloat.sub _ _)).
    rewrite sub_spec, add_spec, abs_spec, Hy, Prim2SF_two52.
    unfold float_of_Z. f_equal. exact Heq. }
  rewrite Hr. reflexivity.
Qed.

Lemma rint_zero (y : float) (s : bool) :
  Prim2SF y = S754_zero s -> PyFloat.rint y = with_sign_of y (float_of_Z 0).
Proof.
  intros Hy. unfold PyFloat.rint, with_sign_of.
  assert (Hlt : PrimFloat.ltb (PrimFloat.abs y) PyFloat.two52 = true).
  { rewrite ltb_spec, abs_spec, Hy, Prim2SF_two52. reflexivity. }
  rewrite Hlt.
  assert (Hr : PrimFloat.sub (PrimFloat.add (PrimFloat.abs y) PyFloat.two52) PyFloat.two52
               = float_of_Z 0).
  { rewrite <- (SF2Prim_Prim2SF (PrimFloat.sub _ _)).
    rewrite sub_spec, add_spec, abs_spec, Hy, Prim2SF_two52.
    vm_compute. reflexivity. }
  rewrite Hr. reflexivity.
Qed.

Lemma rint_other (y : float) :
  (forall s m n, Prim2SF y <> S754_finite s m (Zneg n)) ->
  (forall s, Prim2SF y <> S754_zero s) ->
  PyFloat.rint y = y.
Proof.
  intros Hfin Hzero. unfold PyFloat.rint.
  assert (Hlt : PrimFloat.ltb (PrimFloat.abs y) PyFloat.two52 = false).
  { destruct (Prim2SF y) as [s|s| |s m e] eqn:Hy.
    - exfalso. apply (Hzero s). reflexivity.
    - rewrite ltb_spec, abs_spec, Hy, Prim2SF_two52. reflexivity.
    - rewrite ltb_spec, abs_spec, Hy, Prim2SF_two52. reflexivity.
    - rewrite (below_two52 _ _ _ _ Hy).
      destruct e as [|p|p]; try reflexivity.
      exfalso. apply (Hfin s m p). reflexivity. }
  rewrite Hlt. reflexivity.
Qed.

(** A zero keeps its sign. *)
Lemma rint_zero_id (y : float) (s : bool) :
  Prim2SF y = S754_zero s -> PyFloat.rint y = y.
Proof.
  intros Hy. rewrite (rint_zero _ _ Hy). unfold with_sign_of.
  rewrite <- (SF2Prim_Prim2SF y), Hy. destruct s; vm_compute; reflexivity.
Qed.

(** [rint] rounds to the nearest integer, ties to even. *)
Lemma rint_rounds (y : float) : rounds_to_integer y (PyFloat.rint y).
Proof.
  unfold rounds_to_integer, magnitude.
  destruct (Prim2SF y) as [s|s| |s m e] eqn:Hy.
  - change (1 =? 1) with true. cbv iota. apply (rint_zero_id _ _ Hy).
  - apply rint_other; intros; rewrite Hy; discriminate.
  - apply rint_other; intros; rewrite Hy; discriminate.
  - destruct e as [|p|n].
    + change (0 <=? 0) with true. change (1 =? 1) with true. cbv iota.
      apply rint_other; intros; rewrite Hy; discriminate.
    + change (0 <=? Zpos p) with true. change (1 =? 1) with true. cbv iota.
      apply rint_other; intros; rewrite Hy; discriminate.
    + change (0 <=? Zneg n) with false. cbv iota.
      change (- Zneg n) with (Zpos n).
      assert (HD : 2 <= 2 ^ Zpos n).
      { change 2 with (2 ^ 1) at 1. apply Z.pow_le_mono_r; lia. }
      destruct (2 ^ Zpos n =? 1) eqn:Hd; [apply Z.eqb_eq in Hd; lia|].
      destruct (rint_finite_below _ _ _ _ Hy) as (k & Hk & Hne & Hr).
      exists k. split; [lia|]. split; assumption.
Qed.

(** There is one nearest integer with ties to even. *)
Lemma nearest_even_unique (n d k k' : Z) :
  0 < d -> nearest_even n d k -> nearest_even n d k' -> k = k'.
Proof.
  unfold nearest_even, nearest. intros Hd [Hk He] [Hk' He'].
  assert (Hclose : k' = k \/ k' = k + 1 \/ k = k' + 1) by nia.
  destruct Hclose as [->|[->| ->]]; [reflexivity| |].
  - assert (Ht : 2 * Z.abs (k * d - n) = d) by nia.
    assert (Ht' : 2 * Z.abs ((k + 1) * d - n) = d) by nia.
    specialize (He Ht). specialize (He' Ht').
    rewrite Z.even_add, He in He'. discriminate.
  - assert (Ht : 2 * Z.abs (k' * d - n) = d) by nia.
    assert (Ht' : 2 * Z.abs ((k' + 1) * d - n) = d) by nia.
    specialize (He Ht'). specialize (He' Ht).
    rewrite Z.even_add, He' in He. discriminate.
Qed.

Lemma magnitude_denominator (y : float) (n d : Z) :
  magnitude y = Some (n, d) -> 0 < d.
Proof.
  unfold magnitude. destruct (Prim2SF y) as [s|s| |s m e]; try discriminate.
  - intros [= <- <-]. lia.
  - destruct (0 <=? e) eqn:He; intros [= <- <-]; [lia|].
    apply Z.pow_pos_nonneg; lia.
Qed.

(** The rounding is a function of the float rounded. *)
Lemma rounds_to_integer_unique (y r r' : float) :
  rounds_to_integer y r -> rounds_to_integer y r' -> r = r'.
Proof.
  unfold rounds_to_integer.
  destruct (magnitude y) as [[n d]|] eqn:Hm; [|congruence].
  destruct (d =? 1); [congruence|].
  intros (k & _ & Hk & ->) (k' & _ & Hk' & ->).
  rewrite (nearest_even_unique n d k k'
             (magnitude_denominator _ _ _ Hm) Hk Hk').
  reflexivity.
Qed.

End RoundingFacts.

(** ** The transformation on a well-formed frame *)

Lemma to_float_is_float (v v' : value) :
  Frame.to_float v = Ok v' -> is_float v'.
Proof.
  destruct v as [s|f|]; simpl.
  - destruct (PyFloat.float_of_str s); [|discriminate].
    intros [= <-]. exact I.
  - intros [= <-]. exact I.
  - intros [= <-]. exact I.
Qed.

Lemma astype_float_floats (raw usd : list value) :
  Frame.astype_float raw = Ok usd -> Forall is_float usd.
Proof.
  intros H. apply result_map_Forall2 in H.
  induction H as [|a b l l' Hab _ IH]; constructor; [|exact IH].
  eapply to_float_is_float, Hab.
Qed.

(** With the rate of [code] at hand, a column of floats converts. *)
Lemma convert_total (rate : gmap string float) (code : string) (r : float)
  (col : list value) :
  rate !! code = Some r -> Forall is_float col ->
  exists vals, result_map (convert rate code) col = Ok vals.
Proof.
  intros Hr Hcol. induction Hcol as [|v col Hv _ [vals IH]].
  - exists []. reflexivity.
  - destruct v as [s|f|]; try contradiction.
    eexists. simpl. unfold convert at 1. rewrite Hr, IH. reflexivity.
Qed.

(** Without the rate, the first element raises [KeyError]. *)
Lemma convert_missing (rate : gmap string float) (code : string)
  (v : value) (col : list value) :
  rate !! code = None ->
  result_map (convert rate code) (v :: col) = Raise (KeyError code).
Proof.
  intros Hr. apply result_map_raise_head. unfold convert. rewrite Hr.
  reflexivity.
Qed.

Lemma coerce_usd_ok (df df1 : DataFrame) :
  Frame.wf df -> coerce_usd df = Ok df1 ->
  exists raw usd,
    Frame.lookup_col "MC_USD_Billion" df = Some raw
    /\ Frame.astype_float raw = Ok usd
    /\ df1 = Frame.set_col df "MC_USD_Billion" usd
    /\ Frame.wf df1 /\ Frame.nrows df1 = Frame.nrows df.
Proof.
  intros Hwf. unfold coerce_usd, Frame.getitem.
  destruct (Frame.lookup_col "MC_USD_Billion" df) as [raw|] eqn:Hraw;
    simpl; [|discriminate].
  destruct (Frame.astype_float raw) as [usd|] eqn:Husd; simpl; [|discriminate].
  assert (Hlen : length usd = Frame.nrows df).
  { rewrite (result_map_length _ _ _ Husd).
    eapply FrameFacts.wf_lookup; eassumption. }
  rewrite (FrameFacts.setitem_wf _ _ _ Hwf Hlen). intros [= <-].
  exists raw, usd. repeat split; trivial.
  - apply FrameFacts.wf_set_col; assumption.
  - apply FrameFacts.nrows_set_col, Hlen.
Qed.

Lemma add_currency_ok (rate : gmap string float) (code label : string)
  (df df' : DataFrame) (usd : list value) :
  Frame.wf df -> Frame.lookup_col "MC_USD_Billion" df = Some usd ->
  add_currency rate code label df = Ok df' ->
  exists vals,
    result_map (convert rate code) usd = Ok vals
    /\ df' = Frame.set_col df label vals
    /\ Frame.wf df' /\ Frame.nrows df' = Frame.nrows df.
Proof.
  intros Hwf Husd. unfold add_currency, Frame.getitem. rewrite Husd. simpl.
  destruct (result_map (convert rate code) usd) as [vals|] eqn:Hvals;
    simpl; [|discriminate].
  assert (Hlen : length vals = Frame.nrows df).
  { rewrite (result_map_length _ _ _ Hvals).
    eapply FrameFacts.wf_lookup; eassumption. }
  rewrite (FrameFacts.setitem_wf _ _ _ Hwf Hlen). intros [= <-].
  exists vals. repeat split; trivial.
  - apply FrameFacts.wf_set_col; assumption.
  - apply FrameFacts.nrows_set_col, Hlen.
Qed.

(** The frame a successful transformation leaves: the dollar column
    converted to floats and the three currency columns set. *)
Lemma transform_frame_ok (sheet : option RateSheet) (df df' : DataFrame) :
  Frame.wf df -> transform_frame sheet df = (df', Ok tt) ->
  exists exr_df raw usd gbp eur inr,
    sheet = Some exr_df
    /\ Frame.lookup_col "MC_USD_Billion" df = Some raw
    /\ Frame.astype_float raw = Ok usd
    /\ result_map (convert (to_dict exr_df) "GBP") usd = Ok gbp
    /\ result_map (convert (to_dict exr_df) "EUR") usd = Ok eur
    /\ result_map (convert (to_dict exr_df) "INR") usd = Ok inr
    /\ df' = Frame.set_col
               (Frame.set_col
                  (Frame.set_col
                     (Frame.set_col df "MC_USD_Billion" usd)
                     "MC_GBP_Billion" gbp)
                  "MC_EUR_Billion" eur)
               "MC_INR_Billion" inr
    /\ Frame.nrows df' = Frame.nrows df.
Proof.
  intros Hwf. unfold transform_frame.
  destruct (coerce_usd df) as [df1|] eqn:H1; [|discriminate].
  destruct (coerce_usd_ok _ _ Hwf H1) as (raw & usd & Hraw & Husd & -> & Hwf1 & Hn1).
  destruct sheet as [exr_df|]; [|discriminate].
  set (df1 := Frame.set_col df "MC_USD_Billion" usd) in *.
  assert (Hu1 : Frame.lookup_col "MC_USD_Billion" df1 = Some usd)
    by apply FrameFacts.lookup_set_col_eq.
  destruct (add_currency _ "GBP" _ df1) as [df2|] eqn:H2; [|discriminate].
  destruct (add_currency_ok _ _ _ _ _ _ Hwf1 Hu1 H2)
    as (gbp & Hgbp & -> & Hwf2 & Hn2).
  set (df2 := Frame.set_col df1 "MC_GBP_Billion" gbp) in *.
  assert (Hu2 : Frame.lookup_col "MC_USD_Billion" df2 = Some usd).
  { unfold df2. rewrite FrameFacts.lookup_set_col_ne by discriminate.
    exact Hu1. }
  destruct (add_currency _ "EUR" _ df2) as [df3|] eqn:H3; [|discriminate].
  destruct (add_currency_ok _ _ _ _ _ _ Hwf2 Hu2 H3)
    as (eur & Heur & -> & Hwf3 & Hn3).
  set (df3 := Frame.set_col df2 "MC_EUR_Billion" eur) in *.
  assert (Hu3 : Frame.lookup_col "MC_USD_Billion" df3 = Some usd).
  { unfold df3. rewrite FrameFacts.lookup_set_col_ne by discriminate.
    exact Hu2. }
  destruct (add_currency _ "INR" _ df3) as [df4|] eqn:H4; [|discriminate].
  destruct (add_currency_ok _ _ _ _ _ _ Hwf3 Hu3 H4)
    as (inr & Hinr & -> & Hwf4 & Hn4).
  intros [= <-].
  exists exr_df, raw, usd, gbp, eur, inr.
  repeat split; trivial. congruence.
Qed.

(** A successful conversion of one element. *)
Lemma convert_ok (rate : gmap string float) (code : string) (v v' : value) :
  convert rate code v = Ok v' ->
  exists x r,
    v = VFloat x /\ rate !! code = Some r
    /\ v' = VFloat (PyFloat.np_round (PrimFloat.mul x r) 2).
Proof.
  unfold convert. destruct (rate !! code) as [r|]; [|discriminate].
  destruct v as [s|x|]; try discriminate.
  intros [= <-]. exists x, r. repeat split.
Qed.

(** One converted column, read record by record. *)
Lemma converted_lookup (rate : gmap string float) (code : string)
  (usd vals : list value) (i : nat) (x : float) :
  result_map (convert rate code) usd = Ok vals ->
  usd !! i = Some (VFloat x) ->
  exists r,
    rate !! code = Some r
    /\ vals !! i = Some (VFloat (PyFloat.np_round (PrimFloat.mul x r) 2)).
Proof.
  intros Hvals Hx. apply result_map_Forall2 in Hvals.
  destruct (Forall2_lookup_l _ _ _ _ _ Hvals Hx) as (v' & Hv' & Hconv).
  destruct (convert_ok _ _ _ _ Hconv) as (x' & r & [= <-] & Hr & ->).
  exists r. split; assumption.
Qed.

(** What [np.round(p, 2)] computes: [p] times 100 in binary64, rounded to
    the nearest integer with ties to even, divided by 100 in binary64. *)
Lemma np_round_scaled (p : float) : rounds_scaled p (PyFloat.np_round p 2).
Proof.
  exists (PyFloat.rint (PrimFloat.mul p 100)). split.
  - apply RoundingFacts.rint_rounds.
  - reflexivity.
Qed.

(** Only one float is [p] so rounded. *)
Lemma rounds_scaled_unique (p c c' : float) :
  rounds_scaled p c -> rounds_scaled p c' -> c = c'.
Proof.
  intros (r & Hr & ->) (r' & Hr' & ->).
  rewrite (RoundingFacts.rounds_to_integer_unique _ _ _ Hr Hr').
  reflexivity.
Qed.

(** C1, as the code has it. Every record of the table left by a
    successful [transform] holds in [MC_GBP_Billion], [MC_EUR_Billion] and
    [MC_INR_Billion] what [np.round(_, 2)] makes of its [MC_USD_Billion]
    times the rate of that currency in the rate file: the binary64 product
    is multiplied by 100 in binary64, the result is replaced by the integer
    nearest to it, ties to even, and that integer is divided by 100 in
    binary64. The outcome is a function of the table and of the rate file
    alone: any other call on the same table contents and the same rate
    file, in whatever world, leaves its caller the same exception or the
    same table. *)
Theorem transform_converts_each_record (env : Env) (l : nat) (path : string)
  (w : World) (df : DataFrame) (l' : nat) (w' : World) :
  heap w !! l = Some df ->
  Frame.wf df ->
  transform env l path w = (Ok l', w') ->
  (exists df' exr_df,
      heap w' !! l' = Some df'
      /\ read_csv env "exchange_rate.csv" = Some exr_df
      /\ forall i, i < Frame.nrows df' ->
         exists x gbp eur inr cg ce ci,
           Frame.cell df' "MC_USD_Billion" i = Some (VFloat x)
           /\ to_dict exr_df !! "GBP" = Some gbp
           /\ to_dict exr_df !! "EUR" = Some eur
           /\ to_dict exr_df !! "INR" = Some inr
           /\ Frame.cell df' "MC_GBP_Billion" i = Some (VFloat cg)
           /\ Frame.cell df' "MC_EUR_Billion" i = Some (VFloat ce)
           /\ Frame.cell df' "MC_INR_Billion" i = Some (VFloat ci)
           /\ rounds_scaled (PrimFloat.mul x gbp) cg
           /\ rounds_scaled (PrimFloat.mul x eur) ce
           /\ rounds_scaled (PrimFloat.mul x inr) ci)
  /\ (forall env2 l2 path2 w2,
         heap w2 !! l2 = Some df ->
         read_csv env2 "exchange_rate.csv" = read_csv env "exchange_rate.csv" ->
         returned_frame (transform env2 l2 path2 w2)
         = returned_frame (transform env l path w)).
Proof.
  intros Hl Hwf Hrun. split.
  - rewrite (transform_eq _ _ _ _ _ Hl) in Hrun.
    destruct (transform_frame (read_csv env "exchange_rate.csv") df)
      as [df' [[]|e]] eqn:Htf; simpl in Hrun; [|discriminate].
    injection Hrun as <- <-.
    destruct (transform_frame_ok _ _ _ Hwf Htf)
      as (exr_df & raw & usd & gbp & eur & inr
          & Hsheet & Hraw & Husd & Hgbp & Heur & Hinr & Hdf' & Hn).
    exists df', exr_df. split; [simpl; apply lookup_insert_eq|].
    split; [exact Hsheet|].
    intros i Hi. rewrite Hn in Hi.
    rewrite <- (FrameFacts.wf_lookup _ _ _ Hwf Hraw) in Hi.
    rewrite <- (result_map_length _ _ _ Husd) in Hi.
    destruct (lookup_lt_is_Some_2 _ _ Hi) as [v Hv].
    pose proof (Forall_lookup_1 _ _ _ _ (astype_float_floats _ _ Husd) Hv) as Hf.
    destruct v as [s|x|]; try contradiction.
    destruct (converted_lookup _ _ _ _ _ _ Hgbp Hv) as (rg & Hrg & Hcg).
    destruct (converted_lookup _ _ _ _ _ _ Heur Hv) as (re & Hre & Hce).
    destruct (converted_lookup _ _ _ _ _ _ Hinr Hv) as (ri & Hri & Hci).
    exists x, rg, re, ri.
    exists (PyFloat.np_round (PrimFloat.mul x rg) 2),
           (PyFloat.np_round (PrimFloat.mul x re) 2),
           (PyFloat.np_round (PrimFloat.mul x ri) 2).
    subst df'.
    repeat split; trivial; try apply np_round_scaled.
    + rewrite !FrameFacts.cell_set_col_ne by discriminate.
      rewrite FrameFacts.cell_set_col_eq. exact Hv.
    + rewrite !FrameFacts.cell_set_col_ne by discriminate.
      rewrite FrameFacts.cell_set_col_eq. exact Hcg.
    + rewrite !FrameFacts.cell_set_col_ne by discriminate.
      rewrite FrameFacts.cell_set_col_eq. exact Hce.
    + rewrite FrameFacts.cell_set_col_eq. exact Hci.
  - intros env2 l2 path2 w2 Hl2 Hread.
    rewrite (transform_eq _ _ _ _ _ Hl), (transform_eq _ _ _ _ _ Hl2), Hread.
    unfold returned_frame. simpl.
    destruct (snd (transform_frame (read_csv env "exchange_rate.csv") df));
      [|reflexivity].
    rewrite !lookup_insert_eq. reflexivity.
Qed.

Lemma transform_converts_each_record_witness :
  (exists df' exr_df,
      heap (Sample.world_with Sample.enriched_table) !! 0 = Some df'
      /\ read_csv (Sample.env_of Sample.plain_page Sample.rates)
           "exchange_rate.csv" = Some exr_df
      /\ forall i, i < Frame.nrows df' ->
         exists x gbp eur inr cg ce ci,
           Frame.cell df' "MC_USD_Billion" i = Some (VFloat x)
           /\ to_dict exr_df !! "GBP" = Some gbp
           /\ to_dict exr_df !! "EUR" = Some eur
           /\ to_dict exr_df !! "INR" = Some inr
           /\ Frame.cell df' "MC_GBP_Billion" i = Some (VFloat cg)
           /\ Frame.cell df' "MC_EUR_Billion" i = Some (VFloat ce)
           /\ Frame.cell df' "MC_INR_Billion" i = Some (VFloat ci)
           /\ rounds_scaled (PrimFloat.mul x gbp) cg
           /\ rounds_scaled (PrimFloat.mul x eur) ce
           /\ rounds_scaled (PrimFloat.mul x inr) ci)
  /\ (forall env2 l2 path2 w2,
         heap w2 !! l2 = Some Sample.plain_table ->
         read_csv env2 "exchange_rate.csv"
         = read_csv (Sample.env_of Sample.plain_page Sample.rates)
             "exchange_rate.csv" ->
         returned_frame (transform env2 l2 path2 w2)
         = returned_frame
             (transform (Sample.env_of Sample.plain_page Sample.rates) 0
                csv_path (Sample.world_with Sample.plain_table))).
Proof.
  apply (transform_converts_each_record
           (Sample.env_of Sample.plain_page Sample.rates) 0 csv_path
           (Sample.world_with Sample.plain_table) Sample.plain_table 0
           (Sample.world_with Sample.enriched_table)).
  - vm_compute. reflexivity.
  - repeat constructor.
  - vm_compute. reflexivity.
Defined.

(** C1, as stated, fails: the cell is not always the product rounded to
    two decimal places. For a market cap of 0.5 under the rate 0.93 the
    product is the float just above 0.465, whose nearest multiple of 0.01
    is 0.47; a hundred times it is 46.5 in binary64, a tie that goes to the
    even 46, and [transform] leaves 0.46. *)
Lemma transform_cell_not_rounded_product :
  exists df',
    returned_frame
      (transform (Sample.env_of Sample.plain_page Sample.rates) 0 csv_path
         (Sample.world_with
            [ ("Name", [VStr "Bank A"]); ("MC_USD_Billion", [VStr "0.5"]) ]))
    = Ok (Some df')
    /\ Frame.cell df' "MC_USD_Billion" 0 = Some (VFloat 0.5)
    /\ to_dict Sample.rates !! "EUR" = Some 0.93%float
    /\ Frame.cell df' "MC_EUR_Billion" 0 = Some (VFloat 0.46)
    /\ magnitude (PrimFloat.mul 0.5 0.93)
       = Some (8376695306909123, 18014398509481984)%Z
    /\ (465 * 18014398509481984 < 1000 * 8376695306909123)%Z
    /\ ~ rounded_to_two_places 0.5 0.93 0.46.
Proof.
  eexists. split; [vm_compute; reflexivity|].
  split; [vm_compute; reflexivity|].
  split; [vm_compute; reflexivity|].
  split; [vm_compute; reflexivity|].
  split; [vm_compute; reflexivity|].
  split; [lia|].
  intros (nx & dx & nr & dr & k & Hx & Hr & Hk & Hc).
  vm_compute in Hx. vm_compute in Hr.
  injection Hx as <- <-. injection Hr as <- <-.
  unfold nearest in Hk.
  assert (k = 47%Z) by lia. subst k.
  apply (f_equal (fun c => PrimFloat.eqb c 0.46)) in Hc.
  vm_compute in Hc. discriminate.
Qed.

(** The rounding policy of [np.round(_, 2)]: the value is scaled by 100
    in binary64 and a tie of the scaled value goes to the even integer, so
    that 0.125 gives 0.12 and 0.375 gives 0.38; 2.675, whose product with
    100 rounds to 267.5, gives 2.68. *)
Lemma np_round_ties_to_even :
  PyFloat.np_round 0.125 2 = 0.12%float
  /\ PyFloat.np_round 0.375 2 = 0.38%float
  /\ PyFloat.np_round 2.675 2 = 2.68%float.
Proof. repeat split; vm_compute; reflexivity. Qed.

(** ** The scenario of the specification *)

Lemma transform_frame_plain :
  transform_frame (Some Sample.rates) Sample.plain_table
  = (Sample.enriched_table, Ok tt).
Proof. vm_compute. reflexivity. Qed.

(** C2, as the code has it. The raw rows [("Bank A", "100.00 ")] and
    [("Bank B", "50")], without a currency sign, under the rates GBP 0.8,
    EUR 0.93 and INR 83.0: [transform] succeeds and leaves exactly
    Bank A -> (100.0, 80.0, 93.0, 8300.0) and
    Bank B -> (50.0, 40.0, 46.5, 4150.0); and so does [transform] on the
    table [extract] builds from a page with these rows. *)
Theorem transform_scenario_without_sign (env : Env) (l : nat) (path : string)
  (w : World) :
  heap w !! l = Some Sample.plain_table ->
  read_csv env "exchange_rate.csv" = Some Sample.rates ->
  transform env l path w
  = (Ok l, set_heap (<[l := Sample.enriched_table]> (heap w)) w)
  /\ returned_frame
       (bind (extract (Sample.env_of Sample.plain_page Sample.rates)
                url table_attribs)
             (fun df =>
                transform (Sample.env_of Sample.plain_page Sample.rates)
                  df csv_path)
             Sample.empty_world)
     = Ok (Some Sample.enriched_table).
Proof.
  intros Hl Hread. split.
  - rewrite (transform_eq _ _ _ _ _ Hl), Hread, transform_frame_plain.
    reflexivity.
  - vm_compute. reflexivity.
Qed.

Lemma transform_scenario_without_sign_witness :
  transform (Sample.env_of Sample.plain_page Sample.rates) 0 csv_path
    (Sample.world_with Sample.plain_table)
  = (Ok 0,
     set_heap (<[0 := Sample.enriched_table]>
                 (heap (Sample.world_with Sample.plain_table)))
       (Sample.world_with Sample.plain_table))
  /\ returned_frame
       (bind (extract (Sample.env_of Sample.plain_page Sample.rates)
                url table_attribs)
             (fun df =>
                transform (Sample.env_of Sample.plain_page Sample.rates)
                  df csv_path)
             Sample.empty_world)
     = Ok (Some Sample.enriched_table).
Proof.
  apply (transform_scenario_without_sign
           (Sample.env_of Sample.plain_page Sample.rates) 0 csv_path
           (Sample.world_with Sample.plain_table)).
  - vm_compute. reflexivity.
  - vm_compute. reflexivity.
Defined.

(** C2, as stated, fails: with the cell text ["$100.00 "] the conversion
    to float raises [ValueError], on the table with the raw rows and on
    the table extracted from a page with these rows alike, and the table
    is left as it was. *)
Lemma transform_scenario_raises :
  transform (Sample.env_of Sample.scenario_page Sample.rates) 0 csv_path
    (Sample.world_with Sample.scenario_table)
  = (Raise (ValueError "$100.00 "), Sample.world_with Sample.scenario_table)
  /\ returned_frame
       (bind (extract (Sample.env_of Sample.scenario_page Sample.rates)
                url table_attribs)
             (fun df =>
                transform (Sample.env_of Sample.scenario_page Sample.rates)
                  df csv_path)
             Sample.empty_world)
     = Raise (ValueError "$100.00").
Proof. split; vm_compute; reflexivity. Qed.

(** ** Writing the database table *)

(** C4. Whatever the database holds before, [load_to_db] on an open
    connection to a writable file succeeds and leaves under the table's
    name exactly the columns and rows of the new table, none of the rows
    it held before, however many there were; every other table is
    untouched. *)
Theorem load_to_db_replaces (env : Env) (l h : nat) (name file : string)
  (w : World) (df : DataFrame) :
  heap w !! l = Some df ->
  connections w !! h = Some (file, true) ->
  sqlite_writable env file = true ->
  exists w',
    load_to_db env l h name w = (Ok tt, w')
    /\ databases w' !! (file, name)
       = Some {| tbl_columns := Frame.columns df; tbl_rows := Frame.rows df |}
    /\ length (Frame.rows df) = Frame.nrows df
    /\ forall k, k <> (file, name) -> databases w' !! k = databases w !! k.
Proof.
  intros Hl Hh Hw. unfold load_to_db, df_to_sql, bind, deref, open_file.
  rewrite Hl, Hh, Hw.
  assert (Hlen : length (Frame.rows df) = Frame.nrows df).
  { unfold Frame.rows. rewrite length_map, length_seq. reflexivity. }
  destruct (databases w !! (file, name)); eexists;
    (split; [reflexivity|]); simpl;
    (split; [apply lookup_insert_eq|]);
    (split; [exact Hlen|]);
    intros k Hk; apply lookup_insert_ne; congruence.
Qed.

Lemma load_to_db_replaces_witness :
  exists w',
    load_to_db (Sample.env_of Sample.plain_page Sample.rates) 0 0
      "Largest_banks" Sample.reload_world = (Ok tt, w')
    /\ databases w' !! ("Banks.db", "Largest_banks")
       = Some {| tbl_columns := Frame.columns Sample.enriched_table;
                 tbl_rows := Frame.rows Sample.enriched_table |}
    /\ length (Frame.rows Sample.enriched_table)
       = Frame.nrows Sample.enriched_table
    /\ forall k, k <> ("Banks.db", "Largest_banks") ->
                 databases w' !! k = databases Sample.reload_world !! k.
Proof.
  apply (load_to_db_replaces
           (Sample.env_of Sample.plain_page Sample.rates) 0 0
           "Largest_banks" "Banks.db" Sample.reload_world
           Sample.enriched_table).
  - vm_compute. reflexivity.
  - vm_compute. reflexivity.
  - reflexivity.
Defined.

(** ** Running a query *)

Lemma run_query_eq (env : Env) (query : string) (h : nat) (w : World) :
  match pd_read_sql env query h w with
  | (Ok out, _) =>
      run_query env query h w
      = (Ok None, set_stdout (stdout w ++ [PStr query; PFrame out]) w)
  | (Raise e, _) =>
      run_query env query h w
      = (Raise e, set_stdout (stdout w ++ [PStr query]) w)
  end.
Proof.
  unfold run_query, pd_read_sql, bind, print, open_file, ret, set_stdout.
  cbn.
  destruct (connections w !! h) as [[file [|]]|]; try reflexivity.
  cbn.
  destruct (sqlite_select env query file (databases w)); [|reflexivity].
  cbn. rewrite <- app_assoc. reflexivity.
Qed.

(** C9, as the code has it. [run_query] prints the statement and the
    result of the query and returns [None]; when the query raises, only
    the statement has been printed. Nothing else in the world changes. *)
Theorem run_query_prints_and_returns_none (env : Env) (query : string)
  (h : nat) (w : World) :
  match pd_read_sql env query h w with
  | (Ok out, _) =>
      run_query env query h w
      = (Ok None, set_stdout (stdout w ++ [PStr query; PFrame out]) w)
  | (Raise e, _) =>
      run_query env query h w
      = (Raise e, set_stdout (stdout w ++ [PStr query]) w)
  end.
Proof. apply run_query_eq. Qed.

(** C9, as stated, fails: on the table of an earlier run and an open
    connection the query has a result, and [run_query] returns [None], not
    that result. *)
Lemma run_query_result_not_returned :
  fst (pd_read_sql (Sample.env_of Sample.plain_page Sample.rates)
         "SELECT * FROM Largest_banks" 0 Sample.reload_world)
  = Ok (Sample.table_frame Sample.prior_table)
  /\ fst (run_query (Sample.env_of Sample.plain_page Sample.rates)
            "SELECT * FROM Largest_banks" 0 Sample.reload_world)
     = Ok None
  /\ fst (run_query (Sample.env_of Sample.plain_page Sample.rates)
            "SELECT * FROM Largest_banks" 0 Sample.reload_world)
     <> Ok (Some (Sample.table_frame Sample.prior_table)).
Proof.
  split; [vm_compute; reflexivity|].
  split; [vm_compute; reflexivity|].
  vm_compute. discriminate.
Qed.

(** ** Mutation in place *)

(** C10. A successful [transform] returns the reference it was given; the
    object behind it now has floats in [MC_USD_Billion] and the three
    currency columns; no other object of the heap is touched or created;
    and the contents the object had before are gone whenever they lacked
    a currency column or held a market cap that was not a float. *)
Theorem transform_mutates_in_place (env : Env) (l : nat) (path : string)
  (w : World) (df : DataFrame) (l' : nat) (w' : World) :
  heap w !! l = Some df ->
  Frame.wf df ->
  transform env l path w = (Ok l', w') ->
  l' = l
  /\ (forall l2, l2 <> l -> heap w' !! l2 = heap w !! l2)
  /\ exists df' usd gbp eur inr,
       w' = set_heap (<[l := df']> (heap w)) w
       /\ Frame.lookup_col "MC_USD_Billion" df' = Some usd
       /\ Forall is_float usd
       /\ Frame.lookup_col "MC_GBP_Billion" df' = Some gbp
       /\ Frame.lookup_col "MC_EUR_Billion" df' = Some eur
       /\ Frame.lookup_col "MC_INR_Billion" df' = Some inr
       /\ ((Frame.lookup_col "MC_GBP_Billion" df = None
            \/ Frame.lookup_col "MC_EUR_Billion" df = None
            \/ Frame.lookup_col "MC_INR_Billion" df = None
            \/ exists raw, Frame.lookup_col "MC_USD_Billion" df = Some raw
                           /\ ~ Forall is_float raw) ->
           heap w' !! l <> Some df).
Proof.
  intros Hl Hwf Hrun. rewrite (transform_eq _ _ _ _ _ Hl) in Hrun.
  destruct (transform_frame (read_csv env "exchange_rate.csv") df)
    as [df' [[]|e]] eqn:Htf; simpl in Hrun; [|discriminate].
  injection Hrun as <- <-.
  destruct (transform_frame_ok _ _ _ Hwf Htf)
    as (exr_df & raw & usd & gbp & eur & inr
        & _ & Hraw & Husd & _ & _ & _ & Hdf' & _).
  split; [reflexivity|].
  split; [intros l2 Hl2; simpl; apply lookup_insert_ne; congruence|].
  assert (Hu : Frame.lookup_col "MC_USD_Billion" df' = Some usd).
  { subst df'. rewrite !FrameFacts.lookup_set_col_ne by discriminate.
    apply FrameFacts.lookup_set_col_eq. }
  assert (Hg : Frame.lookup_col "MC_GBP_Billion" df' = Some gbp).
  { subst df'. rewrite !FrameFacts.lookup_set_col_ne by discriminate.
    apply FrameFacts.lookup_set_col_eq. }
  assert (He : Frame.lookup_col "MC_EUR_Billion" df' = Some eur).
  { subst df'. rewrite !FrameFacts.lookup_set_col_ne by discriminate.
    apply FrameFacts.lookup_set_col_eq. }
  assert (Hi : Frame.lookup_col "MC_INR_Billion" df' = Some inr).
  { subst df'. apply FrameFacts.lookup_set_col_eq. }
  pose proof (astype_float_floats _ _ Husd) as Hfl.
  exists df', usd, gbp, eur, inr.
  repeat (split; [trivial; fail|]).
  intros Hold. simpl. rewrite lookup_insert_eq. intros [= Heq].
  rewrite Heq in Hu, Hg, He, Hi.
  destruct Hold as [H|[H|[H|(raw' & Hraw' & Hnf)]]]; congruence.
Qed.

Lemma transform_mutates_in_place_witness :
  0 = 0
  /\ (forall l2, l2 <> 0 ->
        heap (Sample.world_with Sample.enriched_table) !! l2
        = heap (Sample.world_with Sample.plain_table) !! l2)
  /\ exists df' usd gbp eur inr,
       Sample.world_with Sample.enriched_table
       = set_heap (<[0 := df']> (heap (Sample.world_with Sample.plain_table)))
           (Sample.world_with Sample.plain_table)
       /\ Frame.lookup_col "MC_USD_Billion" df' = Some usd
       /\ Forall is_float usd
       /\ Frame.lookup_col "MC_GBP_Billion" df' = Some gbp
       /\ Frame.lookup_col "MC_EUR_Billion" df' = Some eur
       /\ Frame.lookup_col "MC_INR_Billion" df' = Some inr
       /\ ((Frame.lookup_col "MC_GBP_Billion" Sample.plain_table = None
            \/ Frame.lookup_col "MC_EUR_Billion" Sample.plain_table = None
            \/ Frame.lookup_col "MC_INR_Billion" Sample.plain_table = None
            \/ exists raw,
                 Frame.lookup_col "MC_USD_Billion" Sample.plain_table = Some raw
                 /\ ~ Forall is_float raw) ->
           heap (Sample.world_with Sample.enriched_table) !! 0
           <> Some Sample.plain_table).
Proof.
  apply (transform_mutates_in_place
           (Sample.env_of Sample.plain_page Sample.rates) 0 csv_path
           (Sample.world_with Sample.plain_table) Sample.plain_table 0
           (Sample.world_with Sample.enriched_table)).
  - vm_compute. reflexivity.
  - repeat constructor.
  - vm_compute. reflexivity.
Defined.

(** ** What each stage does to the world *)

Lemma set_heap_id (w : World) : set_heap (heap w) w = w.
Proof. destruct w; reflexivity. Qed.

Lemma extract_effect (env : Env) (u : string) (attribs : list string)
  (w : World) (r : result nat) (w' : World) :
  extract env u attribs w = (r, w') -> exists hp, w' = set_heap hp w.
Proof.
  unfold extract, bind, lift, alloc.
  destruct (requests_get env u) as [page|];
    [|intros [= <- <-]; exists (heap w); symmetry; apply set_heap_id].
  destruct (list_getitem _ 0) as [table0|e];
    [|intros [= <- <-]; exists (heap w); symmetry; apply set_heap_id].
  destruct (extract_rows _ _) as [df|e];
    [|intros [= <- <-]; exists (heap w); symmetry; apply set_heap_id].
  intros [= <- <-]. eexists. reflexivity.
Qed.

Lemma transform_effect (env : Env) (l : nat) (path : string) (w : World)
  (r : result nat) (w' : World) :
  transform env l path w = (r, w') ->
  (exists hp, w' = set_heap hp w) /\ (forall l', r = Ok l' -> l' = l).
Proof.
  destruct (heap w !! l) as [df|] eqn:Hl.
  - rewrite (transform_eq _ _ _ _ _ Hl). intros [= <- <-].
    split; [eexists; reflexivity|].
    destruct (snd (transform_frame _ df)); congruence.
  - unfold transform, df_getitem, bind, deref. rewrite Hl.
    intros [= <- <-]. split; [|discriminate].
    exists (heap w). symmetry. apply set_heap_id.
Qed.

Lemma load_to_csv_inv (env : Env) (l : nat) (path : string) (w : World)
  (r : result unit) (w' : World) :
  load_to_csv env l path w = (r, w') ->
  (exists e, r = Raise e /\ w' = w)
  \/ (exists df,
        r = Ok tt /\ heap w !! l = Some df
        /\ w' = set_csv_files (<[path := to_csv df]> (csv_files w)) w).
Proof.
  unfold load_to_csv, df_to_csv, bind, deref.
  destruct (heap w !! l) as [df|]; [|intros [= <- <-]; left; eauto].
  destruct (csv_writable env path); intros [= <- <-]; [right|left]; eauto.
Qed.

Lemma sqlite3_connect_inv (env : Env) (file : string) (w : World)
  (r : result nat) (w' : World) :
  sqlite3_connect env file w = (r, w') ->
  (exists e, r = Raise e /\ w' = w)
  \/ (exists h,
        r = Ok h /\ connections w !! h = None
        /\ w' = set_connections (<[h := (file, true)]> (connections w)) w).
Proof.
  unfold sqlite3_connect.
  destruct (sqlite_connectable env file); intros [= <- <-]; [right|left; eauto].
  eexists. split; [reflexivity|]. split; [|reflexivity].
  apply not_elem_of_dom, is_fresh.
Qed.

Lemma load_to_db_inv (env : Env) (l h : nat) (name : string) (w : World)
  (r : result unit) (w' : World) :
  load_to_db env l h name w = (r, w') ->
  (exists e, r = Raise e /\ w' = w)
  \/ (exists df file,
        r = Ok tt /\ heap w !! l = Some df
        /\ connections w !! h = Some (file, true)
        /\ w' = set_databases
                  (<[(file, name) := sql_table df]> (databases w)) w).
Proof.
  unfold load_to_db, df_to_sql, bind, deref, open_file.
  destruct (heap w !! l) as [df|]; [|intros [= <- <-]; left; eauto].
  destruct (connections w !! h) as [[file [|]]|];
    try (intros [= <- <-]; left; eauto; fail).
  destruct (databases w !! (file, name));
    (destruct (sqlite_writable env file); [|intros [= <- <-]; left; eauto]);
    intros [= <- <-]; right; exists df, file; auto.
Qed.

Lemma run_query_effect (env : Env) (query : string) (h : nat) (w : World)
  (r : result (option DataFrame)) (w' : World) :
  run_query env query h w = (r, w') -> exists out, w' = set_stdout out w.
Proof.
  pose proof (run_query_eq env query h w) as H.
  destruct (pd_read_sql env query h w) as [[out|e] w1];
    rewrite H; intros [= <- <-]; eexists; reflexivity.
Qed.

(** ** The course of a run *)

Ltac world_fields :=
  cbn [heap code_log clock csv_files databases connections stdout
       set_heap set_log set_csv_files set_databases set_connections
       set_stdout].

Tactic Notation "world_fields" "in" hyp(H) :=
  cbn [heap code_log clock csv_files databases connections stdout
       set_heap set_log set_csv_files set_databases set_connections
       set_stdout] in H.

Ltac summary :=
  unfold run_summary, journal; world_fields;
  rewrite <- ?app_assoc;
  repeat split; try reflexivity; try assumption.

Lemma bind_log_progress {B} (env : Env) (message : string) (k : unit -> M B)
  (w : World) :
  bind (log_progress env message) k w
  = k tt (set_log
            (code_log w ++ [log_entry (strftime_now env (clock w)) message])
            (S (clock w)) w).
Proof. reflexivity. Qed.

Lemma connection_close_eq (h : nat) (w : World) (file : string) (state : bool) :
  connections w !! h = Some (file, state) ->
  connection_close h w
  = (Ok tt, set_connections (<[h := (file, false)]> (connections w)) w).
Proof. intros H. unfold connection_close. rewrite H. reflexivity. Qed.

(** Every run ends in one of the ways [run_outcome] lists. *)
Lemma run_outcome_of (env : Env) (w : World) (r : result unit) (w' : World) :
  run env w = (r, w') -> run_outcome env w r w'.
Proof.
  intros H. unfold run in H.
  rewrite bind_log_progress in H.
  apply bind_inv in H.
  destruct H as [(e & Hm & ->) | (l & w2 & Hm & H)];
    destruct (extract_effect _ _ _ _ _ _ Hm) as (hp & ->).
  { apply Aborted with (s := Extract) (df := []) (h := 0);
      [eexists; exact Hm|summary]. }
  clear Hm. rewrite bind_log_progress in H. world_fields in H.
  apply bind_inv in H.
  destruct H as [(e & Hm & ->) | (l' & w3 & Hm & H)];
    destruct (transform_effect _ _ _ _ _ _ Hm) as ((hp' & ->) & Hl').
  { apply Aborted with (s := Transform) (df := []) (h := 0);
      [eexists _, _; exact Hm|summary]. }
  rewrite (Hl' l' eq_refl) in H. clear Hm Hl' l'.
  rewrite bind_log_progress in H. world_fields in H.
  apply bind_inv in H.
  destruct H as [(e & Hm & ->) | ([] & w4 & Hm & H)];
    destruct (load_to_csv_inv _ _ _ _ _ _ Hm)
      as [(e' & He' & ->) | (df & Hr & Hdf & ->)]; try discriminate.
  { apply Aborted with (s := LoadCsv) (df := []) (h := 0);
      [eexists _, _; exact Hm|summary]. }
  clear Hm Hr. world_fields in Hdf.
  rewrite bind_log_progress in H. world_fields in H.
  apply bind_inv in H.
  destruct H as [(e & Hm & ->) | (h & w5 & Hm & H)];
    destruct (sqlite3_connect_inv _ _ _ _ _ Hm)
      as [(e' & He' & ->) | (h' & Hh' & Hfresh & ->)];
    try discriminate.
  { apply Aborted with (s := Connect) (df := df) (h := 0);
      [eexists; exact Hm|summary]. }
  injection Hh' as <-. clear Hm. world_fields in Hfresh.
  rewrite bind_log_progress in H. world_fields in H.
  apply bind_inv in H.
  destruct H as [(e & Hm & ->) | ([] & w6 & Hm & H)];
    destruct (load_to_db_inv _ _ _ _ _ _ _ Hm)
      as [(e' & He' & ->) | (df2 & file & Hr2 & Hdf2 & Hfile & ->)];
    try discriminate.
  { apply Aborted with (s := LoadDb) (df := df) (h := h);
      [eexists _, _, _; exact Hm|summary]. }
  world_fields in Hdf2. world_fields in Hfile.
  rewrite Hdf in Hdf2. injection Hdf2 as <-.
  rewrite lookup_insert_eq in Hfile. injection Hfile as <-.
  clear Hm Hr2. rewrite bind_log_progress in H. world_fields in H.
  apply bind_inv in H.
  destruct H as [(e & Hm & ->) | (o1 & w7 & Hm & H)];
    destruct (run_query_effect _ _ _ _ _ _ Hm) as (out1 & ->).
  { apply Aborted with (s := Query) (df := df) (h := h);
      [eexists _, _, _; exact Hm|summary]. }
  clear Hm. world_fields in H. apply bind_inv in H.
  destruct H as [(e & Hm & ->) | (o2 & w8 & Hm & H)];
    destruct (run_query_effect _ _ _ _ _ _ Hm) as (out2 & ->).
  { apply Aborted with (s := Query) (df := df) (h := h);
      [eexists _, _, _; exact Hm|summary]. }
  clear Hm. world_fields in H. apply bind_inv in H.
  destruct H as [(e & Hm & ->) | (o3 & w9 & Hm & H)];
    destruct (run_query_effect _ _ _ _ _ _ Hm) as (out3 & ->).
  { apply Aborted with (s := Query) (df := df) (h := h);
      [eexists _, _, _; exact Hm|summary]. }
  clear Hm. rewrite bind_log_progress in H. world_fields in H.
  apply bind_inv in H.
  destruct H as [(e & Hm & ->) | ([] & w10 & Hm & H)];
    rewrite (connection_close_eq _ _ "Banks.db" true) in Hm
      by (world_fields; apply lookup_insert_eq);
    try discriminate.
  injection Hm as <-.
  unfold log_progress in H. injection H as <- <-.
  apply Completed with (df := df) (h := h). summary.
  apply insert_insert_eq.
Qed.

Lemma map_snd_combine_seq {A} (rows : list A) (j : nat) :
  map snd (combine (seq j (length rows)) rows) = rows.
Proof.
  revert j. induction rows as [|r rows IH]; intros j; simpl; [reflexivity|].
  rewrite IH. reflexivity.
Qed.

Lemma csv_records_rows (df : DataFrame) :
  map snd (csv_records (to_csv df)) = tbl_rows (sql_table df).
Proof.
  unfold to_csv, sql_table. simpl.
  assert (Hlen : Frame.nrows df = length (Frame.rows df)).
  { unfold Frame.rows. rewrite length_map, length_seq. reflexivity. }
  rewrite Hlen. apply map_snd_combine_seq.
Qed.

(** C3. After a run that completed, the CSV file and the database table
    hold the same records in the same order, under the same column names:
    the records of the file, without their index labels, are the rows of
    the table. *)
Theorem sinks_hold_same_records (env : Env) (w w' : World) :
  run env w = (Ok tt, w') ->
  exists file table,
    csv_files w' !! output_path = Some file
    /\ databases w' !! ("Banks.db", table_name) = Some table
    /\ map snd (csv_records file) = tbl_rows table
    /\ tail (csv_header file) = tbl_columns table.
Proof.
  intros H. apply run_outcome_of in H.
  inversion H as [|df h w'' (_ & Hcsv & Hdb & _)]; subst.
  exists (to_csv df), (sql_table df).
  rewrite Hcsv, Hdb, !lookup_insert_eq.
  repeat split; trivial. apply csv_records_rows.
Qed.

Lemma sinks_hold_same_records_witness :
  exists file table,
    csv_files (snd (run (Sample.env_of Sample.plain_page Sample.rates)
                      Sample.empty_world)) !! output_path = Some file
    /\ databases (snd (run (Sample.env_of Sample.plain_page Sample.rates)
                         Sample.empty_world)) !! ("Banks.db", table_name)
       = Some table
    /\ map snd (csv_records file) = tbl_rows table
    /\ tail (csv_header file) = tbl_columns table.
Proof.
  apply (sinks_hold_same_records
           (Sample.env_of Sample.plain_page Sample.rates) Sample.empty_world).
  vm_compute. reflexivity.
Defined.

(** ** A failing statement ends the run *)

Lemma bind_ret_inv {A B} (m : M A) (f : A -> B) (w : World) (r : result B)
  (w' : World) :
  bind m (fun a => ret (f a)) w = (r, w') ->
  exists r0,
    m w = (r0, w')
    /\ match r0 with
       | Ok a => r = Ok (f a)
       | Raise e => r = Raise e
       end.
Proof.
  unfold bind, ret. destruct (m w) as [[a|e] w1]; intros [= <- <-].
  - exists (Ok a). split; reflexivity.
  - exists (Raise e). split; reflexivity.
Qed.

(** What one statement can do to the world: [log_progress] appends its
    line, a load writes its sink or raises and writes nothing, and every
    other statement leaves the log, the CSV files and the databases
    alone. *)
Lemma exec_statement_world (env : Env) (st : statement) (v : bindings)
  (w : World) (r : result bindings) (w' : World) :
  exec_statement env st v w = (r, w') ->
  match st with
  | LogProgress message =>
      r = Ok v
      /\ w' = set_log
                (code_log w ++ [log_entry (strftime_now env (clock w)) message])
                (S (clock w)) w
  | CallLoadCsv =>
      (exists e, r = Raise e /\ w' = w)
      \/ (exists files, r = Ok v /\ w' = set_csv_files files w)
  | CallLoadDb =>
      (exists e, r = Raise e /\ w' = w)
      \/ (exists tables, r = Ok v /\ w' = set_databases tables w)
  | CallExtract | CallTransform => exists hp, w' = set_heap hp w
  | CallConnect | CallClose => exists conns, w' = set_connections conns w
  | CallRunQuery _ => exists out, w' = set_stdout out w
  end.
Proof.
  destruct st as [message| | | | | |query|]; cbn [exec_statement]; intros H.
  - injection H as <- <-. split; reflexivity.
  - apply bind_ret_inv in H. destruct H as (r0 & H & _).
    eapply extract_effect, H.
  - apply bind_ret_inv in H. destruct H as (r0 & H & _).
    eapply transform_effect, H.
  - apply bind_ret_inv in H. destruct H as (r0 & H & Hr).
    destruct (load_to_csv_inv _ _ _ _ _ _ H)
      as [(e & -> & ->) | (df & -> & _ & ->)].
    + left. exists e. split; [exact Hr|reflexivity].
    + right. eexists. split; [exact Hr|reflexivity].
  - apply bind_ret_inv in H. destruct H as (r0 & H & _).
    destruct (sqlite3_connect_inv _ _ _ _ _ H)
      as [(e & _ & ->) | (h & _ & _ & ->)].
    + exists (connections w). destruct w; reflexivity.
    + eexists. reflexivity.
  - apply bind_ret_inv in H. destruct H as (r0 & H & Hr).
    destruct (load_to_db_inv _ _ _ _ _ _ _ H)
      as [(e & -> & ->) | (df & file & -> & _ & _ & ->)].
    + left. exists e. split; [exact Hr|reflexivity].
    + right. eexists. split; [exact Hr|reflexivity].
  - apply bind_ret_inv in H. destruct H as (r0 & H & _).
    eapply run_query_effect, H.
  - apply bind_ret_inv in H. destruct H as (r0 & H & _).
    unfold connection_close in H.
    destruct (connections w !! bound_connection v) as [[file state]|];
      injection H as _ <-.
    + eexists. reflexivity.
    + exists (connections w). destruct w; reflexivity.
Qed.

Lemma exec_app (env : Env) (sts rest : list statement) (v : bindings)
  (w : World) :
  exec env (sts ++ rest) v w
  = match exec env sts v w with
    | (Ok v', w1) => exec env rest v' w1
    | (Raise e, w1) => (Raise e, w1)
    end.
Proof.
  revert v w. induction sts as [|st sts IH]; intros v w.
  - reflexivity.
  - cbn [exec app]. unfold bind.
    destruct (exec_statement env st v w) as [[v'|e] w1]; [apply IH|reflexivity].
Qed.

Lemma messages_app (sts rest : list statement) :
  messages (sts ++ rest) = messages sts ++ messages rest.
Proof.
  induction sts as [|st sts IH]; [reflexivity|].
  destruct st; simpl; rewrite IH; reflexivity.
Qed.

(** The lines the statements completed have added to the log. *)
Lemma exec_log (env : Env) (sts : list statement) (v : bindings) (w : World)
  (v' : bindings) (w1 : World) :
  exec env sts v w = (Ok v', w1) ->
  code_log w1
  = code_log w
    ++ zip_with log_entry
         (map (strftime_now env) (seq (clock w) (length (messages sts))))
         (messages sts)
  /\ clock w1 = clock w + length (messages sts).
Proof.
  revert v w. induction sts as [|st sts IH]; intros v w H.
  - injection H as <- <-. simpl. rewrite app_nil_r. split; [reflexivity|lia].
  - cbn [exec] in H. apply bind_inv in H.
    destruct H as [(e & _ & [=]) | (v1 & w2 & Hst & H)].
    apply exec_statement_world in Hst. apply IH in H. destruct H as [Hl Hc].
    destruct st as [message| | | | | |query|]; cbn [messages].
    + destruct Hst as [_ ->]. world_fields in Hl. world_fields in Hc.
      rewrite Hl, Hc, <- app_assoc. split; [reflexivity|simpl; lia].
    + destruct Hst as [hp ->]. split; assumption.
    + destruct Hst as [hp ->]. split; assumption.
    + destruct Hst as [(e & [=] & _) | (files & _ & ->)]. split; assumption.
    + destruct Hst as [conns ->]. split; assumption.
    + destruct Hst as [(e & [=] & _) | (tables & _ & ->)]. split; assumption.
    + destruct Hst as [out ->]. split; assumption.
    + destruct Hst as [conns ->]. split; assumption.
Qed.

(** Statements other than [load_to_csv] leave the CSV files as they are,
    and statements other than [load_to_db] the databases. *)
Lemma exec_sinks (env : Env) (sts : list statement) (v : bindings) (w : World)
  (r : result bindings) (w1 : World) :
  exec env sts v w = (r, w1) ->
  (~ In CallLoadCsv sts -> csv_files w1 = csv_files w)
  /\ (~ In CallLoadDb sts -> databases w1 = databases w).
Proof.
  revert v w. induction sts as [|st sts IH]; intros v w H.
  - injection H as <- <-. split; reflexivity.
  - cbn [exec] in H. apply bind_inv in H.
    destruct H as [(e & Hst & ->) | (v1 & w2 & Hst & H)];
      apply exec_statement_world in Hst.
    + destruct st as [message| | | | | |query|];
        try (destruct Hst as [[=] _]);
        try (destruct Hst as [x ->]; split; reflexivity);
        destruct Hst as [(e' & _ & ->) | (x & [=] & _)]; split; reflexivity.
    + apply IH in H. destruct H as [Hcsv Hdb].
      destruct st as [message| | | | | |query|];
        try (destruct Hst as [_ ->]);
        try (destruct Hst as [x ->]);
        try (split; intros Hin;
             [apply Hcsv|apply Hdb]; intros Hin'; apply Hin; right; exact Hin').
      * destruct Hst as [(e' & [=] & _) | (files & _ & ->)].
        split; intros Hin.
        -- exfalso. apply Hin. left. reflexivity.
        -- apply Hdb. intros Hin'. apply Hin. right. exact Hin'.
      * destruct Hst as [(e' & [=] & _) | (tables & _ & ->)].
        split; intros Hin.
        -- apply Hcsv. intros Hin'. apply Hin. right. exact Hin'.
        -- exfalso. apply Hin. left. reflexivity.
Qed.

(** A statement that raises has written nothing to the log or the sinks. *)
Lemma exec_statement_raise (env : Env) (st : statement) (v : bindings)
  (w : World) (e : exn) (w' : World) :
  exec_statement env st v w = (Raise e, w') ->
  code_log w' = code_log w /\ clock w' = clock w
  /\ csv_files w' = csv_files w /\ databases w' = databases w.
Proof.
  intros H. apply exec_statement_world in H.
  destruct st as [message| | | | | |query|];
    try (destruct H as [[=] _]);
    try (destruct H as [x ->]; repeat split; reflexivity);
    destruct H as [(e' & _ & ->) | (x & [=] & _)]; repeat split; reflexivity.
Qed.

Lemma bind_eq {A B} (m : M A) (k : A -> M B) (w : World) :
  bind m k w
  = match m w with
    | (Ok a, w1) => k a w1
    | (Raise e, w1) => (Raise e, w1)
    end.
Proof. reflexivity. Qed.

Lemma bind_statement {A B} (m : M A) (f : A -> bindings)
  (k : bindings -> M bindings) (k2 : bindings -> M B) (w : World) :
  bind (bind (bind m (fun a => ret (f a))) k) k2 w
  = match m w with
    | (Ok a, w1) => bind (k (f a)) k2 w1
    | (Raise e, w1) => (Raise e, w1)
    end.
Proof. unfold bind, ret. destruct (m w) as [[a|e] w1]; reflexivity. Qed.

Lemma exec_cons (env : Env) (st : statement) (rest : list statement)
  (v : bindings) :
  exec env (st :: rest) v
  = bind (exec_statement env st v) (fun v' => exec env rest v').
Proof. reflexivity. Qed.

Ltac statement_step :=
  rewrite exec_cons; cbn [exec_statement bound_df bound_connection unbound];
  rewrite bind_statement; rewrite bind_eq;
  match goal with
  | |- match ?m with _ => _ end = _ =>
      destruct m as [[?|?] ?]; [|reflexivity]
  end;
  cbn [bound_df bound_connection unbound].

(** [run] executes the statements of [script] in their order. *)
Lemma run_exec (env : Env) (w : World) :
  run env w = bind (exec env script unbound) (fun _ => ret tt) w.
Proof.
  unfold run, script.
  do 16 statement_step.
  rewrite exec_cons. cbn [exec_statement]. rewrite bind_statement.
  cbn [exec]. unfold bind, ret.
  destruct (log_progress env "Server Connection Closed" _) as [[[]|e] wz];
    reflexivity.
Qed.

(** C7. Whatever statement of the script fails, after the statements
    before it have completed: the run ends there with the exception of
    that statement, in the world that statement left, so that no later
    statement has run and none has recovered from the failure. The log
    then holds, after what it held before the run, the milestones logged
    before the failing statement and no later one; the CSV file is
    untouched unless [load_to_csv] came before the failure, and the
    database unless [load_to_db] came before it. *)
Theorem failure_aborts_run (env : Env) (w : World)
  (before after : list statement) (st : statement) (v : bindings)
  (w1 : World) (e : exn) (w' : World) :
  script = before ++ st :: after ->
  exec env before unbound w = (Ok v, w1) ->
  exec_statement env st v w1 = (Raise e, w') ->
  run env w = (Raise e, w')
  /\ code_log w' = journal env w (length (messages before))
  /\ (~ In CallLoadCsv before -> csv_files w' = csv_files w)
  /\ (~ In CallLoadDb before -> databases w' = databases w).
Proof.
  intros Hsplit Hbefore Hst.
  destruct (exec_statement_raise _ _ _ _ _ _ Hst) as (Hlog & _ & Hcsv & Hdb).
  split; [|split; [|split]].
  - rewrite run_exec, Hsplit, bind_eq, exec_app, Hbefore, exec_cons, bind_eq.
    rewrite Hst. reflexivity.
  - destruct (exec_log _ _ _ _ _ _ Hbefore) as [Hl _].
    rewrite Hlog, Hl. unfold journal. do 2 f_equal.
    assert (Hm : milestones = messages before ++ messages (st :: after)).
    { change milestones with (messages script). rewrite Hsplit.
      apply messages_app. }
    rewrite Hm. symmetry. apply take_app_length.
  - intros Hin. rewrite Hcsv.
    apply (exec_sinks _ _ _ _ _ _ Hbefore), Hin.
  - intros Hin. rewrite Hdb.
    apply (exec_sinks _ _ _ _ _ _ Hbefore), Hin.
Qed.

Lemma failure_aborts_run_witness :
  run (Sample.env_of Sample.scenario_page Sample.rates) Sample.empty_world
  = (Raise (ValueError "$100.00"),
     snd (run (Sample.env_of Sample.scenario_page Sample.rates)
            Sample.empty_world))
  /\ code_log
       (snd (run (Sample.env_of Sample.scenario_page Sample.rates)
               Sample.empty_world))
     = journal (Sample.env_of Sample.scenario_page Sample.rates)
         Sample.empty_world (length (messages (take 3 script)))
  /\ (~ In CallLoadCsv (take 3 script) ->
      csv_files
        (snd (run (Sample.env_of Sample.scenario_page Sample.rates)
                Sample.empty_world))
      = csv_files Sample.empty_world)
  /\ (~ In CallLoadDb (take 3 script) ->
      databases
        (snd (run (Sample.env_of Sample.scenario_page Sample.rates)
                Sample.empty_world))
      = databases Sample.empty_world).
Proof.
  apply (failure_aborts_run
           (Sample.env_of Sample.scenario_page Sample.rates)
           Sample.empty_world (take 3 script) (drop 4 script) CallTransform
           {| bound_df := 0; bound_connection := 0 |}
           (snd (exec (Sample.env_of Sample.scenario_page Sample.rates)
                   (take 3 script) unbound Sample.empty_world))).
  - reflexivity.
  - vm_compute. reflexivity.
  - vm_compute. reflexivity.
Defined.




(** ** Extraction *)

Lemma extract_row_valid (row : node) :
  valid_row row ->
  extract_row row
  = Ok (if qualifying row
        then Some (Frame.of_dict [("Name", row_name row);
                                  ("MC_USD_Billion", VStr (row_cap row))])
        else None).
Proof.
  intros Hv. unfold extract_row. fold (qualifying row).
  destruct (qualifying row) eqn:Hq; [|reflexivity].
  destruct (Hv Hq)
    as (name_cell & link2 & col2 & name & f & H1 & Ha & Ht & _ & H2 & _).
  unfold list_getitem, row_name, row_cap.
  rewrite H1. simpl. rewrite Ha. simpl. rewrite H2. reflexivity.
Qed.

(** A qualifying row of the contract yields a good record. *)
Lemma valid_row_good_record (row : node) :
  valid_row row -> qualifying row = true ->
  good_record (row_name row) (row_cap row).
Proof.
  intros Hv Hq.
  destruct (Hv Hq)
    as (name_cell & link2 & col2 & name & f & H1 & Ha & Ht & Hn & H2 & Hf & Hp).
  unfold good_record, row_name, row_cap. rewrite H1, Ha, Ht, H2. simpl.
  split; [exists name; split; [reflexivity|exact Hn]|].
  split; [apply PyStrFacts.strip_first|].
  split; [apply PyStrFacts.strip_last|].
  exists f. split; assumption.
Qed.

Lemma concat_record (names caps : list value) (name cap : value) :
  Frame.concat [("Name", names); ("MC_USD_Billion", caps)]
    (Frame.of_dict [("Name", name); ("MC_USD_Billion", cap)])
  = [("Name", names ++ [name]); ("MC_USD_Billion", caps ++ [cap])].
Proof. reflexivity. Qed.

(** The loop of [extract] appends one record per qualifying row, in the
    order of the rows. *)
Lemma extract_rows_valid (rows : list node) (names caps : list value) :
  Forall valid_row rows ->
  extract_rows rows [("Name", names); ("MC_USD_Billion", caps)]
  = Ok [("Name", names ++ map row_name (List.filter qualifying rows));
        ("MC_USD_Billion",
         caps ++ map (fun r => VStr (row_cap r)) (List.filter qualifying rows))].
Proof.
  intros Hv. revert names caps.
  induction Hv as [|row rows Hrow _ IH]; intros names caps; simpl.
  - rewrite !app_nil_r. reflexivity.
  - rewrite (extract_row_valid row Hrow).
    destruct (qualifying row); [|apply IH].
    rewrite concat_record, IH. simpl. rewrite <- !app_assoc. reflexivity.
Qed.

(** C5. On a source document that can be fetched, has a table body and
    whose data rows follow the source contract, [extract] succeeds; it goes
    through every row after the first of the first table body, leaves out
    the rows with at most one cell and returns a table with exactly one
    record for each other row, in the order of the rows: its name is the
    title of the second link of the second cell and its market cap the
    stripped text of the third cell. There are as many records as
    qualifying rows, and each has a non-empty name and a market-cap text
    without surrounding white space that reads as a positive number. *)
Theorem extract_yields_qualifying_rows (env : Env) (page : string) (w : World) :
  requests_get env url = Some page ->
  Soup.find_all "tbody" (html_parser env page) <> [] ->
  Forall valid_row (data_rows (html_parser env page)) ->
  exists l w' df,
    extract env url table_attribs w = (Ok l, w')
    /\ heap w' !! l = Some df
    /\ df = [ ("Name",
               map row_name
                 (List.filter qualifying (data_rows (html_parser env page))));
              ("MC_USD_Billion",
               map (fun r => VStr (row_cap r))
                 (List.filter qualifying (data_rows (html_parser env page)))) ]
    /\ Frame.nrows df
       = length (List.filter qualifying (data_rows (html_parser env page)))
    /\ Forall (fun r => good_record (row_name r) (row_cap r))
         (List.filter qualifying (data_rows (html_parser env page))).
Proof.
  intros Hget Htables Hrows.
  unfold extract, bind, lift, alloc. rewrite Hget.
  unfold data_rows in *.
  destruct (Soup.find_all "tbody" (html_parser env page)) as [|table0 tables];
    [contradiction|].
  change (list_getitem (table0 :: tables) 0) with (Ok table0).
  cbv iota beta.
  change (Frame.of_columns table_attribs)
    with [("Name", @nil value); ("MC_USD_Billion", @nil value)].
  rewrite (extract_rows_valid _ [] [] Hrows). simpl app.
  eexists _, _, _. split; [reflexivity|].
  split; [simpl; apply lookup_insert_eq|].
  split; [reflexivity|].
  split; [simpl; apply length_map|].
  apply List.Forall_forall. intros r Hr. apply filter_In in Hr as [Hin Hq].
  apply valid_row_good_record; [|exact Hq].
  rewrite List.Forall_forall in Hrows. apply Hrows, Hin.
Qed.

Lemma append_empty_r (s : string) : s +:+ "" = s.
Proof.
  induction s as [|c s IH]; [reflexivity|].
  change (String c (s +:+ "") = String c s). f_equal. exact IH.
Qed.

Lemma sample_row_valid (rank name cap : string) (f : float) :
  name <> "" ->
  PyFloat.float_of_str (PyStr.strip cap) = Some f ->
  PrimFloat.ltb 0 f = true ->
  valid_row (Sample.bank_row rank name cap).
Proof.
  intros Hn Hf Hp _.
  exists (Tag "td" []
            [ Tag "span" [] [Tag "a" [("href", "/wiki/Flag")] []];
              Tag "a" [("href", "/wiki/Bank"); ("title", name)]
                [NavigableString name] ]),
         (Tag "a" [("href", "/wiki/Bank"); ("title", name)]
            [NavigableString name]),
         (Tag "td" [] [NavigableString cap]), name, f.
  repeat split; try reflexivity; try assumption.
  simpl. rewrite append_empty_r. exact Hf.
Qed.

Lemma extract_yields_qualifying_rows_witness :
  exists l w' df,
    extract (Sample.env_of Sample.plain_page Sample.rates) url table_attribs
      Sample.empty_world = (Ok l, w')
    /\ heap w' !! l = Some df
    /\ df = [ ("Name",
               map row_name
                 (List.filter qualifying
                    (data_rows
                       (html_parser
                          (Sample.env_of Sample.plain_page Sample.rates)
                          "<html>"))));
              ("MC_USD_Billion",
               map (fun r => VStr (row_cap r))
                 (List.filter qualifying
                    (data_rows
                       (html_parser
                          (Sample.env_of Sample.plain_page Sample.rates)
                          "<html>")))) ]
    /\ Frame.nrows df
       = length (List.filter qualifying
                   (data_rows
                      (html_parser
                         (Sample.env_of Sample.plain_page Sample.rates)
                         "<html>")))
    /\ Forall (fun r => good_record (row_name r) (row_cap r))
         (List.filter qualifying
            (data_rows
               (html_parser (Sample.env_of Sample.plain_page Sample.rates)
                  "<html>"))).
Proof.
  apply (extract_yields_qualifying_rows
           (Sample.env_of Sample.plain_page Sample.rates) "<html>"
           Sample.empty_world).
  - reflexivity.
  - vm_compute. discriminate.
  - repeat constructor.
    + apply (sample_row_valid "1" "Bank A" "100.00 " 100%float);
        [discriminate | vm_compute; reflexivity | vm_compute; reflexivity].
    + apply (sample_row_valid "2" "Bank B" "50" 50%float);
        [discriminate | vm_compute; reflexivity | vm_compute; reflexivity].
Defined.

(** ** A rate file without a required currency *)

Lemma add_currency_present (rate : gmap string float) (code label : string)
  (r : float) (df : DataFrame) (usd : list value) :
  Frame.wf df -> Frame.lookup_col "MC_USD_Billion" df = Some usd ->
  Forall is_float usd -> rate !! code = Some r ->
  exists vals,
    add_currency rate code label df = Ok (Frame.set_col df label vals)
    /\ Frame.wf (Frame.set_col df label vals).
Proof.
  intros Hwf Husd Hfl Hr.
  destruct (convert_total rate code r usd Hr Hfl) as [vals Hvals].
  assert (Hlen : length vals = Frame.nrows df).
  { rewrite (result_map_length _ _ _ Hvals).
    eapply FrameFacts.wf_lookup; eassumption. }
  exists vals. split; [|apply FrameFacts.wf_set_col; assumption].
  unfold add_currency, Frame.getitem. rewrite Husd. simpl.
  rewrite Hvals. simpl. apply FrameFacts.setitem_wf; assumption.
Qed.

Lemma add_currency_missing (rate : gmap string float) (code label : string)
  (df : DataFrame) (usd : list value) :
  Frame.lookup_col "MC_USD_Billion" df = Some usd -> usd <> [] ->
  rate !! code = None ->
  add_currency rate code label df = Raise (KeyError code).
Proof.
  intros Husd Hne Hr. unfold add_currency, Frame.getitem. rewrite Husd.
  simpl. destruct usd as [|v usd]; [contradiction|].
  rewrite (convert_missing rate code v usd Hr). reflexivity.
Qed.

(** On a table with at least one record whose market caps all convert,
    a rate file that lacks a required currency makes the transformation
    raise [KeyError] for the first currency it lacks. *)
Lemma transform_frame_missing_rate (exr_df : RateSheet) (df : DataFrame)
  (raw usd : list value) (code : string) :
  Frame.wf df ->
  Frame.lookup_col "MC_USD_Billion" df = Some raw -> raw <> [] ->
  Frame.astype_float raw = Ok usd ->
  In code required_codes -> to_dict exr_df !! code = None ->
  exists missing df',
    first_missing (to_dict exr_df) = Some missing
    /\ In missing required_codes
    /\ to_dict exr_df !! missing = None
    /\ transform_frame (Some exr_df) df = (df', Raise (KeyError missing)).
Proof.
  intros Hwf Hraw Hne Husd Hin Hnone.
  assert (Hlen : length usd = Frame.nrows df).
  { rewrite (result_map_length _ _ _ Husd).
    eapply FrameFacts.wf_lookup; eassumption. }
  assert (Hune : usd <> []).
  { intros ->. apply Hne. apply (result_map_length _ _ _) in Husd.
    destruct raw; [reflexivity|discriminate]. }
  pose proof (astype_float_floats _ _ Husd) as Hfl.
  unfold transform_frame, coerce_usd, Frame.getitem. rewrite Hraw. simpl.
  rewrite Husd. simpl. rewrite (FrameFacts.setitem_wf _ _ _ Hwf Hlen).
  set (df1 := Frame.set_col df "MC_USD_Billion" usd).
  assert (Hwf1 : Frame.wf df1) by (apply FrameFacts.wf_set_col; assumption).
  assert (Hu1 : Frame.lookup_col "MC_USD_Billion" df1 = Some usd)
    by apply FrameFacts.lookup_set_col_eq.
  destruct (to_dict exr_df !! "GBP") as [rg|] eqn:Hg.
  2:{ exists "GBP", df1.
      split; [unfold first_missing; simpl; rewrite Hg; reflexivity|].
      split; [left; reflexivity|]. split; [exact Hg|].
      rewrite (add_currency_missing _ _ _ _ _ Hu1 Hune Hg). reflexivity. }
  destruct (add_currency_present _ "GBP" "MC_GBP_Billion" _ _ _ Hwf1 Hu1 Hfl Hg)
    as (gbp & -> & Hwf2).
  set (df2 := Frame.set_col df1 "MC_GBP_Billion" gbp) in *.
  assert (Hu2 : Frame.lookup_col "MC_USD_Billion" df2 = Some usd).
  { unfold df2. rewrite FrameFacts.lookup_set_col_ne by discriminate.
    exact Hu1. }
  destruct (to_dict exr_df !! "EUR") as [re|] eqn:He.
  2:{ exists "EUR", df2.
      split; [unfold first_missing; simpl; rewrite Hg, He; reflexivity|].
      split; [right; left; reflexivity|].
      split; [exact He|].
      rewrite (add_currency_missing _ _ _ _ _ Hu2 Hune He). reflexivity. }
  destruct (add_currency_present _ "EUR" "MC_EUR_Billion" _ _ _ Hwf2 Hu2 Hfl He)
    as (eur & -> & Hwf3).
  set (df3 := Frame.set_col df2 "MC_EUR_Billion" eur) in *.
  assert (Hu3 : Frame.lookup_col "MC_USD_Billion" df3 = Some usd).
  { unfold df3. rewrite FrameFacts.lookup_set_col_ne by discriminate.
    exact Hu2. }
  assert (Hi : to_dict exr_df !! "INR" = None).
  { destruct Hin as [<-|[<-|[<-|[]]]]; congruence. }
  exists "INR", df3.
  split; [unfold first_missing; simpl; rewrite Hg, He, Hi; reflexivity|].
  split; [right; right; left; reflexivity|].
  split; [exact Hi|].
  rewrite (add_currency_missing _ _ _ _ _ Hu3 Hune Hi). reflexivity.
Qed.

(** C6, as the code has it. When the table extracted has at least one
    record, its market caps all convert to floats, and the rate file can
    be read but lacks a row for one of GBP, EUR and INR, [transform] raises
    [KeyError] for the first of GBP, EUR and INR, in this order, that the
    file lacks, the run ends with that exception in the world [transform]
    left, and neither a CSV file nor a database table has been written. *)
Theorem missing_rate_aborts_run (env : Env) (w : World) (l : nat) (w1 : World)
  (df : DataFrame) (raw usd : list value) (exr_df : RateSheet)
  (code : string) :
  extract env url table_attribs
    (snd (log_progress env
            "Preliminaries Complete. Initiating ETL process" w))
  = (Ok l, w1) ->
  heap w1 !! l = Some df ->
  Frame.wf df ->
  Frame.lookup_col "MC_USD_Billion" df = Some raw ->
  raw <> [] ->
  Frame.astype_float raw = Ok usd ->
  read_csv env "exchange_rate.csv" = Some exr_df ->
  In code required_codes ->
  to_dict exr_df !! code = None ->
  exists missing w',
    first_missing (to_dict exr_df) = Some missing
    /\ In missing required_codes
    /\ to_dict exr_df !! missing = None
    /\ transform env l csv_path
         (snd (log_progress env
                 "Data extraction complete. Initiating Transformation process"
                 w1))
       = (Raise (KeyError missing), w')
    /\ run env w = (Raise (KeyError missing), w')
    /\ csv_files w' = csv_files w
    /\ databases w' = databases w.
Proof.
  intros Hex Hl Hwf Hraw Hne Husd Hread Hin Hnone.
  destruct (transform_frame_missing_rate _ _ _ _ _ Hwf Hraw Hne Husd Hin Hnone)
    as (missing & df' & Hfirst & Hmin & Hmnone & Htf).
  exists missing. eexists.
  split; [exact Hfirst|]. split; [exact Hmin|]. split; [exact Hmnone|].
  assert (Htr : transform env l csv_path
                  (snd (log_progress env
                          "Data extraction complete. Initiating Transformation process"
                          w1))
                = (Raise (KeyError missing),
                   set_heap (<[l := df']> (heap w1))
                     (snd (log_progress env
                             "Data extraction complete. Initiating Transformation process"
                             w1)))).
  { rewrite (transform_eq _ _ _ _ df) by exact Hl.
    rewrite Hread, Htf. reflexivity. }
  split; [exact Htr|].
  split.
  - unfold run. rewrite bind_log_progress. unfold bind at 1.
    simpl snd in Hex. rewrite Hex.
    rewrite bind_log_progress. unfold bind at 1.
    simpl snd in Htr. rewrite Htr. reflexivity.
  - destruct (extract_effect _ _ _ _ _ _ Hex) as (hp & ->).
    split; reflexivity.
Qed.

Lemma missing_rate_aborts_run_witness :
  exists missing w',
    first_missing (to_dict Sample.rates_without_inr) = Some missing
    /\ In missing required_codes
    /\ to_dict Sample.rates_without_inr !! missing = None
    /\ transform (Sample.env_of Sample.plain_page Sample.rates_without_inr)
         0 csv_path
         (snd (log_progress
                 (Sample.env_of Sample.plain_page Sample.rates_without_inr)
                 "Data extraction complete. Initiating Transformation process"
                 (snd (extract
                         (Sample.env_of Sample.plain_page
                            Sample.rates_without_inr)
                         url table_attribs
                         (snd (log_progress
                                 (Sample.env_of Sample.plain_page
                                    Sample.rates_without_inr)
                                 "Preliminaries Complete. Initiating ETL process"
                                 Sample.empty_world))))))
       = (Raise (KeyError missing), w')
    /\ run (Sample.env_of Sample.plain_page Sample.rates_without_inr)
         Sample.empty_world
       = (Raise (KeyError missing), w')
    /\ csv_files w' = csv_files Sample.empty_world
    /\ databases w' = databases Sample.empty_world.
Proof.
  apply (missing_rate_aborts_run
           (Sample.env_of Sample.plain_page Sample.rates_without_inr)
           Sample.empty_world 0 _
           [ ("Name", [VStr "Bank A"; VStr "Bank B"]);
             ("MC_USD_Billion", [VStr "100.00"; VStr "50"]) ]
           [VStr "100.00"; VStr "50"] [VFloat 100; VFloat 50]
           Sample.rates_without_inr "INR").
  - vm_compute. reflexivity.
  - vm_compute. reflexivity.
  - repeat constructor.
  - reflexivity.
  - discriminate.
  - vm_compute. reflexivity.
  - reflexivity.
  - simpl. auto.
  - vm_compute. reflexivity.
Defined.

(** C6, as stated, fails: the rates are looked up once per record, so on
    a table without records a rate file without its INR row goes
    unnoticed; [transform] succeeds, the run completes, and both the CSV
    file and the database table are written. *)
Lemma missing_rate_unnoticed_without_records :
  to_dict Sample.rates_without_inr !! "INR" = None
  /\ returned_frame
       (bind (extract (Sample.env_of Sample.empty_page Sample.rates_without_inr)
                url table_attribs)
             (fun df =>
                transform
                  (Sample.env_of Sample.empty_page Sample.rates_without_inr)
                  df csv_path)
             Sample.empty_world)
     = Ok (Some [ ("Name", []); ("MC_USD_Billion", []);
                  ("MC_GBP_Billion", []); ("MC_EUR_Billion", []);
                  ("MC_INR_Billion", []) ])
  /\ fst (run (Sample.env_of Sample.empty_page Sample.rates_without_inr)
            Sample.empty_world) = Ok tt
  /\ is_Some
       (csv_files
          (snd (run (Sample.env_of Sample.empty_page Sample.rates_without_inr)
                  Sample.empty_world)) !! output_path)
  /\ is_Some
       (databases
          (snd (run (Sample.env_of Sample.empty_page Sample.rates_without_inr)
                  Sample.empty_world)) !! ("Banks.db", table_name)).
Proof.
  split; [vm_compute; reflexivity|].
  split; [vm_compute; reflexivity|].
  split; [vm_compute; reflexivity|].
  split; vm_compute; eexists; reflexivity.
Qed.

(** A row with exactly two cells passes the test on the number of cells
    and then has no third cell: [extract] raises [IndexError]. *)
Lemma extract_two_cell_row_raises :
  fst (extract
         (Sample.env_of
            (Sample.page_of
               [ Tag "tr" []
                   [ Tag "td" [] [NavigableString "1"];
                     Tag "td" []
                       [ Tag "a" [("href", "/wiki/Flag")] [];
                         Tag "a" [("title", "Bank A")] [] ] ] ])
            Sample.rates)
         url table_attribs Sample.empty_world)
  = Raise IndexError.
Proof. vm_compute. reflexivity. Qed.

(* ===================================================================== *)
(** * Further properties of the stages *)
(* ===================================================================== *)

(** ** [extract] as a function of the page *)

Lemma extract_row_eq (row : node) :
  extract_row row
  = if row_readable row
    then Ok (if qualifying row
             then Some (Frame.of_dict [("Name", row_name row);
                                       ("MC_USD_Billion", VStr (row_cap row))])
             else None)
    else Raise IndexError.
Proof.
  unfold extract_row, row_readable, qualifying, row_name, row_cap,
    list_getitem.
  destruct (Soup.find_all "td" row) as [|c0 [|c1 rest]]; try reflexivity.
  change ((c0 :: c1 :: rest) !! 1) with (Some c1).
  change ((c0 :: c1 :: rest) !! 2) with (rest !! 0).
  change (1 <? length (c0 :: c1 :: rest)) with true.
  change (length (c0 :: c1 :: rest) <=? 1) with false.
  change (3 <=? length (c0 :: c1 :: rest)) with (1 <=? length rest).
  cbv iota beta. simpl result_bind.
  destruct (Soup.find_all "a" c1) as [|a0 [|a1 links]];
    destruct rest as [|c2 rest]; reflexivity.
Qed.

Lemma extract_rows_eq (rows : list node) (names caps : list value) :
  extract_rows rows [("Name", names); ("MC_USD_Billion", caps)]
  = if forallb row_readable rows
    then Ok [("Name", names ++ map row_name (List.filter qualifying rows));
             ("MC_USD_Billion",
              caps ++ map (fun r => VStr (row_cap r))
                        (List.filter qualifying rows))]
    else Raise IndexError.
Proof.
  revert names caps.
  induction rows as [|row rows IH]; intros names caps.
  - simpl. rewrite !app_nil_r. reflexivity.
  - cbn [extract_rows forallb List.filter]. rewrite extract_row_eq.
    destruct (row_readable row); cbn [andb]; [|reflexivity].
    destruct (qualifying row); cbv iota; [|apply IH].
    rewrite concat_record, IH.
    destruct (forallb row_readable rows); [|reflexivity].
    cbn [map]. rewrite <- !app_assoc. reflexivity.
Qed.

(** [extract], for the columns the script asks for, in one equation. *)
Lemma extract_eq (env : Env) (u : string) (w : World) :
  extract env u table_attribs w
  = match requests_get env u with
    | None => (Raise ConnectionError, w)
    | Some page =>
        match Soup.find_all "tbody" (html_parser env page) with
        | [] => (Raise IndexError, w)
        | _ :: _ =>
            if forallb row_readable (data_rows (html_parser env page))
            then (Ok (fresh (dom (heap w))),
                  set_heap
                    (<[fresh (dom (heap w)) :=
                         extracted_table (html_parser env page)]> (heap w)) w)
            else (Raise IndexError, w)
        end
    end.
Proof.
  unfold extract, bind, lift, alloc, extracted_table, data_rows.
  destruct (requests_get env u) as [page|]; [|reflexivity].
  destruct (Soup.find_all "tbody" (html_parser env page)) as [|table0 tables];
    [reflexivity|].
  change (list_getitem (table0 :: tables) 0) with (Ok table0).
  cbv iota beta.
  change (Frame.of_columns table_attribs)
    with [("Name", @nil value); ("MC_USD_Billion", @nil value)].
  rewrite extract_rows_eq.
  destruct (forallb row_readable (drop 1 (Soup.find_all "tr" table0)));
    reflexivity.
Qed.

Lemma extracted_table_wf (doc : node) : Frame.wf (extracted_table doc).
Proof.
  unfold Frame.wf, extracted_table. simpl.
  repeat constructor; simpl; rewrite !length_map; reflexivity.
Qed.

(** X1. Whenever [extract] succeeds, it has created one table object at a
    location that was free and changed nothing else in the world. The table
    has the columns [Name] and [MC_USD_Billion] and one record for each
    data row with more than one cell, in document order: the title of the
    second link of the second cell ([None] when it has no title) and the
    stripped text of the third cell, whatever that text is. *)
Theorem extract_success_table (env : Env) (u : string) (w : World) (l : nat)
  (w' : World) :
  extract env u table_attribs w = (Ok l, w') ->
  exists page,
    requests_get env u = Some page
    /\ heap w !! l = None
    /\ w' = set_heap
              (<[l := extracted_table (html_parser env page)]> (heap w)) w
    /\ Frame.wf (extracted_table (html_parser env page))
    /\ Frame.nrows (extracted_table (html_parser env page))
       = length (List.filter qualifying (data_rows (html_parser env page))).
Proof.
  rewrite extract_eq.
  destruct (requests_get env u) as [page|]; [|discriminate].
  destruct (Soup.find_all "tbody" (html_parser env page)); [discriminate|].
  destruct (forallb row_readable (data_rows (html_parser env page)));
    [|discriminate].
  intros [= <- <-]. exists page.
  split; [reflexivity|].
  split; [apply not_elem_of_dom, is_fresh|].
  split; [reflexivity|].
  split; [apply extracted_table_wf|].
  simpl. apply length_map.
Qed.

Lemma extract_success_table_witness :
  exists page,
    requests_get (Sample.env_of Sample.scenario_page Sample.rates) url
    = Some page
    /\ heap Sample.empty_world !! 0 = None
    /\ snd (extract (Sample.env_of Sample.scenario_page Sample.rates) url
              table_attribs Sample.empty_world)
       = set_heap
           (<[0 := extracted_table
                     (html_parser
                        (Sample.env_of Sample.scenario_page Sample.rates)
                        page)]> (heap Sample.empty_world))
           Sample.empty_world
    /\ Frame.wf
         (extracted_table
            (html_parser (Sample.env_of Sample.scenario_page Sample.rates)
               page))
    /\ Frame.nrows
         (extracted_table
            (html_parser (Sample.env_of Sample.scenario_page Sample.rates)
               page))
       = length
           (List.filter qualifying
              (data_rows
                 (html_parser
                    (Sample.env_of Sample.scenario_page Sample.rates) page))).
Proof.
  apply (extract_success_table
           (Sample.env_of Sample.scenario_page Sample.rates) url
           Sample.empty_world 0).
  vm_compute. reflexivity.
Defined.

(** X2. [extract] succeeds exactly when the page can be fetched, has a
    table body, and every row after the first of the first table body has
    at most one cell or has at least three cells and two links in the
    second. Nothing else is checked: neither that a title is there nor
    that the market-cap text is a number. *)
Theorem extract_succeeds_iff (env : Env) (u : string) (w : World) :
  (exists l w', extract env u table_attribs w = (Ok l, w'))
  <-> exists page,
        requests_get env u = Some page
        /\ Soup.find_all "tbody" (html_parser env page) <> []
        /\ forallb row_readable (data_rows (html_parser env page)) = true.
Proof.
  rewrite extract_eq. split.
  - intros (l & w' & H).
    destruct (requests_get env u) as [page|]; [|discriminate].
    exists page. split; [reflexivity|].
    destruct (Soup.find_all "tbody" (html_parser env page)); [discriminate|].
    split; [discriminate|].
    destruct (forallb row_readable (data_rows (html_parser env page)));
      [reflexivity|discriminate].
  - intros (page & -> & Htb & ->).
    destruct (Soup.find_all "tbody" (html_parser env page)); [contradiction|].
    eexists _, _. reflexivity.
Qed.

(** X3. When [extract] raises, the world is exactly as it was: no table
    has been created. The exception is [ConnectionError] when the page
    could not be fetched, and otherwise [IndexError]: the page has no table
    body, or one of its data rows has more than one cell and lacks a third
    cell or a second link in its second cell. *)
Theorem extract_failure_clean (env : Env) (u : string) (w : World) (e : exn)
  (w' : World) :
  extract env u table_attribs w = (Raise e, w') ->
  w' = w
  /\ ((e = ConnectionError /\ requests_get env u = None)
      \/ (e = IndexError
          /\ exists page,
               requests_get env u = Some page
               /\ (Soup.find_all "tbody" (html_parser env page) = []
                   \/ exists row,
                        In row (data_rows (html_parser env page))
                        /\ row_readable row = false))).
Proof.
  rewrite extract_eq.
  destruct (requests_get env u) as [page|];
    [|intros [= <- <-]; split; [reflexivity|left; split; reflexivity]].
  destruct (Soup.find_all "tbody" (html_parser env page)) as [|t ts] eqn:Htb.
  - intros [= <- <-]. split; [reflexivity|]. right. split; [reflexivity|].
    exists page. split; [reflexivity|]. left. exact Htb.
  - destruct (forallb row_readable (data_rows (html_parser env page)))
      eqn:Hall; [discriminate|].
    intros [= <- <-]. split; [reflexivity|]. right. split; [reflexivity|].
    exists page. split; [reflexivity|]. right.
    destruct (forallb_forall row_readable (data_rows (html_parser env page)))
      as [_ Hto].
    destruct (existsb (fun r => negb (row_readable r))
                (data_rows (html_parser env page))) eqn:Hex.
    + apply existsb_exists in Hex as (row & Hin & Hr).
      exists row. split; [exact Hin|].
      destruct (row_readable row); [discriminate|reflexivity].
    + exfalso. rewrite Hto in Hall; [discriminate|].
      intros row Hin. destruct (row_readable row) eqn:Hr; [reflexivity|].
      assert (Ht : existsb (fun r => negb (row_readable r))
                     (data_rows (html_parser env page)) = true).
      { apply existsb_exists. exists row. split; [exact Hin|].
        rewrite Hr. reflexivity. }
      congruence.
Qed.

Lemma extract_failure_clean_witness :
  snd (extract (Sample.env_of Sample.two_cell_page Sample.rates)
         url table_attribs Sample.empty_world)
  = Sample.empty_world
  /\ ((IndexError = ConnectionError
       /\ requests_get (Sample.env_of Sample.two_cell_page Sample.rates) url
          = None)
      \/ (IndexError = IndexError
          /\ exists page,
               requests_get (Sample.env_of Sample.two_cell_page Sample.rates)
                 url = Some page
               /\ (Soup.find_all "tbody"
                     (html_parser
                        (Sample.env_of Sample.two_cell_page Sample.rates)
                        page) = []
                   \/ exists row,
                        In row
                          (data_rows
                             (html_parser
                                (Sample.env_of Sample.two_cell_page
                                   Sample.rates) page))
                        /\ row_readable row = false))).
Proof.
  apply (extract_failure_clean
           (Sample.env_of Sample.two_cell_page Sample.rates)
           url Sample.empty_world).
  vm_compute. reflexivity.
Defined.

(** ** How [transform] fails, and what it keeps *)


Lemma astype_float_id (col : list value) :
  Forall is_float col -> Frame.astype_float col = Ok col.
Proof.
  unfold Frame.astype_float.
  induction 1 as [|v col Hv _ IH]; simpl; [reflexivity|].
  destruct v as [s|f|]; try contradiction. simpl. rewrite IH. reflexivity.
Qed.

Lemma set_col_same (df : DataFrame) (c : string) (v : list value) :
  Frame.lookup_col c df = Some v -> Frame.set_col df c v = df.
Proof.
  induction df as [|[k col] df IH]; simpl; [discriminate|].
  destruct (String.eqb k c) eqn:Hk.
  - intros [= ->]. reflexivity.
  - intros H. rewrite (IH H). reflexivity.
Qed.

Lemma columns_set_col_present (df : DataFrame) (c : string)
  (v old : list value) :
  Frame.lookup_col c df = Some old ->
  Frame.columns (Frame.set_col df c v) = Frame.columns df.
Proof.
  unfold Frame.columns.
  induction df as [|[k col] df IH]; simpl; [discriminate|].
  destruct (String.eqb k c) eqn:Hk; simpl; [reflexivity|].
  intros H. rewrite (IH H). reflexivity.
Qed.

Lemma columns_set_col_absent (df : DataFrame) (c : string) (v : list value) :
  Frame.lookup_col c df = None ->
  Frame.columns (Frame.set_col df c v) = Frame.columns df ++ [c].
Proof.
  unfold Frame.columns.
  induction df as [|[k col] df IH]; simpl; [reflexivity|].
  destruct (String.eqb k c) eqn:Hk; simpl; [discriminate|].
  intros H. rewrite (IH H). reflexivity.
Qed.





(** The table a successful transformation leaves is well formed. *)
Lemma transform_frame_ok_wf (sheet : option RateSheet) (df df' : DataFrame) :
  Frame.wf df -> transform_frame sheet df = (df', Ok tt) -> Frame.wf df'.
Proof.
  intros Hwf Htf.
  destruct (transform_frame_ok _ _ _ Hwf Htf)
    as (exr_df & raw & usd & gbp & eur & inr
        & _ & Hraw & Husd & Hgbp & Heur & Hinr & -> & _).
  pose proof (FrameFacts.wf_lookup _ _ _ Hwf Hraw) as Hn.
  pose proof (result_map_length _ _ _ Husd) as Hlu.
  pose proof (result_map_length _ _ _ Hgbp) as Hlg.
  pose proof (result_map_length _ _ _ Heur) as Hle.
  pose proof (result_map_length _ _ _ Hinr) as Hli.
  assert (H1 : Frame.wf (Frame.set_col df "MC_USD_Billion" usd))
    by (apply FrameFacts.wf_set_col; [exact Hwf|congruence]).
  assert (N1 : Frame.nrows (Frame.set_col df "MC_USD_Billion" usd)
               = Frame.nrows df)
    by (apply FrameFacts.nrows_set_col; congruence).
  assert (H2 : Frame.wf
                 (Frame.set_col (Frame.set_col df "MC_USD_Billion" usd)
                    "MC_GBP_Billion" gbp))
    by (apply FrameFacts.wf_set_col; [exact H1|congruence]).
  assert (N2 : Frame.nrows
                 (Frame.set_col (Frame.set_col df "MC_USD_Billion" usd)
                    "MC_GBP_Billion" gbp) = Frame.nrows df)
    by (rewrite FrameFacts.nrows_set_col; congruence).
  assert (H3 : Frame.wf
                 (Frame.set_col
                    (Frame.set_col (Frame.set_col df "MC_USD_Billion" usd)
                       "MC_GBP_Billion" gbp) "MC_EUR_Billion" eur))
    by (apply FrameFacts.wf_set_col; [exact H2|congruence]).
  assert (N3 : Frame.nrows
                 (Frame.set_col
                    (Frame.set_col (Frame.set_col df "MC_USD_Billion" usd)
                       "MC_GBP_Billion" gbp) "MC_EUR_Billion" eur)
               = Frame.nrows df)
    by (rewrite FrameFacts.nrows_set_col; congruence).
  apply FrameFacts.wf_set_col; [exact H3|congruence].
Qed.

(** X5. On a well-formed table without records [transform] succeeds
    whatever rows the rate file holds under its columns [Currency] and
    [Rate], even none: no rate is ever looked up, and the table gets its
    three currency columns, empty. *)
Theorem transform_empty_table (env : Env) (l : nat) (path : string)
  (w : World) (df : DataFrame) (exr_df : RateSheet) :
  heap w !! l = Some df ->
  Frame.wf df ->
  Frame.lookup_col "MC_USD_Billion" df = Some [] ->
  read_csv env "exchange_rate.csv" = Some exr_df ->
  exists df',
    transform env l path w = (Ok l, set_heap (<[l := df']> (heap w)) w)
    /\ Frame.lookup_col "MC_GBP_Billion" df' = Some []
    /\ Frame.lookup_col "MC_EUR_Billion" df' = Some []
    /\ Frame.lookup_col "MC_INR_Billion" df' = Some []
    /\ Frame.nrows df' = 0.
Proof.
  intros Hl Hwf Hraw Hread.
  pose proof (FrameFacts.wf_lookup _ _ _ Hwf Hraw) as Hn. simpl in Hn.
  set (df1 := Frame.set_col df "MC_USD_Billion" []).
  set (df2 := Frame.set_col df1 "MC_GBP_Billion" []).
  set (df3 := Frame.set_col df2 "MC_EUR_Billion" []).
  set (df4 := Frame.set_col df3 "MC_INR_Billion" []).
  assert (W1 : Frame.wf df1) by (apply FrameFacts.wf_set_col; assumption).
  assert (N1 : Frame.nrows df1 = 0)
    by (unfold df1; rewrite FrameFacts.nrows_set_col; simpl; congruence).
  assert (U1 : Frame.lookup_col "MC_USD_Billion" df1 = Some [])
    by apply FrameFacts.lookup_set_col_eq.
  assert (W2 : Frame.wf df2)
    by (apply FrameFacts.wf_set_col; [exact W1|simpl; congruence]).
  assert (N2 : Frame.nrows df2 = 0)
    by (unfold df2; rewrite FrameFacts.nrows_set_col; simpl; congruence).
  assert (U2 : Frame.lookup_col "MC_USD_Billion" df2 = Some []).
  { unfold df2. rewrite FrameFacts.lookup_set_col_ne by discriminate.
    exact U1. }
  assert (W3 : Frame.wf df3)
    by (apply FrameFacts.wf_set_col; [exact W2|simpl; congruence]).
  assert (N3 : Frame.nrows df3 = 0)
    by (unfold df3; rewrite FrameFacts.nrows_set_col; simpl; congruence).
  assert (U3 : Frame.lookup_col "MC_USD_Billion" df3 = Some []).
  { unfold df3. rewrite FrameFacts.lookup_set_col_ne by discriminate.
    exact U2. }
  assert (Htf : transform_frame (Some exr_df) df = (df4, Ok tt)).
  { unfold transform_frame, coerce_usd, add_currency, Frame.getitem.
    rewrite Hraw. simpl.
    rewrite (FrameFacts.setitem_wf df "MC_USD_Billion" [] Hwf Hn).
    fold df1. rewrite U1. simpl.
    rewrite (FrameFacts.setitem_wf df1 "MC_GBP_Billion" [] W1)
      by (simpl; congruence).
    fold df2. rewrite U2. simpl.
    rewrite (FrameFacts.setitem_wf df2 "MC_EUR_Billion" [] W2)
      by (simpl; congruence).
    fold df3. rewrite U3. simpl.
    rewrite (FrameFacts.setitem_wf df3 "MC_INR_Billion" [] W3)
      by (simpl; congruence).
    reflexivity. }
  exists df4. split.
  - rewrite (transform_eq _ _ _ _ _ Hl), Hread, Htf. reflexivity.
  - split; [|split; [|split]].
    + unfold df4, df3, df2.
      rewrite !FrameFacts.lookup_set_col_ne by discriminate.
      apply FrameFacts.lookup_set_col_eq.
    + unfold df4, df3.
      rewrite FrameFacts.lookup_set_col_ne by discriminate.
      apply FrameFacts.lookup_set_col_eq.
    + apply FrameFacts.lookup_set_col_eq.
    + unfold df4. rewrite FrameFacts.nrows_set_col; [exact N3|].
      simpl. congruence.
Qed.

Lemma transform_empty_table_witness :
  exists df',
    transform (Sample.env_of Sample.empty_page []) 0 csv_path
      (Sample.world_with (Frame.of_columns table_attribs))
    = (Ok 0,
       set_heap
         (<[0 := df']>
            (heap (Sample.world_with (Frame.of_columns table_attribs))))
         (Sample.world_with (Frame.of_columns table_attribs)))
    /\ Frame.lookup_col "MC_GBP_Billion" df' = Some []
    /\ Frame.lookup_col "MC_EUR_Billion" df' = Some []
    /\ Frame.lookup_col "MC_INR_Billion" df' = Some []
    /\ Frame.nrows df' = 0.
Proof.
  apply (transform_empty_table (Sample.env_of Sample.empty_page []) 0
           csv_path (Sample.world_with (Frame.of_columns table_attribs))
           (Frame.of_columns table_attribs) []).
  - vm_compute. reflexivity.
  - repeat constructor.
  - reflexivity.
  - reflexivity.
Defined.

(** X6. A successful [transform] keeps the table well formed and its
    number of records, and leaves every column other than the dollar
    column and the three currency columns as it was, [Name] among them.
    When the table had none of the currency columns, they are added after
    the columns it had, in the order GBP, EUR, INR. *)
Theorem transform_keeps_other_columns (env : Env) (l : nat) (path : string)
  (w : World) (df : DataFrame) (l' : nat) (w' : World) :
  heap w !! l = Some df ->
  Frame.wf df ->
  transform env l path w = (Ok l', w') ->
  exists df',
    heap w' !! l' = Some df'
    /\ Frame.wf df'
    /\ Frame.nrows df' = Frame.nrows df
    /\ (forall c,
          c <> "MC_USD_Billion" -> c <> "MC_GBP_Billion" ->
          c <> "MC_EUR_Billion" -> c <> "MC_INR_Billion" ->
          Frame.lookup_col c df' = Frame.lookup_col c df)
    /\ (Frame.lookup_col "MC_GBP_Billion" df = None ->
        Frame.lookup_col "MC_EUR_Billion" df = None ->
        Frame.lookup_col "MC_INR_Billion" df = None ->
        Frame.columns df'
        = Frame.columns df
          ++ ["MC_GBP_Billion"; "MC_EUR_Billion"; "MC_INR_Billion"]).
Proof.
  intros Hl Hwf Hrun. rewrite (transform_eq _ _ _ _ _ Hl) in Hrun.
  destruct (transform_frame (read_csv env "exchange_rate.csv") df)
    as [df' [[]|e]] eqn:Htf; simpl in Hrun; [|discriminate].
  injection Hrun as <- <-.
  pose proof (transform_frame_ok_wf _ _ _ Hwf Htf) as Hwf'.
  destruct (transform_frame_ok _ _ _ Hwf Htf)
    as (exr_df & raw & usd & gbp & eur & inr
        & _ & Hraw & _ & _ & _ & _ & Hdf' & Hn).
  exists df'. split; [simpl; apply lookup_insert_eq|].
  split; [exact Hwf'|]. split; [exact Hn|]. subst df'. split.
  - intros c H1 H2 H3 H4.
    rewrite !FrameFacts.lookup_set_col_ne by congruence. reflexivity.
  - intros Hg He Hi.
    rewrite columns_set_col_absent.
    2:{ rewrite !FrameFacts.lookup_set_col_ne by discriminate. exact Hi. }
    rewrite columns_set_col_absent.
    2:{ rewrite !FrameFacts.lookup_set_col_ne by discriminate. exact He. }
    rewrite columns_set_col_absent.
    2:{ rewrite !FrameFacts.lookup_set_col_ne by discriminate. exact Hg. }
    rewrite (columns_set_col_present _ _ _ _ Hraw).
    rewrite <- !app_assoc. reflexivity.
Qed.

Lemma transform_keeps_other_columns_witness :
  exists df',
    heap (Sample.world_with Sample.enriched_table) !! 0 = Some df'
    /\ Frame.wf df'
    /\ Frame.nrows df' = Frame.nrows Sample.plain_table
    /\ (forall c,
          c <> "MC_USD_Billion" -> c <> "MC_GBP_Billion" ->
          c <> "MC_EUR_Billion" -> c <> "MC_INR_Billion" ->
          Frame.lookup_col c df' = Frame.lookup_col c Sample.plain_table)
    /\ (Frame.lookup_col "MC_GBP_Billion" Sample.plain_table = None ->
        Frame.lookup_col "MC_EUR_Billion" Sample.plain_table = None ->
        Frame.lookup_col "MC_INR_Billion" Sample.plain_table = None ->
        Frame.columns df'
        = Frame.columns Sample.plain_table
          ++ ["MC_GBP_Billion"; "MC_EUR_Billion"; "MC_INR_Billion"]).
Proof.
  apply (transform_keeps_other_columns
           (Sample.env_of Sample.plain_page Sample.rates) 0 csv_path
           (Sample.world_with Sample.plain_table) Sample.plain_table 0
           (Sample.world_with Sample.enriched_table)).
  - vm_compute. reflexivity.
  - repeat constructor.
  - vm_compute. reflexivity.
Defined.

(** X7. [transform] is idempotent: applied again to the table it has
    just transformed, with the same rate file, it succeeds and leaves the
    table, and the world, exactly as they are. *)
Theorem transform_idempotent (env : Env) (l : nat) (path path2 : string)
  (w : World) (df : DataFrame) (l' : nat) (w' : World) :
  heap w !! l = Some df ->
  Frame.wf df ->
  transform env l path w = (Ok l', w') ->
  transform env l' path2 w' = (Ok l', w').
Proof.
  intros Hl Hwf Hrun. rewrite (transform_eq _ _ _ _ _ Hl) in Hrun.
  destruct (transform_frame (read_csv env "exchange_rate.csv") df)
    as [df' [[]|e]] eqn:Htf; simpl in Hrun; [|discriminate].
  injection Hrun as <- <-.
  pose proof (transform_frame_ok_wf _ _ _ Hwf Htf) as Hwf'.
  destruct (transform_frame_ok _ _ _ Hwf Htf)
    as (exr_df & raw & usd & gbp & eur & inr
        & Hsheet & Hraw & Husd & Hgbp & Heur & Hinr & Hdf' & Hn).
  pose proof (astype_float_floats _ _ Husd) as Hfl.
  assert (Hu : Frame.lookup_col "MC_USD_Billion" df' = Some usd).
  { subst df'. rewrite !FrameFacts.lookup_set_col_ne by discriminate.
    apply FrameFacts.lookup_set_col_eq. }
  assert (Hg : Frame.lookup_col "MC_GBP_Billion" df' = Some gbp).
  { subst df'. rewrite !FrameFacts.lookup_set_col_ne by discriminate.
    apply FrameFacts.lookup_set_col_eq. }
  assert (He : Frame.lookup_col "MC_EUR_Billion" df' = Some eur).
  { subst df'. rewrite !FrameFacts.lookup_set_col_ne by discriminate.
    apply FrameFacts.lookup_set_col_eq. }
  assert (Hi : Frame.lookup_col "MC_INR_Billion" df' = Some inr).
  { subst df'. apply FrameFacts.lookup_set_col_eq. }
  assert (Hset : forall c v, Frame.lookup_col c df' = Some v ->
                             Frame.setitem df' c v = Ok df').
  { intros c v Hc. rewrite FrameFacts.setitem_wf.
    - rewrite (set_col_same _ _ _ Hc). reflexivity.
    - exact Hwf'.
    - eapply FrameFacts.wf_lookup; eassumption. }
  assert (Htf2 : transform_frame (Some exr_df) df' = (df', Ok tt)).
  { unfold transform_frame, coerce_usd, add_currency, Frame.getitem.
    rewrite Hu. simpl. rewrite (astype_float_id _ Hfl). simpl.
    rewrite (Hset _ _ Hu). rewrite Hu. simpl.
    rewrite Hgbp. simpl. rewrite (Hset _ _ Hg). rewrite Hu. simpl.
    rewrite Heur. simpl. rewrite (Hset _ _ He). rewrite Hu. simpl.
    rewrite Hinr. simpl. rewrite (Hset _ _ Hi). reflexivity. }
  assert (Hl' : heap (set_heap (<[l := df']> (heap w)) w) !! l = Some df')
    by (simpl; apply lookup_insert_eq).
  rewrite (transform_eq _ _ _ _ _ Hl'), Hsheet, Htf2. simpl.
  rewrite insert_insert_eq. reflexivity.
Qed.

Lemma transform_idempotent_witness :
  transform (Sample.env_of Sample.plain_page Sample.rates) 0
    "exchange_rate.csv" (Sample.world_with Sample.enriched_table)
  = (Ok 0, Sample.world_with Sample.enriched_table).
Proof.
  apply (transform_idempotent
           (Sample.env_of Sample.plain_page Sample.rates) 0 csv_path
           "exchange_rate.csv"
           (Sample.world_with Sample.plain_table) Sample.plain_table).
  - vm_compute. reflexivity.
  - repeat constructor.
  - vm_compute. reflexivity.
Defined.

(** ** Completed runs *)

Lemma load_to_csv_ok_inv (env : Env) (l : nat) (path : string) (w w' : World) :
  load_to_csv env l path w = (Ok tt, w') ->
  exists df,
    heap w !! l = Some df /\ csv_writable env path = true
    /\ w' = set_csv_files (<[path := to_csv df]> (csv_files w)) w.
Proof.
  unfold load_to_csv, df_to_csv, bind, deref.
  destruct (heap w !! l) as [df|]; [|discriminate].
  destruct (csv_writable env path) eqn:Hw; [|discriminate].
  intros [= <-]. exists df. repeat split.
Qed.

Lemma sqlite3_connect_ok_inv (env : Env) (file : string) (w : World) (h : nat)
  (w' : World) :
  sqlite3_connect env file w = (Ok h, w') ->
  sqlite_connectable env file = true
  /\ connections w !! h = None
  /\ w' = set_connections (<[h := (file, true)]> (connections w)) w.
Proof.
  unfold sqlite3_connect.
  destruct (sqlite_connectable env file); [|discriminate].
  intros [= <- <-]. repeat split. apply not_elem_of_dom, is_fresh.
Qed.

Lemma load_to_db_ok_inv (env : Env) (l h : nat) (name : string) (w w' : World) :
  load_to_db env l h name w = (Ok tt, w') ->
  exists df file,
    heap w !! l = Some df /\ connections w !! h = Some (file, true)
    /\ sqlite_writable env file = true
    /\ w' = set_databases (<[(file, name) := sql_table df]> (databases w)) w.
Proof.
  unfold load_to_db, df_to_sql, bind, deref, open_file.
  destruct (heap w !! l) as [df|]; [|discriminate].
  destruct (connections w !! h) as [[file [|]]|]; try discriminate.
  destruct (databases w !! (file, name));
    (destruct (sqlite_writable env file) eqn:Hw; [|discriminate]);
    intros [= <-]; exists df, file; repeat split; exact Hw.
Qed.

Lemma run_query_ok_inv (env : Env) (query : string) (h : nat) (w : World)
  (o : option DataFrame) (w' : World) :
  run_query env query h w = (Ok o, w') ->
  exists file out,
    connections w !! h = Some (file, true)
    /\ sqlite_select env query file (databases w) = Some out
    /\ o = None
    /\ w' = set_stdout (stdout w ++ [PStr query; PFrame out]) w.
Proof.
  pose proof (run_query_eq env query h w) as H.
  unfold pd_read_sql, bind, open_file in H.
  destruct (connections w !! h) as [[file [|]]|] eqn:Hc;
    try (rewrite H; discriminate).
  destruct (sqlite_select env query file (databases w)) as [out|] eqn:Hs;
    rewrite H; [|discriminate].
  intros [= <- <-]. exists file, out. repeat split. exact Hs.
Qed.

(** A completed run, in full: what the environment must have allowed and
    the world it leaves. *)
Lemma run_completed_inv (env : Env) (w w' : World) :
  run env w = (Ok tt, w') ->
  exists page df h o1 o2 o3,
    requests_get env url = Some page
    /\ Soup.find_all "tbody" (html_parser env page) <> []
    /\ forallb row_readable (data_rows (html_parser env page)) = true
    /\ transform_frame (read_csv env "exchange_rate.csv")
         (extracted_table (html_parser env page)) = (df, Ok tt)
    /\ csv_writable env output_path = true
    /\ sqlite_connectable env "Banks.db" = true
    /\ sqlite_writable env "Banks.db" = true
    /\ connections w !! h = None
    /\ sqlite_select env "SELECT * FROM Largest_banks" "Banks.db"
         (<[("Banks.db", table_name) := sql_table df]> (databases w))
       = Some o1
    /\ sqlite_select env "SELECT AVG(MC_GBP_Billion) FROM Largest_banks"
         "Banks.db"
         (<[("Banks.db", table_name) := sql_table df]> (databases w))
       = Some o2
    /\ sqlite_select env "SELECT Name from Largest_banks LIMIT 5" "Banks.db"
         (<[("Banks.db", table_name) := sql_table df]> (databases w))
       = Some o3
    /\ w' = {| heap := <[fresh (dom (heap w)) := df]> (heap w);
               code_log := journal env w 8;
               clock := 8 + clock w;
               csv_files := <[output_path := to_csv df]> (csv_files w);
               databases :=
                 <[("Banks.db", table_name) := sql_table df]> (databases w);
               connections := <[h := ("Banks.db", false)]> (connections w);
               stdout :=
                 stdout w
                 ++ [ PStr "SELECT * FROM Largest_banks"; PFrame o1;
                      PStr "SELECT AVG(MC_GBP_Billion) FROM Largest_banks";
                      PFrame o2;
                      PStr "SELECT Name from Largest_banks LIMIT 5";
                      PFrame o3 ] |}.
Proof.
  intros H. unfold run in H.
  rewrite bind_log_progress in H.
  apply bind_inv in H.
  destruct H as [(e & _ & Hr) | (l & w2 & Hm & H)]; [discriminate Hr|].
  rewrite extract_eq in Hm.
  destruct (requests_get env url) as [page|] eqn:Hpage; [|discriminate Hm].
  destruct (Soup.find_all "tbody" (html_parser env page)) eqn:Htb;
    [discriminate Hm|].
  destruct (forallb row_readable (data_rows (html_parser env page)))
    eqn:Hall; [|discriminate Hm].
  world_fields in Hm. injection Hm as <- <-.
  rewrite bind_log_progress in H. world_fields in H.
  apply bind_inv in H.
  destruct H as [(e & _ & Hr) | (l' & w3 & Hm & H)]; [discriminate Hr|].
  rewrite (transform_eq _ _ _ _ (extracted_table (html_parser env page)))
    in Hm by (world_fields; apply lookup_insert_eq).
  destruct (transform_frame (read_csv env "exchange_rate.csv")
              (extracted_table (html_parser env page)))
    as [df [[]|e]] eqn:Htf; simpl fst in Hm; simpl snd in Hm;
    [|discriminate Hm].
  world_fields in Hm. rewrite insert_insert_eq in Hm.
  injection Hm as <- <-.
  rewrite bind_log_progress in H. world_fields in H.
  apply bind_inv in H.
  destruct H as [(e & _ & Hr) | ([] & w4 & Hm & H)]; [discriminate Hr|].
  apply load_to_csv_ok_inv in Hm.
  destruct Hm as (df0 & Hdf0 & Hcsv & ->).
  world_fields in Hdf0. rewrite lookup_insert_eq in Hdf0.
  injection Hdf0 as <-.
  rewrite bind_log_progress in H. world_fields in H.
  apply bind_inv in H.
  destruct H as [(e & _ & Hr) | (h & w5 & Hm & H)]; [discriminate Hr|].
  apply sqlite3_connect_ok_inv in Hm.
  destruct Hm as (Hconn & Hfresh & ->). world_fields in Hfresh.
  rewrite bind_log_progress in H. world_fields in H.
  apply bind_inv in H.
  destruct H as [(e & _ & Hr) | ([] & w6 & Hm & H)]; [discriminate Hr|].
  apply load_to_db_ok_inv in Hm.
  destruct Hm as (df0 & file & Hdf0 & Hfile & Hwr & ->).
  world_fields in Hdf0. rewrite lookup_insert_eq in Hdf0.
  injection Hdf0 as <-.
  world_fields in Hfile. rewrite lookup_insert_eq in Hfile.
  injection Hfile as <-.
  rewrite bind_log_progress in H. world_fields in H.
  apply bind_inv in H.
  destruct H as [(e & _ & Hr) | (r1 & w7 & Hm & H)]; [discriminate Hr|].
  apply run_query_ok_inv in Hm.
  destruct Hm as (file & o1 & Hfile & Ho1 & _ & ->).
  world_fields in Hfile. rewrite lookup_insert_eq in Hfile.
  injection Hfile as <-. world_fields in Ho1. world_fields in H.
  apply bind_inv in H.
  destruct H as [(e & _ & Hr) | (r2 & w8 & Hm & H)]; [discriminate Hr|].
  apply run_query_ok_inv in Hm.
  destruct Hm as (file & o2 & Hfile & Ho2 & _ & ->).
  world_fields in Hfile. rewrite lookup_insert_eq in Hfile.
  injection Hfile as <-. world_fields in Ho2. world_fields in H.
  apply bind_inv in H.
  destruct H as [(e & _ & Hr) | (r3 & w9 & Hm & H)]; [discriminate Hr|].
  apply run_query_ok_inv in Hm.
  destruct Hm as (file & o3 & Hfile & Ho3 & _ & ->).
  world_fields in Hfile. rewrite lookup_insert_eq in Hfile.
  injection Hfile as <-. world_fields in Ho3. world_fields in H.
  rewrite bind_log_progress in H. world_fields in H.
  apply bind_inv in H.
  destruct H as [(e & _ & Hr) | ([] & w10 & Hm & H)]; [discriminate Hr|].
  rewrite (connection_close_eq _ _ "Banks.db" true) in Hm
    by (world_fields; apply lookup_insert_eq).
  injection Hm as <-.
  unfold log_progress in H. world_fields in H. injection H as <-.
  exists page, df, h, o1, o2, o3.
  split; [reflexivity|]. split; [rewrite Htb; discriminate|].
  repeat (split; [assumption || reflexivity|]).
  unfold journal. rewrite insert_insert_eq, <- !app_assoc. reflexivity.
Qed.

Lemma journal_length (env : Env) (w : World) (k : nat) :
  k <= 8 -> length (journal env w k) = length (code_log w) + k.
Proof.
  intros Hk. unfold journal. rewrite length_app. f_equal.
  do 9 (destruct k as [|k]; [reflexivity|]). lia.
Qed.

(** X8. The log is only ever appended to. After any run, completed or
    not, the log file holds what it held before followed by the first [k]
    milestone lines of the script, in order, for some [k] up to 8; the run
    completed exactly when all eight lines are there. *)
Theorem log_append_only (env : Env) (w : World) (r : result unit)
  (w' : World) :
  run env w = (r, w') ->
  exists k,
    k <= 8
    /\ code_log w' = journal env w k
    /\ length (code_log w') = length (code_log w) + k
    /\ (k = 8 <-> r = Ok tt).
Proof.
  intros H. apply run_outcome_of in H.
  inversion H as [s e df h w'' Hs (Hlog & _)|df h w'' (Hlog & _)]; subst.
  - exists (milestones_before s).
    assert (Hk : milestones_before s <= 6) by (destruct s; simpl; lia).
    split; [lia|]. split; [exact Hlog|].
    split; [rewrite Hlog; apply journal_length; lia|].
    split; [lia|discriminate].
  - exists 8. split; [lia|]. split; [exact Hlog|].
    split; [rewrite Hlog; apply journal_length; lia|].
    split; reflexivity.
Qed.

Lemma log_append_only_witness :
  exists k,
    k <= 8
    /\ code_log (snd (run (Sample.env_of Sample.scenario_page Sample.rates)
                        Sample.reload_world))
       = journal (Sample.env_of Sample.scenario_page Sample.rates)
           Sample.reload_world k
    /\ length (code_log
                 (snd (run (Sample.env_of Sample.scenario_page Sample.rates)
                         Sample.reload_world)))
       = length (code_log Sample.reload_world) + k
    /\ (k = 8 <-> Raise (ValueError "$100.00") = Ok tt).
Proof.
  apply (log_append_only (Sample.env_of Sample.scenario_page Sample.rates)
           Sample.reload_world).
  vm_compute. reflexivity.
Defined.

(** The columns of a transformed table that had no currency column. *)
Lemma transform_frame_columns (sheet : option RateSheet) (df df' : DataFrame) :
  Frame.wf df -> transform_frame sheet df = (df', Ok tt) ->
  Frame.lookup_col "MC_GBP_Billion" df = None ->
  Frame.lookup_col "MC_EUR_Billion" df = None ->
  Frame.lookup_col "MC_INR_Billion" df = None ->
  Frame.columns df'
  = Frame.columns df ++ ["MC_GBP_Billion"; "MC_EUR_Billion"; "MC_INR_Billion"].
Proof.
  intros Hwf Htf Hg He Hi.
  destruct (transform_frame_ok _ _ _ Hwf Htf)
    as (exr_df & raw & usd & gbp & eur & inr
        & _ & Hraw & _ & _ & _ & _ & -> & _).
  rewrite columns_set_col_absent.
  2:{ rewrite !FrameFacts.lookup_set_col_ne by discriminate. exact Hi. }
  rewrite columns_set_col_absent.
  2:{ rewrite !FrameFacts.lookup_set_col_ne by discriminate. exact He. }
  rewrite columns_set_col_absent.
  2:{ rewrite !FrameFacts.lookup_set_col_ne by discriminate. exact Hg. }
  rewrite (columns_set_col_present _ _ _ _ Hraw).
  rewrite <- !app_assoc. reflexivity.
Qed.

Lemma rows_length (df : DataFrame) : length (Frame.rows df) = Frame.nrows df.
Proof. unfold Frame.rows. rewrite length_map, length_seq. reflexivity. Qed.

(** X9. What a completed run writes is a function of the fetched page and
    of the rate file: the CSV file and the database table both hold the
    transformation of the table extracted from the page, whatever they
    held before. The table has the columns [Name], [MC_USD_Billion],
    [MC_GBP_Billion], [MC_EUR_Billion], [MC_INR_Billion] in this order (the
    CSV file has its unnamed index column before them) and one record for
    each data row of the page with more than one cell. *)
Theorem completed_run_writes (env : Env) (w w' : World) :
  run env w = (Ok tt, w') ->
  exists page df,
    requests_get env url = Some page
    /\ transform_frame (read_csv env "exchange_rate.csv")
         (extracted_table (html_parser env page)) = (df, Ok tt)
    /\ csv_files w' = <[output_path := to_csv df]> (csv_files w)
    /\ databases w'
       = <[("Banks.db", table_name) := sql_table df]> (databases w)
    /\ tbl_columns (sql_table df) = output_columns
    /\ csv_header (to_csv df) = "" :: output_columns
    /\ length (tbl_rows (sql_table df))
       = length (List.filter qualifying (data_rows (html_parser env page)))
    /\ length (csv_records (to_csv df))
       = length (List.filter qualifying (data_rows (html_parser env page))).
Proof.
  intros H. apply run_completed_inv in H.
  destruct H as (page & df & h & o1 & o2 & o3
                 & Hpage & _ & _ & Htf & _ & _ & _ & _ & _ & _ & _ & ->).
  pose proof (extracted_table_wf (html_parser env page)) as Hwf.
  assert (Hcols : Frame.columns df = output_columns).
  { rewrite (transform_frame_columns _ _ _ Hwf Htf); reflexivity. }
  assert (Hn : Frame.nrows df
               = length (List.filter qualifying
                           (data_rows (html_parser env page)))).
  { destruct (transform_frame_ok _ _ _ Hwf Htf)
      as (? & ? & ? & ? & ? & ? & _ & _ & _ & _ & _ & _ & _ & ->).
    simpl. apply length_map. }
  exists page, df. simpl.
  split; [exact Hpage|]. split; [exact Htf|].
  split; [reflexivity|]. split; [reflexivity|].
  split; [exact Hcols|]. split; [rewrite Hcols; reflexivity|].
  split; [rewrite rows_length; exact Hn|].
  rewrite length_combine, length_seq, rows_length, Hn. apply Nat.min_id.
Qed.

Lemma completed_run_writes_witness :
  exists page df,
    requests_get (Sample.env_of Sample.plain_page Sample.rates) url
    = Some page
    /\ transform_frame
         (read_csv (Sample.env_of Sample.plain_page Sample.rates)
            "exchange_rate.csv")
         (extracted_table
            (html_parser (Sample.env_of Sample.plain_page Sample.rates) page))
       = (df, Ok tt)
    /\ csv_files (snd (run (Sample.env_of Sample.plain_page Sample.rates)
                         Sample.reload_world))
       = <[output_path := to_csv df]> (csv_files Sample.reload_world)
    /\ databases (snd (run (Sample.env_of Sample.plain_page Sample.rates)
                         Sample.reload_world))
       = <[("Banks.db", table_name) := sql_table df]>
           (databases Sample.reload_world)
    /\ tbl_columns (sql_table df) = output_columns
    /\ csv_header (to_csv df) = "" :: output_columns
    /\ length (tbl_rows (sql_table df))
       = length
           (List.filter qualifying
              (data_rows
                 (html_parser (Sample.env_of Sample.plain_page Sample.rates)
                    page)))
    /\ length (csv_records (to_csv df))
       = length
           (List.filter qualifying
              (data_rows
                 (html_parser (Sample.env_of Sample.plain_page Sample.rates)
                    page))).
Proof.
  apply (completed_run_writes
           (Sample.env_of Sample.plain_page Sample.rates)
           Sample.reload_world).
  vm_compute. reflexivity.
Defined.

(** X10. A completed run prints six things and nothing else: each of the
    three queries of the script, in order, followed by the answer of the
    SQL engine on the database as it is after the load, that is with the
    table of this run in place. *)
Theorem completed_run_prints (env : Env) (w w' : World) :
  run env w = (Ok tt, w') ->
  exists df o1 o2 o3,
    databases w' = <[("Banks.db", table_name) := sql_table df]> (databases w)
    /\ sqlite_select env "SELECT * FROM Largest_banks" "Banks.db"
         (databases w') = Some o1
    /\ sqlite_select env "SELECT AVG(MC_GBP_Billion) FROM Largest_banks"
         "Banks.db" (databases w') = Some o2
    /\ sqlite_select env "SELECT Name from Largest_banks LIMIT 5" "Banks.db"
         (databases w') = Some o3
    /\ stdout w'
       = stdout w
         ++ [ PStr "SELECT * FROM Largest_banks"; PFrame o1;
              PStr "SELECT AVG(MC_GBP_Billion) FROM Largest_banks"; PFrame o2;
              PStr "SELECT Name from Largest_banks LIMIT 5"; PFrame o3 ].
Proof.
  intros H. apply run_completed_inv in H.
  destruct H as (page & df & h & o1 & o2 & o3
                 & _ & _ & _ & _ & _ & _ & _ & _ & H1 & H2 & H3 & ->).
  exists df, o1, o2, o3. simpl. repeat split; assumption.
Qed.

Lemma completed_run_prints_witness :
  exists df o1 o2 o3,
    databases (snd (run (Sample.env_of Sample.plain_page Sample.rates)
                      Sample.empty_world))
    = <[("Banks.db", table_name) := sql_table df]>
        (databases Sample.empty_world)
    /\ sqlite_select (Sample.env_of Sample.plain_page Sample.rates)
         "SELECT * FROM Largest_banks" "Banks.db"
         (databases (snd (run (Sample.env_of Sample.plain_page Sample.rates)
                            Sample.empty_world))) = Some o1
    /\ sqlite_select (Sample.env_of Sample.plain_page Sample.rates)
         "SELECT AVG(MC_GBP_Billion) FROM Largest_banks" "Banks.db"
         (databases (snd (run (Sample.env_of Sample.plain_page Sample.rates)
                            Sample.empty_world))) = Some o2
    /\ sqlite_select (Sample.env_of Sample.plain_page Sample.rates)
         "SELECT Name from Largest_banks LIMIT 5" "Banks.db"
         (databases (snd (run (Sample.env_of Sample.plain_page Sample.rates)
                            Sample.empty_world))) = Some o3
    /\ stdout (snd (run (Sample.env_of Sample.plain_page Sample.rates)
                      Sample.empty_world))
       = stdout Sample.empty_world
         ++ [ PStr "SELECT * FROM Largest_banks"; PFrame o1;
              PStr "SELECT AVG(MC_GBP_Billion) FROM Largest_banks"; PFrame o2;
              PStr "SELECT Name from Largest_banks LIMIT 5"; PFrame o3 ].
Proof.
  apply (completed_run_prints
           (Sample.env_of Sample.plain_page Sample.rates)
           Sample.empty_world).
  vm_compute. reflexivity.
Defined.

Lemma bind_ok {A B} (m : M A) (k : A -> M B) (w : World) (a : A) (w1 : World) :
  m w = (Ok a, w1) -> bind m k w = k a w1.
Proof. intros H. unfold bind. rewrite H. reflexivity. Qed.

Lemma load_to_csv_eq (env : Env) (l : nat) (path : string) (w : World)
  (df : DataFrame) :
  heap w !! l = Some df -> csv_writable env path = true ->
  load_to_csv env l path w
  = (Ok tt, set_csv_files (<[path := to_csv df]> (csv_files w)) w).
Proof.
  intros Hl Hw. unfold load_to_csv, df_to_csv, bind, deref.
  rewrite Hl, Hw. reflexivity.
Qed.

Lemma sqlite3_connect_eq (env : Env) (file : string) (w : World) :
  sqlite_connectable env file = true ->
  sqlite3_connect env file w
  = (Ok (fresh (dom (connections w))),
     set_connections
       (<[fresh (dom (connections w)) := (file, true)]> (connections w)) w).
Proof. intros H. unfold sqlite3_connect. rewrite H. reflexivity. Qed.

Lemma load_to_db_eq (env : Env) (l h : nat) (name file : string) (w : World)
  (df : DataFrame) :
  heap w !! l = Some df -> connections w !! h = Some (file, true) ->
  sqlite_writable env file = true ->
  load_to_db env l h name w
  = (Ok tt,
     set_databases (<[(file, name) := sql_table df]> (databases w)) w).
Proof.
  intros Hl Hh Hw. unfold load_to_db, df_to_sql, bind, deref, open_file.
  rewrite Hl, Hh, Hw. destruct (databases w !! (file, name)); reflexivity.
Qed.

Lemma run_query_ok (env : Env) (query : string) (h : nat) (w : World)
  (file : string) (out : DataFrame) :
  connections w !! h = Some (file, true) ->
  sqlite_select env query file (databases w) = Some out ->
  run_query env query h w
  = (Ok None, set_stdout (stdout w ++ [PStr query; PFrame out]) w).
Proof.
  intros Hh Hs. pose proof (run_query_eq env query h w) as H.
  unfold pd_read_sql, bind, open_file in H. rewrite Hh, Hs in H. exact H.
Qed.

(** The converse of [run_completed_inv]. *)
Lemma run_completes_of (env : Env) (w : World) (page : string)
  (df o1 o2 o3 : DataFrame) :
  requests_get env url = Some page ->
  Soup.find_all "tbody" (html_parser env page) <> [] ->
  forallb row_readable (data_rows (html_parser env page)) = true ->
  transform_frame (read_csv env "exchange_rate.csv")
    (extracted_table (html_parser env page)) = (df, Ok tt) ->
  csv_writable env output_path = true ->
  sqlite_connectable env "Banks.db" = true ->
  sqlite_writable env "Banks.db" = true ->
  sqlite_select env "SELECT * FROM Largest_banks" "Banks.db"
    (<[("Banks.db", table_name) := sql_table df]> (databases w)) = Some o1 ->
  sqlite_select env "SELECT AVG(MC_GBP_Billion) FROM Largest_banks" "Banks.db"
    (<[("Banks.db", table_name) := sql_table df]> (databases w)) = Some o2 ->
  sqlite_select env "SELECT Name from Largest_banks LIMIT 5" "Banks.db"
    (<[("Banks.db", table_name) := sql_table df]> (databases w)) = Some o3 ->
  exists w', run env w = (Ok tt, w').
Proof.
  intros Hpage Htb Hall Htf Hcsv Hconn Hwr H1 H2 H3.
  unfold run. rewrite bind_log_progress.
  erewrite bind_ok.
  2:{ rewrite extract_eq, Hpage.
      destruct (Soup.find_all "tbody" (html_parser env page));
        [contradiction|].
      rewrite Hall. reflexivity. }
  world_fields. rewrite bind_log_progress. world_fields.
  erewrite bind_ok.
  2:{ rewrite (transform_eq _ _ _ _ (extracted_table (html_parser env page)))
        by (world_fields; apply lookup_insert_eq).
      rewrite Htf. reflexivity. }
  cbn [fst snd]. world_fields. rewrite insert_insert_eq.
  rewrite bind_log_progress. world_fields.
  erewrite bind_ok.
  2:{ apply (load_to_csv_eq _ _ _ _ df);
        [world_fields; apply lookup_insert_eq|exact Hcsv]. }
  world_fields. rewrite bind_log_progress. world_fields.
  erewrite bind_ok by (apply sqlite3_connect_eq; exact Hconn).
  world_fields. rewrite bind_log_progress. world_fields.
  erewrite bind_ok.
  2:{ apply (load_to_db_eq _ _ _ _ "Banks.db" _ df);
        [world_fields; apply lookup_insert_eq
        |world_fields; apply lookup_insert_eq|exact Hwr]. }
  world_fields. rewrite bind_log_progress. world_fields.
  erewrite bind_ok.
  2:{ apply (run_query_ok _ _ _ _ "Banks.db" o1);
        [world_fields; apply lookup_insert_eq|world_fields; exact H1]. }
  world_fields.
  erewrite bind_ok.
  2:{ apply (run_query_ok _ _ _ _ "Banks.db" o2);
        [world_fields; apply lookup_insert_eq|world_fields; exact H2]. }
  world_fields.
  erewrite bind_ok.
  2:{ apply (run_query_ok _ _ _ _ "Banks.db" o3);
        [world_fields; apply lookup_insert_eq|world_fields; exact H3]. }
  world_fields. rewrite bind_log_progress. world_fields.
  erewrite bind_ok.
  2:{ apply (connection_close_eq _ _ "Banks.db" true).
      world_fields. apply lookup_insert_eq. }
  eexists. reflexivity.
Qed.

(** X11. A run completes exactly when the page can be fetched, has a table
    body whose data rows can all be read, the transformation of the
    extracted table succeeds, the CSV file can be written, the database
    can be opened and written, and the SQL engine answers the three
    queries on the database with the new table in place. Nothing else in
    the world it starts from matters. *)
Theorem run_completes_iff (env : Env) (w : World) :
  (exists w', run env w = (Ok tt, w'))
  <-> exists page df o1 o2 o3,
        requests_get env url = Some page
        /\ Soup.find_all "tbody" (html_parser env page) <> []
        /\ forallb row_readable (data_rows (html_parser env page)) = true
        /\ transform_frame (read_csv env "exchange_rate.csv")
             (extracted_table (html_parser env page)) = (df, Ok tt)
        /\ csv_writable env output_path = true
        /\ sqlite_connectable env "Banks.db" = true
        /\ sqlite_writable env "Banks.db" = true
        /\ sqlite_select env "SELECT * FROM Largest_banks" "Banks.db"
             (<[("Banks.db", table_name) := sql_table df]> (databases w))
           = Some o1
        /\ sqlite_select env "SELECT AVG(MC_GBP_Billion) FROM Largest_banks"
             "Banks.db"
             (<[("Banks.db", table_name) := sql_table df]> (databases w))
           = Some o2
        /\ sqlite_select env "SELECT Name from Largest_banks LIMIT 5"
             "Banks.db"
             (<[("Banks.db", table_name) := sql_table df]> (databases w))
           = Some o3.
Proof.
  split.
  - intros (w' & H). apply run_completed_inv in H.
    destruct H as (page & df & h & o1 & o2 & o3
                   & Hpage & Htb & Hall & Htf & Hcsv & Hconn & Hwr & _
                   & H1 & H2 & H3 & _).
    exists page, df, o1, o2, o3. repeat split; assumption.
  - intros (page & df & o1 & o2 & o3
            & Hpage & Htb & Hall & Htf & Hcsv & Hconn & Hwr & H1 & H2 & H3).
    eapply run_completes_of; eassumption.
Qed.

Lemma valid_row_readable (row : node) :
  valid_row row -> row_readable row = true.
Proof.
  intros Hv. unfold row_readable.
  destruct (qualifying row) eqn:Hq.
  - destruct (Hv Hq)
      as (name_cell & link2 & col2 & name & f & H1 & Ha & _ & _ & H2 & _).
    rewrite H1.
    apply lookup_lt_Some in H2. apply lookup_lt_Some in Ha.
    apply orb_true_iff. right. apply andb_true_iff.
    split; apply Nat.leb_le; lia.
  - unfold qualifying in Hq. apply Nat.ltb_ge in Hq.
    apply orb_true_iff. left. apply Nat.leb_le. exact Hq.
Qed.

Lemma astype_float_caps (rows : list node) :
  Forall (fun r => exists f, PyFloat.float_of_str (row_cap r) = Some f) rows ->
  exists usd,
    Frame.astype_float (map (fun r => VStr (row_cap r)) rows) = Ok usd.
Proof.
  unfold Frame.astype_float.
  induction 1 as [|r rows [f Hf] _ [usd IH]]; simpl.
  - exists []. reflexivity.
  - rewrite Hf, IH. eexists. reflexivity.
Qed.

(** With the three rates at hand, a well-formed table whose market caps
    all convert is transformed. *)
Lemma transform_frame_succeeds (exr_df : RateSheet) (df : DataFrame)
  (raw usd : list value) (gbp eur inr : float) :
  Frame.wf df ->
  Frame.lookup_col "MC_USD_Billion" df = Some raw ->
  Frame.astype_float raw = Ok usd ->
  to_dict exr_df !! "GBP" = Some gbp ->
  to_dict exr_df !! "EUR" = Some eur ->
  to_dict exr_df !! "INR" = Some inr ->
  exists df', transform_frame (Some exr_df) df = (df', Ok tt).
Proof.
  intros Hwf Hraw Husd Hg He Hi.
  assert (Hlen : length usd = Frame.nrows df).
  { rewrite (result_map_length _ _ _ Husd).
    eapply FrameFacts.wf_lookup; eassumption. }
  pose proof (astype_float_floats _ _ Husd) as Hfl.
  unfold transform_frame, coerce_usd, Frame.getitem. rewrite Hraw. simpl.
  rewrite Husd. simpl. rewrite (FrameFacts.setitem_wf _ _ _ Hwf Hlen).
  set (df1 := Frame.set_col df "MC_USD_Billion" usd).
  assert (Hwf1 : Frame.wf df1) by (apply FrameFacts.wf_set_col; assumption).
  assert (Hu1 : Frame.lookup_col "MC_USD_Billion" df1 = Some usd)
    by apply FrameFacts.lookup_set_col_eq.
  destruct (add_currency_present _ "GBP" "MC_GBP_Billion" _ _ _ Hwf1 Hu1 Hfl Hg)
    as (vg & -> & Hwf2).
  assert (Hu2 : Frame.lookup_col "MC_USD_Billion"
                  (Frame.set_col df1 "MC_GBP_Billion" vg) = Some usd).
  { rewrite FrameFacts.lookup_set_col_ne by discriminate. exact Hu1. }
  destruct (add_currency_present _ "EUR" "MC_EUR_Billion" _ _ _ Hwf2 Hu2 Hfl He)
    as (ve & -> & Hwf3).
  assert (Hu3 : Frame.lookup_col "MC_USD_Billion"
                  (Frame.set_col (Frame.set_col df1 "MC_GBP_Billion" vg)
                     "MC_EUR_Billion" ve) = Some usd).
  { rewrite FrameFacts.lookup_set_col_ne by discriminate. exact Hu2. }
  destruct (add_currency_present _ "INR" "MC_INR_Billion" _ _ _ Hwf3 Hu3 Hfl Hi)
    as (vi & -> & _).
  eexists. reflexivity.
Qed.

(** X12. The run completes on every input that keeps the contract: the
    page can be fetched and has a table body, each data row with more than
    one cell has a titled second link in its second cell and a third cell
    whose stripped text is a positive number, the rate file holds the
    rates of GBP, EUR and INR, the CSV file and the database can be
    written, and the SQL engine answers the three queries of the script on
    any database that holds the table. *)
Theorem run_completes_on_contract (env : Env) (w : World) (page : string)
  (exr_df : RateSheet) (gbp eur inr : float) :
  requests_get env url = Some page ->
  Soup.find_all "tbody" (html_parser env page) <> [] ->
  Forall valid_row (data_rows (html_parser env page)) ->
  read_csv env "exchange_rate.csv" = Some exr_df ->
  to_dict exr_df !! "GBP" = Some gbp ->
  to_dict exr_df !! "EUR" = Some eur ->
  to_dict exr_df !! "INR" = Some inr ->
  csv_writable env output_path = true ->
  sqlite_connectable env "Banks.db" = true ->
  sqlite_writable env "Banks.db" = true ->
  (forall q tables,
      In q queries -> is_Some (tables !! ("Banks.db", table_name)) ->
      is_Some (sqlite_select env q "Banks.db" tables)) ->
  exists w', run env w = (Ok tt, w').
Proof.
  intros Hpage Htb Hrows Hread Hg He Hi Hcsv Hconn Hwr Hsql.
  assert (Hall : forallb row_readable (data_rows (html_parser env page))
                 = true).
  { apply forallb_forall. intros r Hr. apply valid_row_readable.
    rewrite List.Forall_forall in Hrows. apply Hrows, Hr. }
  destruct (astype_float_caps
              (List.filter qualifying (data_rows (html_parser env page))))
    as [usd Husd].
  { apply List.Forall_forall. intros r Hr. apply filter_In in Hr as [Hin Hq].
    rewrite List.Forall_forall in Hrows.
    destruct (valid_row_good_record r (Hrows r Hin) Hq)
      as (_ & _ & _ & f & Hf & _).
    exists f. exact Hf. }
  destruct (transform_frame_succeeds exr_df
              (extracted_table (html_parser env page)) _ usd gbp eur inr
              (extracted_table_wf _) eq_refl Husd Hg He Hi) as [df Htf].
  assert (Hq : forall q, In q queries ->
                 is_Some (sqlite_select env q "Banks.db"
                            (<[("Banks.db", table_name) := sql_table df]>
                               (databases w)))).
  { intros q Hin. apply Hsql; [exact Hin|].
    rewrite lookup_insert_eq. eexists. reflexivity. }
  destruct (Hq "SELECT * FROM Largest_banks") as [o1 H1];
    [left; reflexivity|].
  destruct (Hq "SELECT AVG(MC_GBP_Billion) FROM Largest_banks") as [o2 H2];
    [right; left; reflexivity|].
  destruct (Hq "SELECT Name from Largest_banks LIMIT 5") as [o3 H3];
    [right; right; left; reflexivity|].
  rewrite <- Hread in Htf.
  eapply run_completes_of; eassumption.
Qed.

Lemma run_completes_on_contract_witness :
  exists w',
    run (Sample.env_of Sample.plain_page Sample.rates) Sample.reload_world
    = (Ok tt, w').
Proof.
  apply (run_completes_on_contract
           (Sample.env_of Sample.plain_page Sample.rates) Sample.reload_world
           "<html>" Sample.rates 0.8%float 0.93%float 83%float).
  - reflexivity.
  - vm_compute. discriminate.
  - repeat constructor.
    + apply (sample_row_valid "1" "Bank A" "100.00 " 100%float);
        [discriminate | vm_compute; reflexivity | vm_compute; reflexivity].
    + apply (sample_row_valid "2" "Bank B" "50" 50%float);
        [discriminate | vm_compute; reflexivity | vm_compute; reflexivity].
  - reflexivity.
  - vm_compute. reflexivity.
  - vm_compute. reflexivity.
  - vm_compute. reflexivity.
  - reflexivity.
  - reflexivity.
  - reflexivity.
  - intros q tables _ [t Ht]. simpl. unfold table_name in Ht.
    rewrite Ht. eexists. reflexivity.
Defined.




